(** * Kairo: the section-selection and conflict-resolution engine

    A shallow embedding of [backend/api/services/schedule_service.py]
    (class [ScheduleService]), of the grouped selector of
    [backend/api/views.py] ([select_valid_sections], [has_time_conflict])
    and of the per-term pipeline of
    [backend/api/services/schedule_generator_service.py].

    Conventions.
    - Python [str] is [string]; only ASCII text is modelled (a character
      above 127 is neither a letter, a digit nor white space here).
    - Python [int] is [Z]; [len] is [nat].
    - A Python [dict] is an association list in insertion order, because
      the code depends on the iteration order of its dictionaries.
    - A Python call that may raise returns [Exc]; [try ... except Exception]
      is [catch]. *)

From Stdlib Require Import List String Ascii ZArith Lia Bool Arith.
From Stdlib Require Import Permutation Sorted.
Import ListNotations.

Local Open Scope string_scope.
Local Open Scope list_scope.
Local Open Scope Z_scope.

(** ** Python strings *)

Module PyStr.

(** [ord(c)] *)
Definition ord (c : ascii) : nat := nat_of_ascii c.

Definition is_digit (c : ascii) : bool :=
  (48 <=? ord c)%nat && (ord c <=? 57)%nat.

Definition is_upper (c : ascii) : bool :=
  (65 <=? ord c)%nat && (ord c <=? 90)%nat.

Definition is_lower (c : ascii) : bool :=
  (97 <=? ord c)%nat && (ord c <=? 122)%nat.

(** [str.isalpha] on one ASCII character. *)
Definition is_alpha (c : ascii) : bool := is_upper c || is_lower c.

(** White space of [str.strip], [str.split] and of the class [\s]:
    tab, line feed, vertical tab, form feed, carriage return, the four
    separators 28..31 and the blank. *)
Definition is_space (c : ascii) : bool :=
  ((9 <=? ord c)%nat && (ord c <=? 13)%nat)
  || ((28 <=? ord c)%nat && (ord c <=? 32)%nat).

Definition lower_char (c : ascii) : ascii :=
  if is_upper c then ascii_of_nat (ord c + 32) else c.

Definition upper_char (c : ascii) : ascii :=
  if is_lower c then ascii_of_nat (ord c - 32) else c.

Fixpoint map_chars (f : ascii -> ascii) (s : string) : string :=
  match s with
  | EmptyString => EmptyString
  | String c r => String (f c) (map_chars f r)
  end.

Definition lower : string -> string := map_chars lower_char.
Definition upper : string -> string := map_chars upper_char.

(** [str.title]: a cased character is upper-cased when the character
    before it is not cased, lower-cased otherwise. *)
Fixpoint title_from (previous_is_cased : bool) (s : string) : string :=
  match s with
  | EmptyString => EmptyString
  | String c r =>
      String (if previous_is_cased then lower_char c else upper_char c)
             (title_from (is_alpha c) r)
  end.

Definition titled : string -> string := title_from false.

Fixpoint lstrip (s : string) : string :=
  match s with
  | EmptyString => EmptyString
  | String c r => if is_space c then lstrip r else s
  end.

(** Drops the white space at the end: a character is kept when it is not
    white space or when something is kept after it. *)
Fixpoint rstrip (s : string) : string :=
  match s with
  | EmptyString => EmptyString
  | String c r =>
      match rstrip r with
      | EmptyString => if is_space c then EmptyString else String c EmptyString
      | r' => String c r'
      end
  end.

Definition strip (s : string) : string := rstrip (lstrip s).

(** [sub in s]. *)
Fixpoint contains (sub s : string) : bool :=
  prefix sub s
  || match s with
     | EmptyString => false
     | String _ r => contains sub r
     end.

(** [s.replace(' ', '')]. *)
Fixpoint remove_blanks (s : string) : string :=
  match s with
  | EmptyString => EmptyString
  | String c r =>
      if Ascii.eqb c " " then remove_blanks r else String c (remove_blanks r)
  end.

(** The characters of a string, each as a string of length one
    (iterating over a [str]). *)
Fixpoint chars (s : string) : list string :=
  match s with
  | EmptyString => []
  | String c r => String c EmptyString :: chars r
  end.

(** [s[:n]]. *)
Fixpoint take (n : nat) (s : string) : string :=
  match n, s with
  | O, _ => EmptyString
  | _, EmptyString => EmptyString
  | S k, String c r => String c (take k r)
  end.

(** [s[n:]]. *)
Fixpoint drop (n : nat) (s : string) : string :=
  match n, s with
  | O, _ => s
  | _, EmptyString => EmptyString
  | S k, String _ r => drop k r
  end.

(** [x in l] for a list of strings. *)
Definition mem (x : string) (l : list string) : bool :=
  existsb (String.eqb x) l.

Definition digit_val (c : ascii) : Z := Z.of_nat (ord c - 48).

(** [int(s)] for a string of decimal digits. *)
Fixpoint int_from (acc : Z) (s : string) : Z :=
  match s with
  | EmptyString => acc
  | String c r => int_from (10 * acc + digit_val c) r
  end.

Definition int_of_digits : string -> Z := int_from 0.

(** [s.isdigit()] *)
Fixpoint all_digits (s : string) : bool :=
  match s with
  | EmptyString => true
  | String c r => is_digit c && all_digits r
  end.

Definition isdigit (s : string) : bool :=
  negb (String.eqb s EmptyString) && all_digits s.

(** [s.replace(' ', '_')] *)
Definition blanks_to_underscores : string -> string :=
  map_chars (fun c => if Ascii.eqb c " " then "_"%char else c).

(** [s.split()]: the maximal runs of characters that are not white
    space; [cur] is the run being read, in reverse. *)
Fixpoint split_ws_from (cur : list ascii) (s : string) : list string :=
  let flush (rest : list string) :=
    match cur with
    | [] => rest
    | _ => string_of_list_ascii (rev cur) :: rest
    end in
  match s with
  | EmptyString => flush []
  | String c r =>
      if is_space c then flush (split_ws_from [] r)
      else split_ws_from (c :: cur) r
  end.

Definition split_ws : string -> list string := split_ws_from [].

(** [s.split(sep)] for a separator of one character; [cur] is the field
    being read, in reverse. *)
Fixpoint split_on_from (sep : ascii) (cur : list ascii) (s : string) : list string :=
  match s with
  | EmptyString => [string_of_list_ascii (rev cur)]
  | String c r =>
      if Ascii.eqb c sep
      then string_of_list_ascii (rev cur) :: split_on_from sep [] r
      else split_on_from sep (c :: cur) r
  end.

Definition split_on (sep : ascii) : string -> list string := split_on_from sep [].

(** The line feed of a format string. *)
Definition nl : string := String (ascii_of_nat 10) EmptyString.

End PyStr.

(** ** The regular expressions of the code, as matchers

    Each pattern is a sequence of pieces with no alternative left open: a
    greedy [\d{1,2}] is followed by a literal that is not a digit and a
    greedy [\s*] by a literal that is not white space, so giving back a
    character can never make a failed match succeed.  [re.search] tries the
    start positions from left to right. *)

Module Re.
Import PyStr.

(** [(\d{1,2})SEP(\d{2})] at the head of [s]: the text of the two
    groups and the rest of the string. *)
Definition hour_minute (sep : ascii) (s : string) : option (string * string * string) :=
  let after_hour (h : string) (r : string) :=
    match r with
    | String c (String m1 (String m2 r')) =>
        if Ascii.eqb c sep && is_digit m1 && is_digit m2
        then Some (h, String m1 (String m2 EmptyString), r')
        else None
    | _ => None
    end in
  match s with
  | String d1 (String d2 r) =>
      if is_digit d1 then
        if is_digit d2
        then after_hour (String d1 (String d2 EmptyString)) r
        else after_hour (String d1 EmptyString) (String d2 r)
      else None
  | String d1 r => if is_digit d1 then after_hour (String d1 EmptyString) r else None
  | EmptyString => None
  end.

(** [\s*] *)
Fixpoint skip_spaces (s : string) : string :=
  match s with
  | String c r => if is_space c then skip_spaces r else s
  | EmptyString => EmptyString
  end.

(** [(\d{1,2})SEP(\d{2})\s*-\s*(\d{1,2})SEP(\d{2})] at the head of [s]. *)
Definition range_here (sep : ascii) (s : string)
  : option (string * string * string * string) :=
  match hour_minute sep s with
  | Some (h1, m1, r) =>
      match skip_spaces r with
      | String "-" r' =>
          match hour_minute sep (skip_spaces r') with
          | Some (h2, m2, _) => Some (h1, m1, h2, m2)
          | None => None
          end
      | _ => None
      end
  | None => None
  end.

(** [re.search] of a pattern given by its matcher at one position. *)
Fixpoint search {A : Type} (here : string -> option A) (s : string) : option A :=
  match here s with
  | Some r => Some r
  | None =>
      match s with
      | EmptyString => None
      | String _ r => search here r
      end
  end.

(** [re.search(r'(\d{1,2}):(\d{2})\s*-\s*(\d{1,2}):(\d{2})', s)] and its
    French variant with [h]. *)
Definition search_range (sep : ascii)
  : string -> option (string * string * string * string) :=
  search (range_here sep).

(** [re.search(r'(\d{1,2}):(\d{2})', s)]. *)
Definition search_hour_minute (s : string) : option (string * string) :=
  search (fun s => match hour_minute ":" s with
                   | Some (h, m, _) => Some (h, m)
                   | None => None
                   end) s.

(** [re.search(r"(20\d{2})", k)]: the number matched. *)
Definition year_here (s : string) : option Z :=
  match s with
  | String "2" (String "0" (String d1 (String d2 _))) =>
      if is_digit d1 && is_digit d2
      then Some (2000 + 10 * digit_val d1 + digit_val d2)
      else None
  | _ => None
  end.

Definition search_year : string -> option Z := search year_here.

(** The separators of [re.split(r"[,/\s]+", s)]. *)
Definition is_sep (c : ascii) : bool :=
  Ascii.eqb c "," || Ascii.eqb c "/" || is_space c.

(** [re.split(r"[,/\s]+", s)]: [cur] is the field being read, in reverse;
    [in_run] tells that the character before was a separator. *)
Fixpoint split_from (cur : list ascii) (in_run : bool) (s : string) : list string :=
  match s with
  | EmptyString => [string_of_list_ascii (rev cur)]
  | String c r =>
      if is_sep c then
        if in_run then split_from cur true r
        else string_of_list_ascii (rev cur) :: split_from [] true r
      else split_from (c :: cur) false r
  end.

Definition split_seps : string -> list string := split_from [] false.

End Re.

(** ** Values read from the course-data files

    The numbers are the integers, and an object has each of its keys
    once. *)

#[local] Unset Elimination Schemes.
Inductive json : Type :=
| JNull
| JBool (b : bool)
| JNum (n : Z)
| JStr (s : string)
| JList (l : list json)
| JDict (kv : list (string * json)).
#[local] Set Elimination Schemes.

(** The result of a Python call: a value, or an exception that a
    [try ... except Exception] catches. *)
Inductive Exc (A : Type) : Type :=
| Ok (a : A)
| Raise.
Arguments Ok {A} a.
Arguments Raise {A}.

Definition bind {A B : Type} (m : Exc A) (k : A -> Exc B) : Exc B :=
  match m with
  | Ok a => k a
  | Raise => Raise
  end.

(** [try: body except Exception: handler] *)
Definition catch {A : Type} (body : Exc A) (handler : A) : A :=
  match body with
  | Ok a => a
  | Raise => handler
  end.

Declare Scope exc_scope.
Notation "x <- m ;; k" := (bind m (fun x => k))
  (at level 61, m at next level, right associativity) : exc_scope.
Local Open Scope exc_scope.

(** Dictionaries in insertion order. *)
Module Dict.

Fixpoint get {V : Type} (k : string) (d : list (string * V)) : option V :=
  match d with
  | [] => None
  | (k', v) :: r => if String.eqb k k' then Some v else get k r
  end.

(** [d[k] = v]: the value of an existing key is replaced in place, a new
    key goes to the end. *)
Fixpoint set {V : Type} (k : string) (v : V) (d : list (string * V)) : list (string * V) :=
  match d with
  | [] => [(k, v)]
  | (k', v') :: r => if String.eqb k k' then (k, v) :: r else (k', v') :: set k v r
  end.

(** [d.setdefault(k, []).append(v)] *)
Definition append_to {V : Type} (k : string) (v : V) (d : list (string * list V))
  : list (string * list V) :=
  match get k d with
  | Some l => set k (l ++ [v]) d
  | None => set k [v] d
  end.

Definition keys {V : Type} (d : list (string * V)) : list string := map fst d.
Definition values {V : Type} (d : list (string * V)) : list V := map snd d.

End Dict.

Module Json.

(** [bool(j)] *)
Definition truthy (j : json) : bool :=
  match j with
  | JNull => false
  | JBool b => b
  | JNum n => negb (n =? 0)
  | JStr s => negb (String.eqb s "")
  | JList l => match l with [] => false | _ => true end
  | JDict kv => match kv with [] => false | _ => true end
  end.

(** [a or b] *)
Definition or_else (a b : json) : json := if truthy a then a else b.

(** [j.get(k)]: [None] for a missing key; an [AttributeError] when [j]
    is not a dictionary. *)
Definition get (k : string) (j : json) : Exc json :=
  match j with
  | JDict kv => Ok (match Dict.get k kv with Some v => v | None => JNull end)
  | _ => Raise
  end.

(** [j.get(k, default)] *)
Definition get_default (k : string) (default : json) (j : json) : Exc json :=
  match j with
  | JDict kv => Ok (match Dict.get k kv with Some v => v | None => default end)
  | _ => Raise
  end.

End Json.

(** ** ScheduleService: time and day parsing, conflict detection *)

(** [datetime.time(hour, minute)]; the order of two times is the order of
    their (hour, minute) pairs. *)
Record Time : Type := mkTime { hour : Z; minute : Z }.

(** The constructor raises [ValueError] outside 0..23 and 0..59. *)
Definition time_of (h m : Z) : Exc Time :=
  if (0 <=? h) && (h <=? 23) && (0 <=? m) && (m <=? 59)
  then Ok (mkTime h m) else Raise.

Definition time_le (a b : Time) : bool :=
  (hour a <? hour b) || ((hour a =? hour b) && (minute a <=? minute b)).

(** The value under the key ['days']: a list of names or abbreviations, or
    one string. *)
Inductive DaysInput : Type :=
| DaysList (items : list string)
| DaysStr (s : string).

(** The dictionary [section_info] that the loader builds for one section.
    [title] is a key the loader does not set (the views add it). *)
Record SectionInfo : Type := mkSection {
  code : string;
  section : json;
  time : string;
  days : DaysInput;
  instructor : json;
  location : json;
  courseTitle : json;
  type : string;
  status : json;
  is_open : bool;
  title : option json
}.

Module ScheduleService.
Import PyStr.

Definition _parse_time_string (time_str : string) : option (Time * Time) :=
  if String.eqb time_str "" || String.eqb time_str "TBA" then None
  else
    let time_str := strip time_str in
    let fix first_match (seps : list ascii) :=
      match seps with
      | [] => None
      | sep :: rest =>
          match Re.search_range sep time_str with
          | Some g => Some g
          | None => first_match rest
          end
      end in
    match first_match [":"%char; "h"%char] with
    | Some (start_hour, start_min, end_hour, end_min) =>
        catch (start_time <- time_of (int_of_digits start_hour) (int_of_digits start_min) ;;
               end_time <- time_of (int_of_digits end_hour) (int_of_digits end_min) ;;
               Ok (Some (start_time, end_time)))
              None
    | None => None
    end.

Definition day_mapping : list (string * string) :=
  [ ("M", "Monday"); ("Mo", "Monday");
    ("T", "Tuesday"); ("Tu", "Tuesday");
    ("W", "Wednesday"); ("We", "Wednesday");
    ("R", "Thursday"); ("Th", "Thursday");
    ("F", "Friday"); ("Fr", "Friday");
    ("S", "Saturday"); ("Sa", "Saturday");
    ("U", "Sunday"); ("Su", "Sunday") ].

(** [item.lower() in [v.lower() for v in day_mapping.values()]] *)
Definition is_full_name (item : string) : bool :=
  mem (lower item) (map lower (Dict.values day_mapping)).

Definition mapped (k : string) : list string :=
  match Dict.get k day_mapping with
  | Some v => [v]
  | None => []
  end.

Definition _parse_days_string (days_input : DaysInput) : list string :=
  match days_input with
  | DaysList items =>
      flat_map (fun item => if is_full_name item then [titled item] else mapped item)
               items
  | DaysStr s =>
      if String.eqb s "" then []
      else
        let tokens :=
          map strip
              (filter (fun tok => negb (String.eqb (strip tok) ""))
                      (Re.split_seps s)) in
        if existsb is_full_name tokens
        then flat_map (fun tok => if is_full_name tok then [titled tok] else []) tokens
        else flat_map mapped (chars (upper s))
  end.

Definition _times_conflict (time1 time2 : Time * Time) : bool :=
  let '(start1, end1) := time1 in
  let '(start2, end2) := time2 in
  negb (time_le end1 start2 || time_le end2 start1).

(** [set(section_days) & set(scheduled_days)], as the list of the days of
    the first that are days of the second. *)
Definition common_days (section_days scheduled_days : list string) : list string :=
  filter (fun d => mem d scheduled_days) section_days.

(** No operation of the body raises on a [SectionInfo], so its
    [except] branch is not reached. *)
Definition _section_conflicts_with_schedule
           (section : SectionInfo) (existing_schedule : list SectionInfo) : bool :=
  let section_times := _parse_time_string (time section) in
  let section_days := _parse_days_string (days section) in
  match section_times, section_days with
  | None, _ => false
  | _, [] => false
  | Some section_times, _ =>
      let fix loop (schedule : list SectionInfo) : bool :=
        match schedule with
        | [] => false
        | scheduled_item :: rest =>
            let scheduled_times := _parse_time_string (time scheduled_item) in
            let scheduled_days := _parse_days_string (days scheduled_item) in
            match scheduled_times, scheduled_days with
            | None, _ => loop rest
            | _, [] => loop rest
            | Some scheduled_times, _ =>
                match common_days section_days scheduled_days with
                | [] => loop rest
                | _ =>
                    if _times_conflict section_times scheduled_times
                    then true else loop rest
                end
            end
        end in
      loop existing_schedule
  end.

(** The conflict of two sections: the detector run on a schedule of one. *)
Definition conflicts (a b : SectionInfo) : bool :=
  _section_conflicts_with_schedule a [b].

(** *** Sorting

    [sorted] is stable, and a stable sort has one possible result:
    insertion from the right, each element going before the first one
    that is not below it. *)

Fixpoint insert_by {A : Type} (le : A -> A -> bool) (x : A) (l : list A) : list A :=
  match l with
  | [] => [x]
  | y :: r => if le x y then x :: y :: r else y :: insert_by le x r
  end.

Fixpoint sorted_by {A : Type} (le : A -> A -> bool) (l : list A) : list A :=
  match l with
  | [] => []
  | x :: r => insert_by le x (sorted_by le r)
  end.

(** [sorted(l, key=key)] for an integer key. *)
Definition sorted_key {A : Type} (key : A -> Z) : list A -> list A :=
  sorted_by (fun x y => key x <=? key y).

(** [sorted(l, key=key, reverse=True)]: descending, equal elements in
    their original order. *)
Definition sorted_key_reverse {A : Type} (key : A -> Z) : list A -> list A :=
  sorted_by (fun x y => key y <=? key x).

(** The order of the tuples [(a, b)] of two integers. *)
Definition pair_le (p q : Z * Z) : bool :=
  (fst p <? fst q) || ((fst p =? fst q) && (snd p <=? snd q)).

(** *** The simple selector *)

(** [section.get('location', '').upper()]: an [AttributeError] when the
    value is not a string. *)
Definition upper_of (j : json) : Exc string :=
  match j with
  | JStr s => Ok (upper s)
  | _ => Raise
  end.

Definition _get_section_priority (section : SectionInfo) : Z :=
  catch
    (let time_str := time section in
     location <- upper_of (location section) ;;
     let priority := 0 in
     let times := _parse_time_string time_str in
     let priority :=
       match times with
       | Some (start_time, _) => priority + (hour start_time * 60 + minute start_time)
       | None => priority + 2000
       end in
     let priority :=
       if contains "ONLINE" location || contains "TBA" location
       then priority + 1000 else priority in
     Ok priority)
    9999.

(** The key of [sorted_sections]. *)
Definition section_key (s : SectionInfo) : Z * Z :=
  (if is_open s then 0 else 1, _get_section_priority s).

Definition sort_sections : list SectionInfo -> list SectionInfo :=
  sorted_by (fun a b => pair_le (section_key a) (section_key b)).

(** [sorted(available_sections.items(), key=lambda x: len(x[1]))] *)
Definition courses_by_options (available_sections : list (string * list SectionInfo))
  : list (string * list SectionInfo) :=
  sorted_key (fun x => Z.of_nat (List.length (snd x))) available_sections.

(** The first section of the sorted candidates that does not conflict
    with the schedule. *)
Definition best_section (sections schedule : list SectionInfo) : option SectionInfo :=
  find (fun section => negb (_section_conflicts_with_schedule section schedule))
       (sort_sections sections).

(** The loop over the courses, with its two accumulators.  A section
    dictionary has keys, so [if best_section:] tests for [None] only. *)
Fixpoint select_loop (courses : list (string * list SectionInfo))
         (selected_sections : list (string * option SectionInfo))
         (schedule : list SectionInfo)
  : list (string * option SectionInfo) * list SectionInfo :=
  match courses with
  | [] => (selected_sections, schedule)
  | (course_code, sections) :: rest =>
      match sections with
      | [] => select_loop rest (Dict.set course_code None selected_sections) schedule
      | _ =>
          match best_section sections schedule with
          | Some best =>
              select_loop rest (Dict.set course_code (Some best) selected_sections)
                          (schedule ++ [best])
          | None =>
              select_loop rest (Dict.set course_code None selected_sections) schedule
          end
      end
  end.

Definition auto_select_sections (available_sections : list (string * list SectionInfo))
  : list (string * option SectionInfo) :=
  fst (select_loop (courses_by_options available_sections) [] []).

(** The sections committed by a selection, in the order of its keys. *)
Definition committed (selected_sections : list (string * option SectionInfo))
  : list SectionInfo :=
  flat_map (fun kv => match snd kv with Some s => [s] | None => [] end)
           selected_sections.

(** *** The course-data loader *)

(** The directories of the candidate paths. *)
Inductive Dir : Type :=
| ScrapersData              (* <repo>/scrapers/data *)
| ApiData                   (* <repo>/backend/api/data *)
| FrontendPublicApiData     (* <repo>/frontend/public/api/data *)
| FrontendPublic            (* <repo>/frontend/public *)
| AppBackendApiData         (* /app/backend/api/data *)
| AppScrapersData.          (* /app/scrapers/data *)

Definition Path : Type := Dir * string.

(** What [open] and [json.load] make of an existing file: an exception
    (unreadable, malformed JSON) or a value. *)
Inductive File : Type :=
| Malformed
| Parsed (j : json).

(** The files that exist. *)
Definition FileSystem : Type := Path -> option File.

Definition exists_ (fs : FileSystem) (p : Path) : bool :=
  match fs p with Some _ => true | None => false end.

(** [with open(p) as f: json.load(f)] *)
Definition load_json (fs : FileSystem) (p : Path) : Exc json :=
  match fs p with
  | Some (Parsed j) => Ok j
  | _ => Raise
  end.

Definition by_term_file : string := "all_courses_by_term.json".

Definition possible_paths : list Path :=
  [ (ScrapersData, by_term_file); (ApiData, by_term_file);
    (FrontendPublicApiData, by_term_file); (AppBackendApiData, by_term_file);
    (AppScrapersData, by_term_file) ].

Definition _get_course_data_path (fs : FileSystem) (term : string) : Path :=
  match find (exists_ fs) possible_paths with
  | Some path => path
  | None => (ScrapersData, by_term_file)
  end.

Definition _map_term_to_kairoll_format (term : string) : string :=
  titled (strip term).

Definition _determine_section_type (section_code : json) : Exc string :=
  if negb (Json.truthy section_code) then Ok "LEC"
  else
    section_upper <- upper_of section_code ;;
    Ok (if contains "LAB" section_upper then "LAB"
        else if contains "DGD" section_upper then "DGD"
        else if contains "TUT" section_upper then "TUT"
        else if contains "SEM" section_upper then "SEM"
        else if contains "LEC" section_upper then "LEC"
        else if contains "WRK" section_upper || contains "WORKSHOP" section_upper then "WRK"
        else if contains "STU" section_upper || contains "STUDIO" section_upper then "STU"
        else "LEC").

Definition open_tokens : list string := ["open"; "available"; "spaces"; "spots"].
Definition closed_tokens : list string := ["closed"; "full"; "waitlist"].

(** [any(tok in status_str for tok in tokens)] *)
Definition any_token (tokens : list string) (status_str : string) : bool :=
  existsb (fun tok => contains tok status_str) tokens.

(** The assignments to [is_open], from the lowered status string. *)
Definition is_open_of_tokens (status_str : string) : bool :=
  let is_open := false in
  let is_open := if any_token open_tokens status_str then true else is_open in
  let is_open := if any_token closed_tokens status_str then false else is_open in
  is_open.

Definition day_abbreviations : list (string * string) :=
  [ ("Mo", "Monday"); ("Tu", "Tuesday"); ("We", "Wednesday"); ("Th", "Thursday");
    ("Fr", "Friday"); ("Sa", "Saturday"); ("Su", "Sunday") ].

Definition scan_days (s : string) : list string :=
  flat_map (fun kv => if contains (fst kv) s then [snd kv] else []) day_abbreviations.

(** The text [f"{m.group(1)}-{m.group(2)}"] of the first time range of
    [s], or the empty string.  The second pattern of the source is the
    first one without its [\s*], so it matches nothing the first
    misses. *)
Definition scan_time_range (s : string) : string :=
  match Re.search_range ":" s with
  | Some (h1, m1, h2, m2) =>
      String.append h1 (String.append ":" (String.append m1
        (String.append "-" (String.append h2 (String.append ":" m2)))))
  | None => ""
  end.

(** How [_parse_days_string] sees a value of the data file: a list keeps
    its strings (the other hashable items match no key), and an item
    that cannot be hashed raises [TypeError]; a value that is neither a
    list nor a string yields no day. *)
Fixpoint strings_of (items : list json) : Exc (list string) :=
  match items with
  | [] => Ok []
  | JStr s :: r => l <- strings_of r ;; Ok (s :: l)
  | JList _ :: _ | JDict _ :: _ => Raise
  | _ :: r => strings_of r
  end.

Definition days_input_of (days_val : json) : Exc DaysInput :=
  match days_val with
  | JList items => l <- strings_of items ;; Ok (DaysList l)
  | JStr s => Ok (DaysStr s)
  | _ => Ok (DaysList [])
  end.

Section Loader.

(** [str(j)] of a value that is not a string, and [json.dumps(j)]:
    Python's printers. *)
Variable py_repr : json -> string.
Variable json_dumps : json -> string.

Definition py_str (j : json) : string :=
  match j with
  | JStr s => s
  | _ => py_repr j
  end.

Definition _extract_time_from_schedule (schedule_input : json) : string :=
  if negb (Json.truthy schedule_input) then ""
  else
    match schedule_input with
    | JDict kv =>
        let get k := match Dict.get k kv with Some v => v | None => JNull end in
        let t := Json.or_else (Json.or_else (get "time") (get "hours")) (JStr "") in
        match t with
        | JStr ts =>
            if contains "-" ts then remove_blanks ts
            else scan_time_range (json_dumps schedule_input)
        | JList (t0 :: _) =>
            let s := remove_blanks (py_str t0) in
            if contains "-" s then s
            else scan_time_range (json_dumps schedule_input)
        | _ => scan_time_range (json_dumps schedule_input)
        end
    | _ => scan_time_range (py_str schedule_input)
    end.

Definition _extract_days_from_schedule (schedule_input : json) : list string :=
  if negb (Json.truthy schedule_input) then []
  else
    match schedule_input with
    | JDict kv =>
        let get k := match Dict.get k kv with Some v => v | None => JNull end in
        let days_val := Json.or_else (Json.or_else (get "days") (get "day")) (JList []) in
        catch (days_input <- days_input_of days_val ;;
               Ok (_parse_days_string days_input))
              (scan_days (py_str schedule_input))
    | _ => scan_days (py_str schedule_input)
    end.

(** [is_open] from the raw status. *)
Definition status_is_open (raw_status : json) : bool :=
  let status_str :=
    match raw_status with
    | JNull => ""
    | _ => lower (strip (py_str raw_status))
    end in
  match raw_status with
  | JBool b => b
  | _ => is_open_of_tokens status_str
  end.

(** [section.get('status') or section.get('availability') or
    section.get('openStatus') or section.get('open')] *)
Definition raw_status_of (section : json) : Exc json :=
  a <- Json.get "status" section ;;
  b <- Json.get "availability" section ;;
  c <- Json.get "openStatus" section ;;
  d <- Json.get "open" section ;;
  Ok (Json.or_else (Json.or_else (Json.or_else a b) c) d).

(** The body of the loop of [_load_course_data] for one section. *)
Definition add_section (course_sections : list (string * list SectionInfo))
           (section : json) : Exc (list (string * list SectionInfo)) :=
  c1 <- Json.get "courseCode" section ;;
  c2 <- Json.get "code" section ;;
  c3 <- Json.get "course_code" section ;;
  let raw_code := Json.or_else (Json.or_else (Json.or_else c1 c2) c3) (JStr "") in
  let course_code := upper (remove_blanks (py_str raw_code)) in
  if String.eqb course_code "" then Ok course_sections
  else
    raw_status <- raw_status_of section ;;
    let is_open := status_is_open raw_status in
    schedule_blob <- Json.get "schedule" section ;;
    d1 <- Json.get "days" section ;;
    d2 <- Json.get "day" section ;;
    t1 <- Json.get "time" section ;;
    t2 <- Json.get "hours" section ;;
    let schedule_blob :=
      if Json.truthy schedule_blob then schedule_blob
      else JDict [ ("days", Json.or_else (Json.or_else d1 d2) (JStr ""));
                   ("time", Json.or_else (Json.or_else t1 t2) (JStr "")) ] in
    section_code <- Json.get_default "section" (JStr "") section ;;
    instructor <- Json.get_default "instructor" (JStr "") section ;;
    location <- Json.get_default "location" (JStr "") section ;;
    n1 <- Json.get "courseTitle" section ;;
    n2 <- Json.get "title" section ;;
    n3 <- Json.get "name" section ;;
    type <- _determine_section_type section_code ;;
    let section_info :=
      {| code := course_code;
         section := section_code;
         time := _extract_time_from_schedule schedule_blob;
         days := DaysList (_extract_days_from_schedule schedule_blob);
         instructor := instructor;
         location := location;
         courseTitle := Json.or_else (Json.or_else (Json.or_else n1 n2) n3) (JStr "");
         type := type;
         status := match raw_status with JNull => JStr "" | _ => raw_status end;
         is_open := is_open;
         title := None |} in
    Ok (Dict.append_to course_code section_info course_sections).

(** The same for [_load_course_data_from_single_file]; the course code
    must be a string there ([.replace] on anything else raises). *)
Definition add_section_single (course_sections : list (string * list SectionInfo))
           (section : json) : Exc (list (string * list SectionInfo)) :=
  raw_code <- Json.get_default "courseCode" (JStr "") section ;;
  match raw_code with
  | JStr raw_code =>
      let course_code := upper (remove_blanks raw_code) in
      if String.eqb course_code "" then Ok course_sections
      else
        raw_status <- raw_status_of section ;;
        let is_open := status_is_open raw_status in
        section_code <- Json.get_default "section" (JStr "") section ;;
        schedule <- Json.get_default "schedule" (JStr "") section ;;
        instructor <- Json.get_default "instructor" (JStr "") section ;;
        location <- Json.get_default "location" (JStr "") section ;;
        courseTitle <- Json.get_default "courseTitle" (JStr "") section ;;
        type <- _determine_section_type section_code ;;
        let section_info :=
          {| code := course_code;
             section := section_code;
             time := _extract_time_from_schedule schedule;
             days := DaysList (_extract_days_from_schedule schedule);
             instructor := instructor;
             location := location;
             courseTitle := courseTitle;
             type := type;
             status := match raw_status with JNull => JStr "" | _ => raw_status end;
             is_open := is_open;
             title := None |} in
        Ok (Dict.append_to course_code section_info course_sections)
  | _ => Raise
  end.

(** [for x in xs: acc = step(acc, x)], stopping at the first exception. *)
Fixpoint for_each {A B : Type} (step : B -> A -> Exc B) (xs : list A) (acc : B) : Exc B :=
  match xs with
  | [] => Ok acc
  | x :: r => acc' <- step acc x ;; for_each step r acc'
  end.

(** [for section in data]: the items of a list.  Iterating over a
    non-empty dictionary or string gives strings, on which [.get]
    raises at the first step; a number or a Boolean cannot be
    iterated: every value that is not a list ends in an exception. *)
Definition sections_of (data : json) : Exc (list json) :=
  match data with
  | JList l => Ok l
  | _ => Raise
  end.

Definition slug_of (term : string) : string :=
  let label := _map_term_to_kairoll_format term in
  match split_ws label with
  | [p0; p1] =>
      if negb (String.eqb p0 "") && isdigit p1
      then String.append (lower p0) (String.append "_" p1)
      else blanks_to_underscores (lower term)
  | _ => blanks_to_underscores (lower term)
  end.

Definition candidate_paths (slug : string) : list Path :=
  let name := String.append "all_courses_" (String.append slug ".json") in
  [ (ScrapersData, name); (ApiData, name); (FrontendPublic, name);
    (AppScrapersData, name); (AppBackendApiData, name) ].

(** The [try] block of [_load_course_data_from_single_file]. *)
Definition _load_course_data_from_single_file_try (fs : FileSystem) (term : string)
  : Exc (list (string * list SectionInfo)) :=
    (let slug := slug_of term in
     data <- match find (exists_ fs) (candidate_paths slug) with
             | Some p => load_json fs p
             | None => Ok JNull
             end ;;
     if negb (Json.truthy data) then Ok []
     else
       sections <- sections_of data ;;
       for_each add_section_single sections []).

Definition _load_course_data_from_single_file (fs : FileSystem) (term : string)
  : list (string * list SectionInfo) :=
  catch (_load_course_data_from_single_file_try fs term) [].

Definition extract_year (k : string) : Z :=
  match Re.search_year k with
  | Some y => y
  | None => 0
  end.

(** The [try] block of [_load_course_data]. *)
Definition _load_course_data_try (fs : FileSystem) (term : string)
  : Exc (list (string * list SectionInfo)) :=
    (let course_data_path := _get_course_data_path fs term in
     kairoll_data <- load_json fs course_data_path ;;
     match kairoll_data with
     | JDict kv =>
         let term_key := _map_term_to_kairoll_format term in
         let matching_keys :=
           filter (fun key => contains (lower term) (lower key)) (Dict.keys kv) in
         let matching_keys :=
           match matching_keys with
           | [] => filter (fun key => String.eqb (lower key) (lower term_key)) (Dict.keys kv)
           | _ => matching_keys
           end in
         let best_key := hd_error (sorted_key_reverse extract_year matching_keys) in
         let term_data :=
           match best_key with
           | Some k =>
               if String.eqb k "" then JNull
               else match Dict.get k kv with Some v => v | None => JNull end
           | None => JNull
           end in
         if negb (Json.truthy term_data) then
           let single_term_sections := _load_course_data_from_single_file fs term in
           match single_term_sections with
           | [] => Ok []
           | _ => Ok single_term_sections
           end
         else
           sections <- sections_of term_data ;;
           for_each add_section sections []
     | _ => Raise
     end).

Definition _load_course_data (fs : FileSystem) (term : string)
  : list (string * list SectionInfo) :=
  catch (_load_course_data_try fs term) [].

(** *** The fuzzy course matcher *)

Definition _normalize_course_code (course_code : string) : string :=
  if String.eqb course_code "" then ""
  else upper (remove_blanks course_code).

(** The number of letters at the head of [s]. *)
Fixpoint leading_letters (s : string) : nat :=
  match s with
  | String c r => if is_alpha c then S (leading_letters r) else O
  | EmptyString => O
  end.

Definition _add_space_to_course_code (course_code : string) : string :=
  if String.eqb course_code "" || (String.length course_code <? 4)%nat
  then course_code
  else
    let i := leading_letters course_code in
    if (0 <? i)%nat && (i <? String.length course_code)%nat
    then String.append (take i course_code) (String.append " " (drop i course_code))
    else course_code.

(** The loop of [extract_subject_and_number]; the two accumulators are
    in reverse. *)
Fixpoint subject_and_digits (s : string) (subject_chars number_chars : list ascii)
  : list ascii * list ascii :=
  match s with
  | EmptyString => (subject_chars, number_chars)
  | String ch r =>
      if is_alpha ch && match number_chars with [] => true | _ => false end
      then subject_and_digits r (ch :: subject_chars) number_chars
      else if is_digit ch
           then subject_and_digits r subject_chars (ch :: number_chars)
           else subject_and_digits r subject_chars number_chars
  end.

Definition extract_subject_and_number (code : string) : string * option Z :=
  let normalized := _normalize_course_code code in
  let '(subject_chars, number_chars) := subject_and_digits normalized [] [] in
  let subject := string_of_list_ascii (rev subject_chars) in
  let number :=
    match number_chars with
    | [] => None
    | _ => Some (int_of_digits (string_of_list_ascii (rev number_chars)))
    end in
  (subject, number).

(** [subject_to_codes]: subject -> the codes of the subject with their
    numbers, in the order of the course data. *)
Definition subject_to_codes_of (available_codes : list string)
  : list (string * list (string * option Z)) :=
  fold_left
    (fun subject_to_codes avail =>
       let '(subj, num) := extract_subject_and_number avail in
       if String.eqb subj "" then subject_to_codes
       else Dict.append_to subj (avail, num) subject_to_codes)
    available_codes [].

(** [score < best_score] on tuples. *)
Definition pair_lt (p q : Z * Z) : bool :=
  (fst p <? fst q) || ((fst p =? fst q) && (snd p <? snd q)).

Definition score_of (normalized_code : string) (target_number : option Z)
           (cand : string * option Z) : Z * Z :=
  let '(cand_code, cand_num) := cand in
  match target_number, cand_num with
  | Some target_number, Some cand_num =>
      let diff := Z.abs (cand_num - target_number) in
      let tie := if String.eqb cand_code normalized_code then 0 else 1 in
      (diff, tie)
  | _, _ => (10 ^ 8, if String.eqb cand_code normalized_code then 0 else 1)
  end.

(** The loop over the candidates of the subject: [best_code] and
    [best_score] after it. *)
Definition best_of (normalized_code : string) (target_number : option Z)
           (candidates : list (string * option Z)) : option string * (Z * Z) :=
  fold_left
    (fun best cand =>
       let score := score_of normalized_code target_number cand in
       if pair_lt score (snd best) then (Some (fst cand), score) else best)
    candidates (None, (10 ^ 9, 10 ^ 9)).

(** [bool(best_code)] *)
Definition some_code (best_code : option string) : bool :=
  match best_code with
  | Some c => negb (String.eqb c "")
  | None => false
  end.

(** The code chosen for a course that was not found under its own
    names. *)
Definition fuzzy_code (course_sections : list (string * list SectionInfo))
           (course_code : string) : option string :=
  let available_codes := Dict.keys course_sections in
  let subject_to_codes := subject_to_codes_of available_codes in
  let normalized_code := _normalize_course_code course_code in
  let '(target_subject, target_number) := extract_subject_and_number course_code in
  let best_code :=
    if String.eqb target_subject "" then None
    else match Dict.get target_subject subject_to_codes with
         | Some candidates => fst (best_of normalized_code target_number candidates)
         | None => None
         end in
  if some_code best_code then best_code
  else
    let normalized_target := _normalize_course_code course_code in
    let similar_codes :=
      filter (fun code => contains (take 3 normalized_target) code) available_codes in
    match similar_codes with
    | c :: _ => Some c
    | [] => best_code
    end.

(** The sections recorded for one requested course. *)
Definition sections_for (course_sections : list (string * list SectionInfo))
           (course_code : string) : list SectionInfo :=
  let normalized_code := _normalize_course_code course_code in
  let spaced_code := _add_space_to_course_code course_code in
  let search_codes := [course_code; normalized_code; spaced_code] in
  match find (fun search_code =>
                match Dict.get search_code course_sections with
                | Some _ => true | None => false end) search_codes with
  | Some search_code =>
      match Dict.get search_code course_sections with
      | Some sections => sections
      | None => []
      end
  | None =>
      let best_code := fuzzy_code course_sections course_code in
      match best_code with
      | Some c =>
          if negb (String.eqb c "")
          then match Dict.get c course_sections with
               | Some sections => sections
               | None => []
               end
          else []
      | None => []
      end
  end.

(** The loop over the requested codes, from a loaded map. *)
Definition find_in (course_sections : list (string * list SectionInfo))
           (course_codes : list string) : list (string * list SectionInfo) :=
  fold_left
    (fun result course_code =>
       Dict.set course_code (sections_for course_sections course_code) result)
    course_codes [].

(** No operation of the body raises on a list of strings, so the
    [except] branch, which returns the empty map, is not reached. *)
Definition find_sections_for_courses (fs : FileSystem)
           (course_codes : list string) (term : string)
  : list (string * list SectionInfo) :=
  let course_sections := _load_course_data fs term in
  find_in course_sections course_codes.

End Loader.

(** *** The calendar materializer *)

(** [datetime.date(year, month, day)] *)
Record Date : Type := mkDate { year_of : Z; month_of : Z; day_of : Z }.

Definition is_leap (y : Z) : bool :=
  (y mod 4 =? 0) && (negb (y mod 100 =? 0) || (y mod 400 =? 0)).

Definition days_in_month (y m : Z) : Z :=
  if m =? 2 then (if is_leap y then 29 else 28)
  else if (m =? 4) || (m =? 6) || (m =? 9) || (m =? 11) then 30
  else 31.

(** The constructor raises [ValueError] outside the years 1..9999 and
    the days of the month. *)
Definition date_of (y m d : Z) : Exc Date :=
  if (1 <=? y) && (y <=? 9999) && (1 <=? m) && (m <=? 12)
     && (1 <=? d) && (d <=? days_in_month y m)
  then Ok (mkDate y m d) else Raise.

Definition Date_eqb (a b : Date) : bool :=
  (year_of a =? year_of b) && (month_of a =? month_of b) && (day_of a =? day_of b).

Definition _get_term_dates (term : string) (year : Z) : Exc (Date * Date) :=
  let fall :=
    a <- date_of year 9 3 ;; b <- date_of year 12 2 ;; Ok (a, b) in
  if String.eqb (lower term) "fall" then fall
  else if String.eqb (lower term) "winter" then
    a <- date_of (year + 1) 1 12 ;; b <- date_of (year + 1) 4 15 ;; Ok (a, b)
  else if mem (lower term) ["spring"; "summer"] then
    a <- date_of (year + 1) 5 5 ;; b <- date_of (year + 1) 7 29 ;; Ok (a, b)
  else fall.

(** A user, by name. *)
Definition User : Type := string.

(** A row of [UserCalendar], with the fields that [create] receives. *)
Record CalendarEvent : Type := mkEvent {
  ev_user : User;
  ev_title : string;
  start_time : Time;
  end_time : Time;
  day_of_week : string;
  start_date : Date;
  end_date : Date;
  description : string;
  professor : json;
  ev_location : json;
  recurrence_pattern : string;
  theme : string
}.

(** The table [UserCalendar]: its rows, in the order of their creation. *)
Definition Store : Type := list CalendarEvent.

Section Calendar.

Variable py_repr : json -> string.

(** The writes that the store refuses, from its rows and the new row:
    [UserCalendar.objects.create] raises on them. *)
Variable rejects : Store -> CalendarEvent -> bool.

Definition create (db : Store) (ev : CalendarEvent) : Exc Store :=
  if rejects db ev then Raise else Ok (db ++ [ev]).

(** The loop over the days of one section.  An exception of [create]
    leaves the loop and the [try] block of the section: the handler
    logs it and goes on with the next section, and the rows written
    before stay. *)
Fixpoint create_days (event_on : string -> CalendarEvent) (days : list string)
         (events_added : Z) (db : Store) : Z * Store :=
  match days with
  | [] => (events_added, db)
  | day :: rest =>
      match create db (event_on day) with
      | Ok db' => create_days event_on rest (events_added + 1) db'
      | Raise => (events_added, db)
      end
  end.

(** The body of the loop over the selection, for one course. *)
Definition add_section_events (user : User) (term_start term_end : Date)
           (acc : Z * Store) (entry : string * option SectionInfo) : Z * Store :=
  let '(events_added, db) := acc in
  let '(course_code, chosen) := entry in
  match chosen with
  | None => acc
  | Some sec =>
      let title :=
        String.append course_code
          (String.append " - "
             match title sec with
             | Some t => py_str py_repr t
             | None => "Course"
             end) in
      let instructor := instructor sec in
      let location := location sec in
      let time_str := time sec in
      let days_str := days sec in
      let section_code := section sec in
      let times := _parse_time_string time_str in
      let days := _parse_days_string days_str in
      match times, days with
      | None, _ => acc
      | _, [] => acc
      | Some (start_time, end_time), _ =>
          create_days
            (fun day =>
               {| ev_user := user;
                  ev_title := title;
                  start_time := start_time;
                  end_time := end_time;
                  day_of_week := day;
                  start_date := term_start;
                  end_date := term_end;
                  description :=
                    String.append "Section: "
                      (String.append (py_str py_repr section_code)
                         (String.append nl
                            (String.append "Location: " (py_str py_repr location))));
                  professor := instructor;
                  ev_location := location;
                  recurrence_pattern := "weekly";
                  theme := "midnight-light-blue" |})
            days events_added db
      end
  end.

(** The count of the events added and the store after the call; the
    dates of the term are computed outside every [try], so their
    exception leaves the function. *)
Definition add_sections_to_calendar (user : User)
           (selected_sections : list (string * option SectionInfo))
           (term : string) (year : Z) (db : Store) : Exc (Z * Store) :=
  let events_added := 0 in
  dates <- _get_term_dates term year ;;
  let '(term_start, term_end) := dates in
  Ok (fold_left (add_section_events user term_start term_end)
                selected_sections (events_added, db)).

(** The rows that [clear_user_schedule] selects. *)
Definition in_term (user : User) (term_start term_end : Date) (ev : CalendarEvent) : bool :=
  String.eqb (ev_user ev) user
  && Date_eqb (start_date ev) term_start
  && Date_eqb (end_date ev) term_end
  && String.eqb (recurrence_pattern ev) "weekly".

(** The count of the rows removed and the store after the call. *)
Definition clear_user_schedule (user : User) (term : string) (year : Z) (db : Store)
  : Z * Store :=
  catch
    (dates <- _get_term_dates term year ;;
     let '(term_start, term_end) := dates in
     let events_to_remove := filter (in_term user term_start term_end) db in
     let deleted_count := Z.of_nat (List.length events_to_remove) in
     Ok (deleted_count,
         filter (fun ev => negb (in_term user term_start term_end ev)) db))
    (0, db).

(** The materializer, as the views call it: [clear_user_schedule], then
    [add_sections_to_calendar], for the same user, term and year. *)
Definition materialize (user : User)
           (selected_sections : list (string * option SectionInfo))
           (term : string) (year : Z) (db : Store) : Exc (Z * Store) :=
  let '(_, db) := clear_user_schedule user term year db in
  add_sections_to_calendar user selected_sections term year db.

End Calendar.

(** *** The selector with preferences *)

(** The keys that the selector reads under ['time_constraints'] and under
    ['instructor_preferences']; [None] stands for a missing key.  The
    values are strings and lists of strings, as the code expects them. *)
Record TimeConstraints : Type := mkTimeConstraints {
  earliest_start : option string;
  latest_end : option string;
  avoid_days : option (list string);
  preferred_times : option (list string)
}.

Record InstructorPreferences : Type := mkInstructorPreferences {
  avoid_instructors : option (list string)
}.

Record Preferences : Type := mkPreferences {
  time_constraints : option TimeConstraints;
  instructor_preferences : option InstructorPreferences
}.

(** [d.get(k, default)] on these records. *)
Definition or_default {A : Type} (value : option A) (default : A) : A :=
  match value with
  | Some v => v
  | None => default
  end.

(** [a < b] on [datetime.time]. *)
Definition time_lt (a b : Time) : bool := negb (time_le b a).

(** [for d in days]: the items of a list, the characters of a string. *)
Definition day_items (days : DaysInput) : list string :=
  match days with
  | DaysList items => items
  | DaysStr s => chars s
  end.

(** No operation of the body raises on these types, so the [except]
    branch, which answers [True], is not reached. *)
Definition _section_meets_time_constraints (sec : SectionInfo)
           (earliest_start latest_end : string) (avoid_days : list string) : bool :=
  let time_str := time sec in
  let days := days sec in
  if existsb (fun day => mem (lower day) (map lower (day_items days))) avoid_days
  then false
  else
    if negb (String.eqb time_str "") && contains "-" time_str then
      match _parse_time_string time_str with
      | Some (start_time, end_time) =>
          let earliest :=
            _parse_time_string
              (String.append earliest_start (String.append "-" earliest_start)) in
          let latest :=
            _parse_time_string
              (String.append latest_end (String.append "-" latest_end)) in
          match earliest, latest with
          | Some earliest, Some latest =>
              if time_lt start_time (fst earliest) || time_lt (snd latest) end_time
              then false else true
          | _, _ => true
          end
      | None => true
      end
    else true.

(** [any(avoid_sec in section_code for avoid_sec in avoid_sections)]:
    nothing is evaluated for an empty list; [in] is the substring test on
    a string, membership in a list and in the keys of a dictionary, and
    a [TypeError] on [None], a Boolean or a number. *)
Definition label_avoided (avoid_sections : list string) (section_code : json) : Exc bool :=
  match avoid_sections with
  | [] => Ok false
  | _ =>
      match section_code with
      | JStr s => Ok (existsb (fun avoid_sec => contains avoid_sec s) avoid_sections)
      | JList items =>
          Ok (existsb (fun avoid_sec =>
                         existsb (fun item => match item with
                                              | JStr i => String.eqb avoid_sec i
                                              | _ => false
                                              end) items)
                      avoid_sections)
      | JDict kv => Ok (existsb (fun avoid_sec => mem avoid_sec (Dict.keys kv)) avoid_sections)
      | _ => Raise
      end
  end.

(** [section.get('instructor', '').strip()]: an [AttributeError] when the
    value is not a string. *)
Definition stripped (j : json) : Exc string :=
  match j with
  | JStr s => Ok (strip s)
  | _ => Raise
  end.

Section WithPreferences.

(** The scores and the state of [random]: [_calculate_section_score]
    draws from [random.uniform] at each call, and the list of the scored
    sections is sorted on the scores, a greater score first. *)
Variable Score : Type.
Variable score_leb : Score -> Score -> bool.
Variable Random : Type.
Variable _calculate_section_score :
  SectionInfo -> TimeConstraints -> InstructorPreferences -> Random -> Score * Random.

(** The loop of [_find_best_section]: [scored_sections] after it.  An
    exception leaves the loop with the state of [random] as it is. *)
Fixpoint scored_sections (sections existing_sections : list SectionInfo)
         (avoid_sections : list string)
         (time_constraints : TimeConstraints)
         (instructor_preferences : InstructorPreferences)
         (g : Random) : Exc (list (Score * SectionInfo)) * Random :=
  let avoid_instructors := or_default (avoid_instructors instructor_preferences) [] in
  let earliest_start := or_default (earliest_start time_constraints) "06:00" in
  let latest_end := or_default (latest_end time_constraints) "22:00" in
  let avoid_days := or_default (avoid_days time_constraints) [] in
  match sections with
  | [] => (Ok [], g)
  | sec :: rest =>
      let section_code := section sec in
      match stripped (instructor sec) with
      | Raise => (Raise, g)
      | Ok instructor =>
          match label_avoided avoid_sections section_code with
          | Raise => (Raise, g)
          | Ok avoided =>
              if avoided
                 || _section_conflicts_with_schedule sec existing_sections
                 || existsb (fun avoid_inst =>
                               contains (lower avoid_inst) (lower instructor))
                            avoid_instructors
                 || negb (_section_meets_time_constraints
                            sec earliest_start latest_end avoid_days)
              then scored_sections rest existing_sections avoid_sections
                                   time_constraints instructor_preferences g
              else
                let '(score, g) :=
                  _calculate_section_score sec time_constraints
                                           instructor_preferences g in
                match scored_sections rest existing_sections avoid_sections
                                      time_constraints instructor_preferences g with
                | (Ok more, g) => (Ok ((score, sec) :: more), g)
                | (Raise, g) => (Raise, g)
                end
          end
      end
  end.

Definition _find_best_section (sections existing_sections : list SectionInfo)
           (avoid_sections : list string)
           (time_constraints : TimeConstraints)
           (instructor_preferences : InstructorPreferences)
           (course_code : string) (g : Random) : Exc (option SectionInfo) * Random :=
  match scored_sections sections existing_sections avoid_sections
                        time_constraints instructor_preferences g with
  | (Ok scored, g) =>
      (Ok match sorted_by (fun a b => score_leb (fst b) (fst a)) scored with
          | (_, best) :: _ => Some best
          | [] => None
          end, g)
  | (Raise, g) => (Raise, g)
  end.

(** [course_type_sections[course_code]]: the sections of a course under
    their types. *)
Definition sections_by_type (sections : list SectionInfo)
  : list (string * list SectionInfo) :=
  fold_left (fun by_type sec => Dict.append_to (type sec) sec by_type) sections [].

Definition course_type_sections_of (available_sections : list (string * list SectionInfo))
  : list (string * list (string * list SectionInfo)) :=
  fold_left (fun acc entry => Dict.set (fst entry) (sections_by_type (snd entry)) acc)
            available_sections [].

(** The loop over the types of one course: [selected_sections[course_code]]
    and [all_selected] after it. *)
Fixpoint select_types (course_code : string)
         (type_sections : list (string * list SectionInfo))
         (avoid_sections : list string)
         (time_constraints : TimeConstraints)
         (instructor_preferences : InstructorPreferences)
         (chosen : list (string * SectionInfo)) (all_selected : list SectionInfo)
         (g : Random)
  : Exc (list (string * SectionInfo) * list SectionInfo) * Random :=
  match type_sections with
  | [] => (Ok (chosen, all_selected), g)
  | (section_type, sections) :: rest =>
      match _find_best_section sections all_selected avoid_sections
                               time_constraints instructor_preferences course_code g with
      | (Ok (Some best_section), g) =>
          select_types course_code rest avoid_sections time_constraints
                       instructor_preferences
                       (Dict.set section_type best_section chosen)
                       (all_selected ++ [best_section]) g
      | (Ok None, g) =>
          select_types course_code rest avoid_sections time_constraints
                       instructor_preferences chosen all_selected g
      | (Raise, g) => (Raise, g)
      end
  end.

(** The loop over the courses. *)
Fixpoint select_courses
         (course_type_sections : list (string * list (string * list SectionInfo)))
         (avoid_sections : list string)
         (time_constraints : TimeConstraints)
         (instructor_preferences : InstructorPreferences)
         (selected_sections : list (string * list (string * SectionInfo)))
         (all_selected : list SectionInfo) (g : Random)
  : Exc (list (string * list (string * SectionInfo)) * list SectionInfo) * Random :=
  match course_type_sections with
  | [] => (Ok (selected_sections, all_selected), g)
  | (course_code, type_sections) :: rest =>
      match select_types course_code type_sections avoid_sections time_constraints
                         instructor_preferences [] all_selected g with
      | (Ok (chosen, all_selected), g) =>
          select_courses rest avoid_sections time_constraints instructor_preferences
                         (Dict.set course_code chosen selected_sections) all_selected g
      | (Raise, g) => (Raise, g)
      end
  end.

(** A value of the result: the list of the sections chosen for a course,
    one section when the selector fell back on [auto_select_sections], or
    [None]. *)
Inductive Chosen : Type :=
| Nothing
| Single (chosen : SectionInfo)
| Several (chosen : list SectionInfo).

Definition auto_select_sections_with_preferences
           (available_sections : list (string * list SectionInfo))
           (preferences : option Preferences) (avoid_sections : option (list string))
           (g : Random) : list (string * Chosen) * Random :=
  let no_preferences := mkPreferences None None in
  let preferences := or_default preferences no_preferences in
  let avoid_sections := or_default avoid_sections [] in
  let time_constraints :=
    or_default (time_constraints preferences) (mkTimeConstraints None None None None) in
  let instructor_preferences :=
    or_default (instructor_preferences preferences) (mkInstructorPreferences None) in
  match select_courses (course_type_sections_of available_sections) avoid_sections
                       time_constraints instructor_preferences [] [] g with
  | (Ok (selected_sections, _), g) =>
      (map (fun entry =>
              (fst entry,
               match snd entry with
               | [] => Nothing
               | type_sections => Several (Dict.values type_sections)
               end))
           selected_sections, g)
  | (Raise, g) =>
      (map (fun entry =>
              (fst entry,
               match snd entry with
               | Some chosen => Single chosen
               | None => Nothing
               end))
           (auto_select_sections available_sections), g)
  end.

(** An item of [current_schedule], with the two keys that are read;
    [None] stands for a missing key, and the values are strings. *)
Record CurrentSection : Type := mkCurrentSection {
  current_section_code : option string;
  current_section : option string
}.

(** The answer of [generate_alternative_schedule]: ['success'],
    ['sections'] and ['total_sections'], which a failure does not carry;
    the text of ['message'] is left out. *)
Record Alternative : Type := mkAlternative {
  alternative_success : bool;
  alternative_sections : list (string * list SectionInfo);
  total_sections : option Z
}.

(** [section.get('section_code') or section.get('section', '')], kept
    when it is not empty. *)
Definition codes_to_avoid (current_schedule : list CurrentSection) : list string :=
  flat_map (fun item =>
              let section_code :=
                match current_section_code item with
                | Some c => if String.eqb c "" then or_default (current_section item) "" else c
                | None => or_default (current_section item) ""
                end in
              if String.eqb section_code "" then [] else [section_code])
           current_schedule.

(** The loop that counts the selections. *)
Definition count_selections (selected_sections : list (string * Chosen))
  : list (string * list SectionInfo) * Z :=
  fold_left
    (fun acc entry =>
       let '(successful_selections, total_sections) := acc in
       match snd entry with
       | Several (s :: more) =>
           (Dict.set (fst entry) (s :: more) successful_selections,
            total_sections + Z.of_nat (List.length (s :: more)))
       | Single s =>
           (Dict.set (fst entry) [s] successful_selections, total_sections + 1)
       | _ => acc
       end)
    selected_sections ([], 0).

Variables py_repr json_dumps : json -> string.
Variable fs : FileSystem.

(** No operation of the body raises on these types: the two functions
    it calls handle their own exceptions. *)
Definition generate_alternative_schedule (course_codes : list string) (term : string)
           (current_schedule : option (list CurrentSection))
           (preferences : option Preferences) (g : Random) : Alternative * Random :=
  let failure := mkAlternative false [] None in
  let available_sections :=
    find_sections_for_courses py_repr json_dumps fs course_codes term in
  match available_sections with
  | [] => (failure, g)
  | _ =>
      let avoid_sections := codes_to_avoid (or_default current_schedule []) in
      let '(selected_sections, g) :=
        auto_select_sections_with_preferences available_sections preferences
                                              (Some avoid_sections) g in
      let '(successful_selections, total_sections) := count_selections selected_sections in
      if 0 <? total_sections
      then (mkAlternative true successful_selections (Some total_sections), g)
      else (failure, g)
  end.

End WithPreferences.

End ScheduleService.

(** ** ScheduleGeneratorService: the pipeline of one generation *)

Module ScheduleGeneratorService.
Import PyStr.

(** An event of the response, as [_convert_sections_to_events] builds it. *)
Record FrontendEvent : Type := mkFrontendEvent {
  fe_title : string;
  fe_start_time : string;
  fe_end_time : string;
  fe_day_of_week : string;
  fe_start_date : string;
  fe_end_date : string;
  fe_description : string;
  fe_recurrence_pattern : string;
  fe_theme : string
}.

Definition day_mapping : list (string * string) :=
  [ ("M", "Monday"); ("T", "Tuesday"); ("W", "Wednesday");
    ("R", "Thursday"); ("F", "Friday"); ("S", "Saturday") ].

(** [for char in days_str]: the items of a list, the characters of a
    string. *)
Definition iterate_days (days_str : DaysInput) : list string :=
  match days_str with
  | DaysList items => items
  | DaysStr s => chars s
  end.

(** [not days_str or days_str == 'TBA'] *)
Definition no_days (days_str : DaysInput) : bool :=
  match days_str with
  | DaysList items => match items with [] => true | _ => false end
  | DaysStr s => String.eqb s "" || String.eqb s "TBA"
  end.

(** *** The term of a message *)

(** [any(word in message_lower for word in words)] *)
Definition any_word (words : list string) (message_lower : string) : bool :=
  existsb (fun word => PyStr.contains word message_lower) words.

Definition _infer_term_from_message (message : string) : option string :=
  let message_lower := PyStr.lower message in
  if any_word ["fall"; "autumn"; "september"; "sept"] message_lower then Some "Fall"
  else if any_word ["winter"; "january"; "jan"] message_lower then Some "Winter"
  else if any_word ["spring"; "may"] message_lower then Some "Spring"
  else if any_word ["summer"; "june"; "july"] message_lower then Some "Summer"
  else None.

Section Generate.

Variable py_repr : json -> string.
Variable json_dumps : json -> string.
Variable rejects : ScheduleService.Store -> ScheduleService.CalendarEvent -> bool.
Variable fs : ScheduleService.FileSystem.

Let str := ScheduleService.py_str py_repr.

Definition events_of (course_code : string) (sec : SectionInfo) : list FrontendEvent :=
  let time_str := time sec in
  let days_str := days sec in
  if String.eqb time_str "" || no_days days_str || String.eqb time_str "TBA" then []
  else
    match split_on "-" (remove_blanks time_str) with
    | [start_time; end_time] =>
        let days_list :=
          flat_map (fun char => match Dict.get char day_mapping with
                                | Some d => [d]
                                | None => []
                                end)
                   (iterate_days days_str) in
        map (fun day =>
               {| fe_title :=
                    String.append course_code
                      (String.append " - "
                         match title sec with
                         | Some t => str t
                         | None => course_code
                         end);
                  fe_start_time := start_time;
                  fe_end_time := end_time;
                  fe_day_of_week := day;
                  fe_start_date := "2025-09-02";
                  fe_end_date := "2025-12-09";
                  fe_description :=
                    String.append "Section: "
                      (String.append (str (section sec))
                         (String.append "\nInstructor: "
                            (String.append (str (instructor sec))
                               (String.append "\nLocation: " (str (location sec))))));
                  fe_recurrence_pattern := "weekly";
                  fe_theme := "blue" |})
            days_list
    | _ => []
    end.

Definition _convert_sections_to_events
           (selected_sections : list (string * option SectionInfo)) (term : string)
  : list FrontendEvent :=
  flat_map (fun entry =>
              match snd entry with
              | Some sec => events_of (fst entry) sec
              | None => []
              end)
           selected_sections.

(** What the curriculum gives for one term: [get_required_courses] and
    [get_electives_info]. *)
Record TermPlan : Type := mkPlan {
  plan_term : string;
  required_courses : list string;
  electives_info : list string
}.

(** The accumulators of the loop over the terms. *)
Record Totals : Type := mkTotals {
  all_events : list FrontendEvent;
  all_successful : list string;
  all_failed : list string;
  all_electives : list string;
  term_summaries : list (string * Z)
}.

Record Response : Type := mkResponse {
  success : bool;
  events : list FrontendEvent;
  matched_courses : list string;
  unmatched_courses : list string;
  summary : list (string * Z)
}.

(** Steps 4 to 7 for each term.  An exception stops the loop; the
    store keeps what was written before it. *)
Fixpoint run_terms (user : ScheduleService.User) (pname : string)
         (plans : list TermPlan) (acc : Totals) (db : ScheduleService.Store)
  : Exc Totals * ScheduleService.Store :=
  match plans with
  | [] => (Ok acc, db)
  | plan :: rest =>
      let term := plan_term plan in
      match required_courses plan, electives_info plan with
      | [], [] => run_terms user pname rest acc db
      | _, _ =>
          let available_sections :=
            ScheduleService.find_sections_for_courses
              py_repr json_dumps fs (required_courses plan) term in
          let selected_sections :=
            ScheduleService.auto_select_sections available_sections in
          match ScheduleService.add_sections_to_calendar
                  py_repr rejects user selected_sections term 2025 db with
          | Ok (events_added, db') =>
              let term_events := _convert_sections_to_events selected_sections term in
              run_terms user pname rest
                {| all_events := all_events acc ++ term_events;
                   all_successful :=
                     all_successful acc
                     ++ flat_map (fun cs => match snd cs with
                                            | Some _ => [fst cs] | None => [] end)
                                 selected_sections;
                   all_failed :=
                     all_failed acc
                     ++ flat_map (fun cs => match snd cs with
                                            | Some _ => [] | None => [fst cs] end)
                                 selected_sections;
                   all_electives := all_electives acc ++ electives_info plan;
                   term_summaries :=
                     term_summaries acc
                     ++ [(String.append pname (String.append " " term), events_added)] |}
                db'
          | Raise => (Raise, db)
          end
      end
  end.

(** [generate_schedule_from_message] from its step 4 on: the program,
    the year and the terms come from the detection steps before. *)
Definition generate (user : ScheduleService.User) (pname : string)
           (plans : list TermPlan) (db : ScheduleService.Store)
  : Response * ScheduleService.Store :=
  let failure :=
    {| success := false; events := []; matched_courses := [];
       unmatched_courses := []; summary := [] |} in
  match run_terms user pname plans
                  {| all_events := []; all_successful := []; all_failed := [];
                     all_electives := []; term_summaries := [] |} db with
  | (Ok acc, db') =>
      match all_events acc, all_successful acc, all_electives acc with
      | [], [], [] => (failure, db')
      | _, _, _ =>
          ({| success := true;
              events := all_events acc;
              matched_courses := all_successful acc;
              unmatched_courses := all_failed acc;
              summary := term_summaries acc |}, db')
      end
  | (Raise, db') => (failure, db')
  end.

End Generate.

End ScheduleGeneratorService.

(** ** The grouped selector of the views *)

Module Views.
Import PyStr.

(** The state of [random]: the numbers it will draw. *)
Definition Rng : Type := list nat.

(** [random._randbelow(n)] *)
Definition randbelow (n : nat) (g : Rng) : nat * Rng :=
  match g with
  | [] => (O, [])
  | r :: g' => (Nat.modulo r n, g')
  end.

(** [x[i] = v] *)
Fixpoint update {A : Type} (i : nat) (v : A) (x : list A) : list A :=
  match i, x with
  | _, [] => []
  | O, _ :: r => v :: r
  | S k, a :: r => a :: update k v r
  end.

(** [x[i], x[j] = x[j], x[i]] *)
Definition swap {A : Type} (i j : nat) (x : list A) : list A :=
  match nth_error x i, nth_error x j with
  | Some a, Some b => update j a (update i b x)
  | _, _ => x
  end.

(** [random.shuffle(x)]: for [i] from [len(x) - 1] down to 1, the item
    at [i] is exchanged with the one at a random place up to [i]. *)
Fixpoint shuffle_from {A : Type} (i : nat) (x : list A) (g : Rng) : list A * Rng :=
  match i with
  | O => (x, g)
  | S k =>
      let '(j, g') := randbelow (S i) g in
      shuffle_from k (swap i j x) g'
  end.

Definition shuffle {A : Type} (x : list A) (g : Rng) : list A * Rng :=
  shuffle_from (List.length x - 1) x g.

(** [set(section.get('days', []))], as a list. *)
Definition days_set (d : DaysInput) : list string :=
  match d with
  | DaysList items => items
  | DaysStr s => chars s
  end.

Definition has_time_conflict (new_section : SectionInfo)
           (existing_sections : list SectionInfo) : bool :=
  let new_days := days_set (days new_section) in
  let new_time := time new_section in
  match new_days with
  | [] => false
  | _ =>
      if String.eqb new_time "" then false
      else
        existsb
          (fun existing =>
             let existing_days := days_set (days existing) in
             let existing_time := time existing in
             match ScheduleService.common_days new_days existing_days with
             | [] => false
             | _ => String.eqb new_time existing_time
             end)
          existing_sections
  end.

Definition start_minutes (sec : SectionInfo) : Z :=
  match Re.search_hour_minute (time sec) with
  | Some (hh, mm) => int_of_digits hh * 60 + int_of_digits mm
  | None => 10 ^ 6
  end.

(** The group of a section code: its first character, [A] without one.
    The loader leaves a string or a false value under ['section']; any
    other value is taken as raising. *)
Definition section_group_of (section_code : json) : Exc string :=
  match section_code with
  | JStr (String c _) => Ok (String c EmptyString)
  | _ => if Json.truthy section_code then Raise else Ok "A"
  end.

Definition Groups : Type := list (string * list (string * list SectionInfo)).

(** [courses[course_code][section_group][section_type].append(section)],
    each level created when missing. *)
Definition file_section (courses : list (string * Groups)) (sec : SectionInfo)
  : Exc (list (string * Groups)) :=
  let course_code := code sec in
  let section_type := type sec in
  section_group <- section_group_of (section sec) ;;
  let groups := match Dict.get course_code courses with Some g => g | None => [] end in
  let types := match Dict.get section_group groups with Some t => t | None => [] end in
  Ok (Dict.set course_code
        (Dict.set section_group (Dict.append_to section_type sec types) groups)
        courses).

Definition sort_candidates : list SectionInfo -> list SectionInfo :=
  ScheduleService.sorted_by
    (fun a b => ScheduleService.pair_le
                  (if is_open a then 0 else 1, start_minutes a)
                  (if is_open b then 0 else 1, start_minutes b)).

(** The loop over the types of one group: the selections of the group,
    or [None] when a type has no section free of conflict. *)
Fixpoint try_group (selected course_selections : list SectionInfo)
         (group_types : list (string * list SectionInfo))
         (group_selections : list SectionInfo) : option (list SectionInfo) :=
  match group_types with
  | [] => Some group_selections
  | (section_type, sections) :: rest =>
      match find (fun sec =>
                    negb (has_time_conflict
                            sec (selected ++ course_selections ++ group_selections)))
                 (sort_candidates sections) with
      | Some sec => try_group selected course_selections rest (group_selections ++ [sec])
      | None => None
      end
  end.

(** The loop over the groups of one course: the selections of the first
    group that works. *)
Fixpoint try_groups (selected : list SectionInfo) (available_groups : Groups)
  : list SectionInfo :=
  match available_groups with
  | [] => []
  | (group_id, group_types) :: rest =>
      match try_group selected [] group_types [] with
      | Some (sec :: more) => sec :: more
      | _ => try_groups selected rest
      end
  end.

Fixpoint course_loop (course_items : list (string * Groups))
         (selected : list SectionInfo) (g : Rng) : list SectionInfo * Rng :=
  match course_items with
  | [] => (selected, g)
  | (course_code, section_groups) :: rest =>
      let '(available_groups, g') := shuffle section_groups g in
      let course_selections := try_groups selected available_groups in
      course_loop rest (selected ++ course_selections) g'
  end.

(** [get_live_sections]: the sections found for the courses, one after
    the other, in the format of the views.  The canonical code is the
    ['code'] of the loaded section, which is never empty, and ['title'] is
    its ['courseTitle']. *)
Definition get_live_sections (py_repr json_dumps : json -> string)
           (fs : ScheduleService.FileSystem) (course_codes : list string) (term : string)
  : list SectionInfo :=
  let available_sections :=
    ScheduleService.find_sections_for_courses py_repr json_dumps fs course_codes term in
  flat_map
    (fun entry =>
       map (fun sec =>
              {| code := code sec;
                 section := section sec;
                 time := time sec;
                 days := days sec;
                 instructor := instructor sec;
                 location := location sec;
                 courseTitle := courseTitle sec;
                 type := type sec;
                 status := status sec;
                 is_open := is_open sec;
                 title := Some (courseTitle sec) |})
           (snd entry))
    available_sections.

Definition select_valid_sections (available_sections : list SectionInfo) (g : Rng)
  : list SectionInfo * Rng :=
  match ScheduleService.for_each file_section available_sections [] with
  | Ok courses =>
      let '(course_items, g') := shuffle courses g in
      course_loop course_items [] g'
  | Raise => ([], g)
  end.

(** *** Writing the selection to the calendar *)

(** [s.replace(xy, '')] for a string [xy] of two characters. *)
Fixpoint remove_pair (x y : ascii) (s : string) : string :=
  match s with
  | String a (String b r as t) =>
      if Ascii.eqb a x && Ascii.eqb b y then remove_pair x y r
      else String a (remove_pair x y t)
  | _ => s
  end.

(** The digits of [int]: decimal digits, with single underscores between
    them. *)
Fixpoint digits_value (acc : Z) (after_digit : bool) (s : string) : Exc Z :=
  match s with
  | EmptyString => if after_digit then Ok acc else Raise
  | String c r =>
      if is_digit c then digits_value (10 * acc + digit_val c) true r
      else if Ascii.eqb c "_" && after_digit
           then match r with
                | String d _ => if is_digit d then digits_value acc false r else Raise
                | EmptyString => Raise
                end
           else Raise
  end.

(** [int(s)]: white space around, a sign, digits; [ValueError] on
    anything else. *)
Definition py_int (s : string) : Exc Z :=
  match strip s with
  | String "+" r => digits_value 0 false r
  | String "-" r => v <- digits_value 0 false r ;; Ok (- v)
  | t => digits_value 0 false t
  end.

(** [hour, minute = s.split(':')]: a [ValueError] unless there are two
    parts. *)
Definition two_parts (sep : ascii) (s : string) : Exc (string * string) :=
  match split_on sep s with
  | [a; b] => Ok (a, b)
  | _ => Raise
  end.

Definition parse_time (time_str : string) : Time :=
  let default := mkTime 9 0 in
  catch
    (let time_str := upper (strip time_str) in
     if contains ":" time_str && (negb (contains "AM" time_str) && negb (contains "PM" time_str))
     then
       parts <- two_parts ":" time_str ;;
       hour <- py_int (fst parts) ;;
       minute <- py_int (snd parts) ;;
       time_of hour minute
     else if contains "AM" time_str || contains "PM" time_str
     then
       let is_pm := contains "PM" time_str in
       let time_part := strip (remove_pair "P" "M" (remove_pair "A" "M" time_str)) in
       parts <- (if contains ":" time_part then two_parts ":" time_part
                 else Ok (time_part, "0")) ;;
       hour <- py_int (fst parts) ;;
       minute <- py_int (snd parts) ;;
       let hour :=
         if is_pm && negb (hour =? 12) then hour + 12
         else if negb is_pm && (hour =? 12) then 0
         else hour in
       time_of hour minute
     else Ok default)
    default.

(** [get_term_dates]: the dates of the term in 2024. *)
Definition get_term_dates (term : string)
  : Exc (ScheduleService.Date * ScheduleService.Date) :=
  ScheduleService._get_term_dates term 2024.

(** The times of the events of a section. *)
Definition event_times (time_str : string)
  : Time * Time :=
  let defaults := (mkTime 9 0, mkTime 10 30) in
  if negb (String.eqb time_str "") && contains "-" time_str
  then
    catch (parts <- two_parts "-" time_str ;;
           Ok (parse_time (strip (fst parts)), parse_time (strip (snd parts))))
          defaults
  else defaults.

(** [section_code[0] if section_code and len(section_code) > 0 else 'A']
    does not raise: [len] raises on a number and on a Boolean, and the
    subscript on a dictionary. *)
Definition has_group (section_code : json) : bool :=
  match section_code with
  | JStr _ | JList _ => true
  | _ => negb (Json.truthy section_code)
  end.

Section Insert.

Variable py_repr : json -> string.
Variable rejects : ScheduleService.Store -> ScheduleService.CalendarEvent -> bool.

Let str := ScheduleService.py_str py_repr.

(** The loop over the days of one section: an exception skips the day. *)
Fixpoint insert_days (event_on : string -> ScheduleService.CalendarEvent)
         (section_code : json) (days : list string)
         (events_created : Z) (db : ScheduleService.Store)
  : Z * ScheduleService.Store :=
  match days with
  | [] => (events_created, db)
  | day :: rest =>
      let day_str := titled day in
      if negb (mem day_str ["Monday"; "Tuesday"; "Wednesday"; "Thursday";
                            "Friday"; "Saturday"; "Sunday"])
      then insert_days event_on section_code rest events_created db
      else if negb (has_group section_code)
      then insert_days event_on section_code rest events_created db
      else
        match ScheduleService.create rejects db (event_on day_str) with
        | Ok db' => insert_days event_on section_code rest (events_created + 1) db'
        | Raise => insert_days event_on section_code rest events_created db
        end
  end.

(** The body of the loop over the sections. *)
Definition insert_section (user : ScheduleService.User) (term : string)
           (term_dates : ScheduleService.Date * ScheduleService.Date)
           (acc : Z * ScheduleService.Store) (sec : SectionInfo)
  : Z * ScheduleService.Store :=
  let '(events_created, db) := acc in
  let days := days sec in
  let time_str := time sec in
  if String.eqb (code sec) "" then acc
  else
    match days_set days with
    | [] => acc
    | day_list =>
        let '(start_time_obj, end_time_obj) := event_times time_str in
        let section_code := section sec in
        let section_type := type sec in
        let course_code := code sec in
        let description :=
          String.append "Course: "
            (String.append course_code
               (String.append nl
                  (String.append "Section: "
                     (String.append (str section_code)
                        (String.append nl
                           (String.append "Type: "
                              (String.append section_type
                                 (String.append nl
                                    (String.append "Instructor: "
                                       (String.append (str (instructor sec))
                                          (String.append nl
                                             (String.append "Term: " term)))))))))))) in
        insert_days
          (fun day_str =>
             {| ScheduleService.ev_user := user;
                ScheduleService.ev_title :=
                  String.append course_code
                    (String.append " - "
                       match title sec with
                       | Some t => str t
                       | None => "Course"
                       end);
                ScheduleService.start_time := start_time_obj;
                ScheduleService.end_time := end_time_obj;
                ScheduleService.day_of_week := day_str;
                ScheduleService.start_date := fst term_dates;
                ScheduleService.end_date := snd term_dates;
                ScheduleService.description := description;
                ScheduleService.professor := instructor sec;
                ScheduleService.ev_location := location sec;
                ScheduleService.recurrence_pattern := "weekly";
                ScheduleService.theme := "blue-gradient" |})
          section_code day_list events_created db
    end.

(** The count of the events created and the store after the call; an
    exception of [get_term_dates] is raised again. *)
Definition insert_to_calendar (user : ScheduleService.User)
           (sections : list SectionInfo) (term : string) (db : ScheduleService.Store)
  : Exc (Z * ScheduleService.Store) :=
  let events_created := 0 in
  term_dates <- get_term_dates term ;;
  Ok (fold_left (insert_section user term term_dates) sections (events_created, db)).

End Insert.

End Views.

(** ** Vocabulary of the statements *)

Import ScheduleService.

(** Minutes since midnight. *)
Definition minutes (t : Time) : Z := hour t * 60 + minute t.

(** What the detector reads in a section: its days and its interval, when
    both parse. *)
Definition parsed (s : SectionInfo) (d : list string) (start_ end_ : Time) : Prop :=
  _parse_days_string (days s) = d
  /\ d <> []
  /\ _parse_time_string (time s) = Some (start_, end_).

(** A section without parsed days or without a parsed time. *)
Definition unparsed (s : SectionInfo) : Prop :=
  _parse_days_string (days s) = []
  \/ _parse_time_string (time s) = None.

(** [x] comes before [y] in [l]. *)
Definition precedes {A : Type} (x y : A) (l : list A) : Prop :=
  exists l1 l2 l3, l = l1 ++ x :: l2 ++ y :: l3.

(** A section for the examples. *)
Definition example_section (course label time_str : string) (day_names : list string)
           (type_ place : string) (open : bool) : SectionInfo :=
  {| code := course; section := JStr label; time := time_str;
     days := DaysList day_names; instructor := JStr "TBA"; location := JStr place;
     courseTitle := JStr course; type := type_; status := JStr ""; is_open := open;
     title := None |}.

(** A time of day that [datetime.time] accepts. *)
Definition valid_time (t : Time) : Prop :=
  0 <= hour t <= 23 /\ 0 <= minute t <= 59.

(** The detector on a schedule of one section, by cases on what parses. *)
Definition conflicts_cases (a b : SectionInfo) : bool :=
  match _parse_time_string (time a), _parse_days_string (days a),
        _parse_time_string (time b), _parse_days_string (days b) with
  | Some ta, (_ :: _) as da, Some tb, (_ :: _) as db =>
      match common_days da db with
      | [] => false
      | _ => _times_conflict ta tb
      end
  | _, _, _, _ => false
  end.

(** No two sections of the list conflict, in either order. *)
Definition conflict_free (l : list SectionInfo) : Prop :=
  ForallOrdPairs (fun x y => conflicts x y = false /\ conflicts y x = false) l.

(** The part of the priority that comes from the time: the start in
    minutes since midnight, 2000 without a parsed time. *)
Definition time_score (s : SectionInfo) : Z :=
  match _parse_time_string (time s) with
  | Some (start_, _) => minutes start_
  | None => 2000
  end.

(** An online or unassigned place. *)
Definition online_or_tba (place : string) : bool :=
  PyStr.contains "ONLINE" (PyStr.upper place) || PyStr.contains "TBA" (PyStr.upper place).

Definition penalty (place : string) : Z :=
  if online_or_tba place then 1000 else 0.

(** A lecture and a laboratory of one group, on Monday, that overlap from
    09:00 to 10:00: the course data, and the two sections as the views
    receive them. *)
Definition lab_catalog : json :=
  JDict [ ("Fall 2025 (2259)",
           JList [ JDict [ ("courseCode", JStr "CSI 2110"); ("section", JStr "A00-LEC");
                           ("status", JStr "Open");
                           ("schedule", JDict [ ("days", JList [JStr "Mo"]);
                                                ("time", JStr "08:30 - 10:00") ]);
                           ("instructor", JStr "TBA"); ("location", JStr "STE 101") ];
                   JDict [ ("courseCode", JStr "CSI 2110"); ("section", JStr "A01-LAB");
                           ("status", JStr "Open");
                           ("schedule", JDict [ ("days", JList [JStr "Mo"]);
                                                ("time", JStr "09:00 - 10:30") ]);
                           ("instructor", JStr "TBA"); ("location", JStr "STE 201") ] ]) ].

Definition lab_files : FileSystem :=
  fun p =>
    match p with
    | (ApiData, name) =>
        if String.eqb name by_term_file
        then Some (Parsed lab_catalog) else None
    | _ => None
    end.

Definition lecture_A00 : SectionInfo :=
  {| code := "CSI2110"; section := JStr "A00-LEC"; time := "08:30-10:00";
     days := DaysList ["Monday"]; instructor := JStr "TBA"; location := JStr "STE 101";
     courseTitle := JStr ""; type := "LEC"; status := JStr "Open"; is_open := true;
     title := Some (JStr "") |}.

Definition lab_A01 : SectionInfo :=
  {| code := "CSI2110"; section := JStr "A01-LAB"; time := "09:00-10:30";
     days := DaysList ["Monday"]; instructor := JStr "TBA"; location := JStr "STE 201";
     courseTitle := JStr ""; type := "LAB"; status := JStr "Open"; is_open := true;
     title := Some (JStr "") |}.

(** An open section in a room without a time, and an open online section
    at 17:00. *)
Definition untimed_in_room : SectionInfo :=
  example_section "PHI1101" "A00" "" [] "LEC" "FSS 2005" true.
Definition evening_online : SectionInfo :=
  example_section "PHI1101" "B00" "17:00-18:30" ["Tuesday"] "LEC" "ONLINE" true.

(** A row of the user with the dates of the term, weekly. *)
Definition of_term (user : User) (term_start term_end : Date)
           (ev : CalendarEvent) : Prop :=
  in_term user term_start term_end ev = true.

(** Two accumulators of the pipeline that differ at most in the counts of
    their summaries. *)
Definition same_report (a b : ScheduleGeneratorService.Totals) : Prop :=
  ScheduleGeneratorService.all_events a = ScheduleGeneratorService.all_events b
  /\ ScheduleGeneratorService.all_successful a = ScheduleGeneratorService.all_successful b
  /\ ScheduleGeneratorService.all_failed a = ScheduleGeneratorService.all_failed b
  /\ ScheduleGeneratorService.all_electives a = ScheduleGeneratorService.all_electives b
  /\ map fst (ScheduleGeneratorService.term_summaries a)
     = map fst (ScheduleGeneratorService.term_summaries b).

(** The printers are not reached by the examples. *)
Definition no_repr (j : json) : string := "".

(** A store that takes every row, and one that refuses the rows of
    Wednesday. *)
Definition accepts_all (db : Store) (ev : CalendarEvent)
  : bool := false.
Definition refuses_wednesday (db : Store)
           (ev : CalendarEvent) : bool :=
  String.eqb (day_of_week ev) "Wednesday".

(** A course on Monday and Wednesday and a course on Tuesday, as entries of
    the course data and as loaded sections. *)
Definition raw_section (course label status_ time_str : string) (day_codes : list string)
  : json :=
  JDict [ ("courseCode", JStr course); ("section", JStr label);
          ("status", JStr status_);
          ("schedule", JDict [ ("days", JList (map JStr day_codes));
                               ("time", JStr time_str) ]);
          ("instructor", JStr "TBA"); ("location", JStr "STE 101") ].

Definition fall_catalog : json :=
  JDict [ ("Fall 2025 (2259)",
           JList [ raw_section "MAT 1341" "A00" "Open" "08:30 - 10:00" ["Mo"; "We"];
                   raw_section "CSI 2110" "A00" "Open" "13:00 - 14:30" ["Tu"] ]) ].

Definition fall_files : FileSystem :=
  fun p =>
    match p with
    | (ApiData, name) =>
        if String.eqb name by_term_file
        then Some (Parsed fall_catalog) else None
    | _ => None
    end.

Definition fall_selection : list (string * option SectionInfo) :=
  [ ("MAT1341",
     Some (example_section "MAT1341" "A00" "08:30-10:00" ["Monday"; "Wednesday"]
                           "LEC" "STE 101" true));
    ("CSI2110",
     Some (example_section "CSI2110" "A00" "13:00-14:30" ["Tuesday"]
                           "LEC" "STE 101" true)) ].

Definition fall_plan : ScheduleGeneratorService.TermPlan :=
  ScheduleGeneratorService.mkPlan "Fall" ["MAT1341"; "CSI2110"] [].

(** Two courses of one subject at the same distance from 2115, in the two
    orders in which the course data may list them. *)
Definition csi2110_section : SectionInfo :=
  example_section "CSI2110" "A00" "08:30-10:00" ["Monday"] "LEC" "STE 101" true.
Definition csi2120_section : SectionInfo :=
  example_section "CSI2120" "A00" "13:00-14:30" ["Tuesday"] "LEC" "STE 101" true.

Definition catalog_2120_first : list (string * list SectionInfo) :=
  [ ("CSI2120", [csi2120_section]); ("CSI2110", [csi2110_section]) ].
Definition catalog_2110_first : list (string * list SectionInfo) :=
  [ ("CSI2110", [csi2110_section]); ("CSI2120", [csi2120_section]) ].

(** The course data that lists CSI 2120 before CSI 2110. *)
Definition tie_catalog : json :=
  JDict [ ("Fall 2025 (2259)",
           JList [ raw_section "CSI 2120" "A00" "Open" "13:00 - 14:30" ["Tu"];
                   raw_section "CSI 2110" "A00" "Open" "08:30 - 10:00" ["Mo"] ]) ].

Definition tie_files : FileSystem :=
  fun p =>
    match p with
    | (ApiData, name) =>
        if String.eqb name by_term_file
        then Some (Parsed tie_catalog) else None
    | _ => None
    end.

(** The scenario of C4: a course with one candidate, and a course with five
    whose first candidate is at the same time. *)
Definition scarce_candidate : SectionInfo :=
  example_section "MAT1341" "A01" "08:30-10:00" ["Monday"] "LEC" "STE" true.

Definition plentiful_candidates : list SectionInfo :=
  map (fun t => example_section "CSI2110" "B00" t ["Monday"] "LEC" "STE" true)
      ["08:30-10:00"; "10:00-11:30"; "11:30-13:00"; "13:00-14:30"; "14:30-16:00"].

(** Two open sections in rooms, at 08:30 and at 10:00. *)
Definition early_section : SectionInfo :=
  example_section "CSI2110" "A00" "08:30-10:00" ["Monday"] "LEC" "STE" true.
Definition late_section : SectionInfo :=
  example_section "CSI2110" "B00" "10:00-11:30" ["Monday"] "LEC" "STE" true.

(** *** Vocabulary of the further properties *)

(** The names of the days of the week. *)
Definition weekdays : list string :=
  ["Monday"; "Tuesday"; "Wednesday"; "Thursday"; "Friday"; "Saturday"; "Sunday"].

(** Every character is a lower-case letter. *)
Fixpoint all_lower (s : string) : bool :=
  match s with
  | EmptyString => true
  | String c r => PyStr.is_lower c && all_lower r
  end.

(** The string with its first character in upper case. *)
Definition capitalized (s : string) : string :=
  match s with
  | EmptyString => EmptyString
  | String c r => String (PyStr.upper_char c) r
  end.

(** The string holds a blank. *)
Fixpoint has_blank (s : string) : bool :=
  match s with
  | EmptyString => false
  | String c r => Ascii.eqb c " " || has_blank r
  end.

(** The types that [_determine_section_type] knows. *)
Definition section_types : list string :=
  ["LEC"; "LAB"; "DGD"; "TUT"; "SEM"; "WRK"; "STU"].

(** A section as the loaders store it under the key [key]. *)
Definition loaded_section (py_repr : json -> string) (key : string) (sec : SectionInfo)
  : Prop :=
  code sec = key
  /\ (exists ds, days sec = DaysList ds /\ Forall (fun d => In d weekdays) ds)
  /\ In (type sec) section_types
  /\ (Json.truthy (section sec) = false \/ exists label, section sec = JStr label)
  /\ is_open sec = status_is_open py_repr (status sec)
  /\ title sec = None.

(** A map of courses as the loaders build it. *)
Definition loaded_map (py_repr : json -> string) (m : list (string * list SectionInfo))
  : Prop :=
  NoDup (Dict.keys m)
  /\ forall key sections,
      In (key, sections) m ->
      key <> "" /\ _normalize_course_code key = key
      /\ sections <> [] /\ Forall (loaded_section py_repr key) sections.

(** The selection of one term of a generation, with the courses it
    matches and those it does not. *)
Definition term_selection (py_repr json_dumps : json -> string) (fs : FileSystem)
           (plan : ScheduleGeneratorService.TermPlan)
  : list (string * option SectionInfo) :=
  auto_select_sections
    (find_sections_for_courses py_repr json_dumps fs
       (ScheduleGeneratorService.required_courses plan)
       (ScheduleGeneratorService.plan_term plan)).

Definition matched_of (py_repr json_dumps : json -> string) (fs : FileSystem)
           (plan : ScheduleGeneratorService.TermPlan) : list string :=
  flat_map (fun cs => match snd cs with Some _ => [fst cs] | None => [] end)
           (term_selection py_repr json_dumps fs plan).

Definition unmatched_of (py_repr json_dumps : json -> string) (fs : FileSystem)
           (plan : ScheduleGeneratorService.TermPlan) : list string :=
  flat_map (fun cs => match snd cs with Some _ => [] | None => [fst cs] end)
           (term_selection py_repr json_dumps fs plan).

(** The weekly sessions of a selection: the days of each chosen section
    that has a parsed time. *)
Definition sessions (selected : list (string * option SectionInfo)) : list string :=
  flat_map (fun s => match _parse_time_string (time s) with
                     | Some _ => _parse_days_string (days s)
                     | None => []
                     end)
           (committed selected).

(** The row belongs to another user. *)
Definition of_other (user : User) (ev : CalendarEvent) : bool :=
  negb (String.eqb (ev_user ev) user).

(** The rows [added] are rows of the user for days among [ds], at most
    one for each, and one for each when the store refuses nothing. *)
Definition rows_for (rejects : Store -> CalendarEvent -> bool) (user : User)
           (ds : list string) (added : Store) : Prop :=
  (List.length added <= List.length ds)%nat
  /\ Forall (fun ev => ev_user ev = user /\ In (day_of_week ev) ds) added
  /\ ((forall d ev, rejects d ev = false) -> map day_of_week added = ds).

(** Two courses with one section each, which overlap on Monday. *)
Definition mat1341_section : SectionInfo :=
  example_section "MAT1341" "A00" "09:00-10:30" ["Monday"] "LEC" "STE 101" true.

Definition clash_catalog : list (string * list SectionInfo) :=
  [ ("CSI2110", [csi2110_section]); ("MAT1341", [mat1341_section]) ].

(** ** What the simple selector returns *)









(** The codes of a subject with their numbers, in the order of the list. *)
Definition codes_of_subject (subject : string) (available_codes : list string)
  : list (string * option Z) :=
  flat_map (fun avail =>
              if String.eqb (fst (extract_subject_and_number avail)) subject
              then [(avail, snd (extract_subject_and_number avail))] else [])
           available_codes.

(** The first component of the score of a candidate: the distance of its
    number from the requested one, [10 ^ 8] when a number is missing. *)
Definition number_distance (target_number cand_num : option Z) : Z :=
  match target_number, cand_num with
  | Some target_number, Some cand_num => Z.abs (cand_num - target_number)
  | _, _ => 10 ^ 8
  end.

(** What the selector with preferences asks of a section, the conflicts
    apart: a label that holds no code to avoid, an instructor that holds
    no name to avoid, and the time constraints. *)
Definition allowed (avoid_sections : list string) (time_constraints : TimeConstraints)
           (instructor_preferences : InstructorPreferences) (s : SectionInfo) : Prop :=
  label_avoided avoid_sections (section s) = Ok false
  /\ (exists name,
         stripped (instructor s) = Ok name
         /\ existsb (fun avoid_inst => PyStr.contains (PyStr.lower avoid_inst)
                                                      (PyStr.lower name))
                    (or_default (avoid_instructors instructor_preferences) []) = false)
  /\ _section_meets_time_constraints
       s (or_default (earliest_start time_constraints) "06:00")
       (or_default (latest_end time_constraints) "22:00")
       (or_default (avoid_days time_constraints) []) = true.

(** The sections of a result of the selector with preferences, in its
    order. *)
Definition booked (result : list (string * Chosen)) : list SectionInfo :=
  flat_map (fun entry => match snd entry with
                         | Nothing => []
                         | Single s => [s]
                         | Several l => l
                         end)
           result.

(** A section whose instructor and label are strings. *)
Definition plain (s : SectionInfo) : Prop :=
  (exists name, instructor s = JStr name) /\ (exists label, section s = JStr label).

(** A row as [insert_to_calendar] writes it for the user and the term. *)
Definition inserted_row (user : User) (term : string) (ev : CalendarEvent) : Prop :=
  ev_user ev = user
  /\ recurrence_pattern ev = "weekly"
  /\ In (day_of_week ev) weekdays
  /\ valid_time (start_time ev) /\ valid_time (end_time ev)
  /\ Views.get_term_dates term = Ok (start_date ev, end_date ev).

(** The rows written for one chosen section: each has the parsed times of
    the section and falls on one of its parsed days. *)
Definition rows_of_section (s : SectionInfo) (block : list CalendarEvent) : Prop :=
  forall r, In r block ->
            _parse_time_string (time s) = Some (start_time r, end_time r)
            /\ In (day_of_week r) (_parse_days_string (days s)).

(** Two rows that fall on the same day do not overlap. *)
Definition no_overlap (r1 r2 : CalendarEvent) : Prop :=
  day_of_week r1 = day_of_week r2 ->
  _times_conflict (start_time r1, end_time r1) (start_time r2, end_time r2) = false.

(** * Properties *)

(** ** Times *)

Lemma time_of_valid (h m : Z) (t : Time) :
  time_of h m = Ok t -> valid_time t /\ hour t = h /\ minute t = m.
Proof.
  unfold time_of, valid_time.
  destruct ((0 <=? h) && (h <=? 23) && (0 <=? m) && (m <=? 59)) eqn:E; [|discriminate].
  intros H; injection H as <-. cbn.
  repeat (apply andb_prop in E; destruct E as [E ?]).
  repeat split; lia.
Qed.

Lemma parse_time_valid (s : string) (st et : Time) :
  _parse_time_string s = Some (st, et) -> valid_time st /\ valid_time et.
Proof.
  unfold _parse_time_string.
  destruct (_ || _); [discriminate|].
  match goal with
  | |- context [match ?m with Some _ => _ | None => _ end] =>
      destruct m as [[[[sh sm] eh] em]|]
  end; [|discriminate].
  destruct (time_of (PyStr.int_of_digits sh) (PyStr.int_of_digits sm)) as [t1|] eqn:E1;
    cbn; [|discriminate].
  destruct (time_of (PyStr.int_of_digits eh) (PyStr.int_of_digits em)) as [t2|] eqn:E2;
    cbn; [|discriminate].
  intros H; injection H as <- <-.
  apply time_of_valid in E1, E2. tauto.
Qed.

Lemma time_le_minutes (a b : Time) :
  valid_time a -> valid_time b -> (time_le a b = true <-> minutes a <= minutes b).
Proof.
  unfold valid_time, time_le, minutes. intros Ha Hb.
  rewrite orb_true_iff, andb_true_iff, Z.ltb_lt, Z.eqb_eq, Z.leb_le. lia.
Qed.

(** ** The conflict detector *)

Lemma mem_In (x : string) (l : list string) : PyStr.mem x l = true <-> In x l.
Proof.
  unfold PyStr.mem. rewrite existsb_exists. split.
  - intros [y [Hy E]]. apply String.eqb_eq in E. now subst.
  - intros H. exists x. split; [assumption | apply String.eqb_refl].
Qed.

Lemma common_days_nil (d1 d2 : list string) :
  common_days d1 d2 = [] <-> (forall d, In d d1 -> ~ In d d2).
Proof.
  unfold common_days. split.
  - intros E d H1 H2.
    assert (In d (filter (fun d => PyStr.mem d d2) d1)) as H.
    { apply filter_In. split; [assumption | now apply mem_In]. }
    rewrite E in H. contradiction.
  - intros H. induction d1 as [|x r IH]; [reflexivity|]. cbn.
    destruct (PyStr.mem x d2) eqn:E.
    + apply mem_In in E. exfalso. apply (H x); [now left | assumption].
    + apply IH. intros d Hd. apply H. now right.
Qed.

Lemma common_days_nil_sym (d1 d2 : list string) :
  common_days d1 d2 = [] -> common_days d2 d1 = [].
Proof.
  rewrite !common_days_nil. intros H d H2 H1. exact (H d H1 H2).
Qed.

Lemma conflicts_eq_cases (a b : SectionInfo) : conflicts a b = conflicts_cases a b.
Proof.
  unfold conflicts, conflicts_cases, _section_conflicts_with_schedule.
  destruct (_parse_time_string (time a)) as [ta|]; [|reflexivity].
  destruct (_parse_days_string (days a)) as [|xa ra]; [reflexivity|].
  destruct (_parse_time_string (time b)) as [tb|]; [|reflexivity].
  destruct (_parse_days_string (days b)) as [|xb rb]; [reflexivity|].
  destruct (common_days (xa :: ra) (xb :: rb)); [reflexivity|].
  now destruct (_times_conflict ta tb).
Qed.

Lemma times_conflict_sym (t1 t2 : Time * Time) :
  _times_conflict t1 t2 = _times_conflict t2 t1.
Proof.
  destruct t1 as [s1 e1], t2 as [s2 e2]. cbn. now rewrite orb_comm.
Qed.

Lemma conflicts_cases_sym (a b : SectionInfo) :
  conflicts_cases a b = conflicts_cases b a.
Proof.
  unfold conflicts_cases.
  destruct (_parse_time_string (time a)) as [ta|],
           (_parse_days_string (days a)) as [|xa ra],
           (_parse_time_string (time b)) as [tb|],
           (_parse_days_string (days b)) as [|xb rb]; try reflexivity.
  destruct (common_days (xa :: ra) (xb :: rb)) eqn:E1,
           (common_days (xb :: rb) (xa :: ra)) eqn:E2; try reflexivity.
  - apply common_days_nil_sym in E1. congruence.
  - apply common_days_nil_sym in E2. congruence.
  - apply times_conflict_sym.
Qed.

Lemma conflicts_cases_unparsed (a b : SectionInfo) :
  unparsed a \/ unparsed b -> conflicts_cases a b = false.
Proof.
  unfold unparsed, conflicts_cases.
  intros [[H|H]|[H|H]]; rewrite H.
  - now destruct (_parse_time_string (time a)).
  - reflexivity.
  - now destruct (_parse_time_string (time a)), (_parse_days_string (days a)),
      (_parse_time_string (time b)).
  - now destruct (_parse_time_string (time a)), (_parse_days_string (days a)).
Qed.

Lemma conflicts_cases_parsed (a b : SectionInfo) da sa ea db sb eb :
  parsed a da sa ea -> parsed b db sb eb ->
  conflicts_cases a b =
  match common_days da db with
  | [] => false
  | _ => negb (time_le ea sb || time_le eb sa)
  end.
Proof.
  intros (Hda & Na & Hta) (Hdb & Nb & Htb).
  unfold conflicts_cases. rewrite Hta, Htb, Hda, Hdb.
  destruct da; [contradiction|]. destruct db; [contradiction|]. reflexivity.
Qed.

(** C2. For two sections whose days and times parse, the detector answers
    true exactly when the two sets of days meet and the two intervals
    overlap, that is when neither ends at or before the start of the
    other (in minutes since midnight); so a section that ends when the
    other starts does not conflict with it.  And the detector answers
    false as soon as one of the two sections lacks parsed days or a parsed
    time. *)
Theorem C2_conflict_detector :
  (forall a b da sa ea db sb eb,
      parsed a da sa ea -> parsed b db sb eb ->
      (conflicts a b = true <->
         (exists d, In d da /\ In d db)
         /\ ~ (minutes ea <= minutes sb \/ minutes eb <= minutes sa))
      /\ (ea = sb -> conflicts a b = false))
  /\ (forall a b, unparsed a \/ unparsed b -> conflicts a b = false).
Proof.
  split.
  - intros a b da sa ea db sb eb Ha Hb.
    rewrite conflicts_eq_cases, (conflicts_cases_parsed a b _ _ _ _ _ _ Ha Hb).
    destruct Ha as (_ & _ & Hta), Hb as (_ & _ & Htb).
    apply parse_time_valid in Hta, Htb.
    destruct Hta as [Vsa Vea], Htb as [Vsb Veb].
    assert (time_le ea sb || time_le eb sa = true
            <-> minutes ea <= minutes sb \/ minutes eb <= minutes sa) as Hle.
    { rewrite orb_true_iff, !time_le_minutes by assumption. reflexivity. }
    split.
    + destruct (common_days da db) as [|d r] eqn:Ec.
      * split; [discriminate|].
        intros [[d [H1 H2]] _]. exfalso.
        rewrite common_days_nil in Ec. exact (Ec d H1 H2).
      * rewrite negb_true_iff, <- not_true_iff_false, Hle.
        split; [|tauto]. intros Hn. split; [|assumption].
        exists d. assert (In d (common_days da db)) as Hin by (rewrite Ec; now left).
        unfold common_days in Hin. apply filter_In in Hin.
        destruct Hin as [H1 H2]. apply mem_In in H2. now split.
    + intros ->. destruct (common_days da db); [reflexivity|].
      assert (time_le sb sb = true) as ->.
      { apply time_le_minutes; [assumption | assumption | lia]. }
      reflexivity.
  - intros a b H. rewrite conflicts_eq_cases. now apply conflicts_cases_unparsed.
Qed.

(** Two lectures on Monday: the first ends at 10:00, when the second starts. *)
Lemma C2_witness :
  conflicts (example_section "MAT1341" "A01" "08:30-10:00" ["Monday"] "LEC" "STE" true)
            (example_section "CSI2110" "B01" "10:00-11:30" ["Monday"] "LEC" "STE" true)
  = false.
Proof.
  apply (proj1 C2_conflict_detector _ _
           ["Monday"%string] (mkTime 8 30) (mkTime 10 0)
           ["Monday"%string] (mkTime 10 0) (mkTime 11 30)).
  - repeat split. discriminate.
  - repeat split. discriminate.
  - reflexivity.
Defined.

(** C9. The conflict of two sections does not depend on their order,
    whatever parses in them. *)
Theorem C9_conflict_symmetry (a b : SectionInfo) : conflicts a b = conflicts b a.
Proof.
  rewrite (conflicts_eq_cases a b), (conflicts_eq_cases b a).
  destruct (conflicts_cases a b) eqn:E.
  - rewrite conflicts_cases_sym in E. now rewrite E.
  - rewrite conflicts_cases_sym in E. now rewrite E.
Qed.

(** ** Sorting *)

Section Sorting.

Context {A : Type} (le : A -> A -> bool).
Hypothesis le_total : forall x y, le x y = true \/ le y x = true.
Hypothesis le_trans : forall x y z, le x y = true -> le y z = true -> le x z = true.

Lemma insert_by_perm (x : A) (l : list A) : Permutation (x :: l) (insert_by le x l).
Proof.
  induction l as [|y r IH]; cbn; [reflexivity|].
  destruct (le x y); [reflexivity|].
  rewrite perm_swap. now apply perm_skip.
Qed.

Lemma sorted_by_perm (l : list A) : Permutation l (sorted_by le l).
Proof.
  induction l as [|x r IH]; cbn; [reflexivity|].
  rewrite <- insert_by_perm. now apply perm_skip.
Qed.

Lemma insert_by_sorted (x : A) (l : list A) :
  StronglySorted (fun a b => le a b = true) l ->
  StronglySorted (fun a b => le a b = true) (insert_by le x l).
Proof.
  induction 1 as [|y r Hs IH Hy]; cbn.
  - constructor; constructor.
  - destruct (le x y) eqn:E.
    + constructor; [now constructor|].
      constructor; [assumption|].
      eapply Forall_impl; [|exact Hy]. intros z Hz. now apply (le_trans x y z).
    + constructor; [assumption|].
      assert (le y x = true) as Eyx by (destruct (le_total x y); congruence).
      eapply Permutation_Forall; [apply insert_by_perm|].
      now constructor.
Qed.

Lemma sorted_by_sorted (l : list A) :
  StronglySorted (fun a b => le a b = true) (sorted_by le l).
Proof.
  induction l as [|x r IH]; cbn; [constructor | now apply insert_by_sorted].
Qed.

End Sorting.

Lemma sorted_precedes {A : Type} (R : A -> A -> Prop) (l : list A) (x y : A) :
  StronglySorted R l -> precedes x y l -> R x y.
Proof.
  intros Hs (l1 & l2 & l3 & ->).
  induction l1 as [|z r IH]; cbn in Hs.
  - apply StronglySorted_inv in Hs. destruct Hs as [_ Hf].
    rewrite Forall_forall in Hf. apply Hf.
    apply in_or_app. right. now left.
  - apply StronglySorted_inv in Hs. now apply IH.
Qed.

Lemma pair_le_total (p q : Z * Z) : pair_le p q = true \/ pair_le q p = true.
Proof.
  unfold pair_le.
  rewrite !orb_true_iff, !andb_true_iff, !Z.ltb_lt, !Z.eqb_eq, !Z.leb_le. lia.
Qed.

Lemma pair_le_trans (p q r : Z * Z) :
  pair_le p q = true -> pair_le q r = true -> pair_le p r = true.
Proof.
  unfold pair_le.
  rewrite !orb_true_iff, !andb_true_iff, !Z.ltb_lt, !Z.eqb_eq, !Z.leb_le. lia.
Qed.

Lemma sort_sections_sorted (l : list SectionInfo) :
  StronglySorted (fun a b => pair_le (section_key a) (section_key b) = true)
                 (sort_sections l).
Proof.
  apply sorted_by_sorted.
  - intros x y. apply pair_le_total.
  - intros x y z. apply pair_le_trans.
Qed.

Lemma StronglySorted_weaken {A : Type} (R S : A -> A -> Prop) (l : list A) :
  (forall x y, R x y -> S x y) -> StronglySorted R l -> StronglySorted S l.
Proof.
  intros H. induction 1 as [|x r Hs IH Hx]; constructor; [assumption|].
  eapply Forall_impl; [|exact Hx]. intros y. apply H.
Qed.

Lemma courses_by_options_sorted (available : list (string * list SectionInfo)) :
  StronglySorted (fun a b => (List.length (snd a) <= List.length (snd b))%nat)
                 (courses_by_options available).
Proof.
  unfold courses_by_options, sorted_key.
  eapply StronglySorted_weaken; [|apply sorted_by_sorted].
  - cbn. intros x y H. apply Z.leb_le in H. lia.
  - intros x y. rewrite !Z.leb_le. lia.
  - intros x y z. rewrite !Z.leb_le. lia.
Qed.

(** ** The simple selector *)

Lemma conflicts_with_schedule_existsb (s : SectionInfo) (schedule : list SectionInfo) :
  _section_conflicts_with_schedule s schedule = existsb (conflicts s) schedule.
Proof.
  induction schedule as [|y r IH].
  - unfold _section_conflicts_with_schedule.
    now destruct (_parse_time_string (time s)), (_parse_days_string (days s)).
  - cbn [existsb]. rewrite <- IH. unfold conflicts, _section_conflicts_with_schedule.
    destruct (_parse_time_string (time s)) as [ts|]; [|reflexivity].
    destruct (_parse_days_string (days s)) as [|xs rs]; [reflexivity|].
    destruct (_parse_time_string (time y)) as [ty|]; [|reflexivity].
    destruct (_parse_days_string (days y)) as [|xy ry]; [reflexivity|].
    destruct (common_days (xs :: rs) (xy :: ry)); [reflexivity|].
    now destruct (_times_conflict ts ty).
Qed.

Lemma no_conflict_with_empty (s : SectionInfo) :
  _section_conflicts_with_schedule s [] = false.
Proof. now rewrite conflicts_with_schedule_existsb. Qed.

Lemma best_section_spec (sections schedule : list SectionInfo) (best : SectionInfo) :
  best_section sections schedule = Some best ->
  In best sections /\ Forall (fun y => conflicts best y = false) schedule.
Proof.
  unfold best_section. intros H. apply find_some in H. destruct H as [Hin Hc].
  split.
  - eapply Permutation_in; [symmetry; apply sorted_by_perm | exact Hin].
  - apply negb_true_iff in Hc. rewrite conflicts_with_schedule_existsb in Hc.
    apply Forall_forall. intros y Hy.
    destruct (conflicts best y) eqn:E; [|reflexivity].
    assert (existsb (conflicts best) schedule = true) as Hex
      by (apply existsb_exists; now exists y).
    congruence.
Qed.

Lemma best_section_exists (sections schedule : list SectionInfo) (s : SectionInfo) :
  In s sections -> _section_conflicts_with_schedule s schedule = false ->
  exists best, best_section sections schedule = Some best.
Proof.
  intros Hin Hc. unfold best_section.
  destruct (find _ (sort_sections sections)) as [b|] eqn:E; [now exists b|].
  exfalso.
  assert (In s (sort_sections sections)) as Hs
    by (eapply Permutation_in; [apply sorted_by_perm | exact Hin]).
  pose proof (find_none _ _ E s Hs) as Hn. cbn in Hn.
  rewrite Hc in Hn. discriminate.
Qed.

Lemma dict_set_fresh {V : Type} (k : string) (v : V) (d : list (string * V)) :
  ~ In k (Dict.keys d) -> Dict.set k v d = d ++ [(k, v)].
Proof.
  induction d as [|[k' v'] r IH]; cbn; [reflexivity|]. intros H.
  destruct (String.eqb k k') eqn:E.
  - apply String.eqb_eq in E. exfalso. apply H. now left.
  - f_equal. apply IH. intros Hin. apply H. now right.
Qed.

Lemma dict_get_set_same {V : Type} (k : string) (v : V) (d : list (string * V)) :
  Dict.get k (Dict.set k v d) = Some v.
Proof.
  induction d as [|[k' v'] r IH]; cbn.
  - now rewrite String.eqb_refl.
  - destruct (String.eqb k k') eqn:E; cbn.
    + now rewrite String.eqb_refl.
    + now rewrite E.
Qed.

Lemma dict_get_set_other {V : Type} (k k0 : string) (v : V) (d : list (string * V)) :
  k0 <> k -> Dict.get k0 (Dict.set k v d) = Dict.get k0 d.
Proof.
  intros Hne. induction d as [|[k' v'] r IH]; cbn.
  - apply String.eqb_neq in Hne. now rewrite Hne.
  - destruct (String.eqb k k') eqn:E; cbn.
    + apply String.eqb_eq in E. subst k'.
      apply String.eqb_neq in Hne. now rewrite Hne.
    + destruct (String.eqb k0 k'); [reflexivity | assumption].
Qed.

Lemma committed_app (d1 d2 : list (string * option SectionInfo)) :
  committed (d1 ++ d2) = committed d1 ++ committed d2.
Proof. unfold committed. apply flat_map_app. Qed.

Lemma pairs_snoc {A : Type} (R : A -> A -> Prop) (l : list A) (x : A) :
  ForallOrdPairs R l -> Forall (fun y => R y x) l -> ForallOrdPairs R (l ++ [x]).
Proof.
  induction 1 as [|y r Hy Hr IH]; cbn; intros Hf.
  - constructor; constructor.
  - apply Forall_inv in Hf as Hyx. apply Forall_inv_tail in Hf.
    constructor; [|now apply IH].
    apply Forall_app. split; [assumption | now constructor].
Qed.

Lemma select_loop_invariant (courses : list (string * list SectionInfo)) :
  forall selected schedule,
    NoDup (Dict.keys courses) ->
    (forall k, In k (Dict.keys courses) -> ~ In k (Dict.keys selected)) ->
    committed selected = schedule ->
    conflict_free schedule ->
    committed (fst (select_loop courses selected schedule))
    = snd (select_loop courses selected schedule)
    /\ conflict_free (snd (select_loop courses selected schedule))
    /\ Dict.keys (fst (select_loop courses selected schedule))
       = Dict.keys selected ++ Dict.keys courses.
Proof.
  induction courses as [|[course_code sections] rest IH];
    intros selected schedule Hnd Hfresh Hc Hfree.
  - cbn. rewrite app_nil_r. auto.
  - cbn [Dict.keys map fst] in Hnd, Hfresh. apply NoDup_cons_iff in Hnd.
    destruct Hnd as [Hnew Hnd].
    assert (~ In course_code (Dict.keys selected)) as Hk by (apply Hfresh; now left).
    assert (forall v k, In k (Dict.keys rest) ->
                        ~ In k (Dict.keys (Dict.set course_code v selected))) as Hfresh'.
    { intros v k Hin. rewrite (dict_set_fresh _ _ _ Hk).
      unfold Dict.keys. rewrite map_app. cbn. intros H.
      apply in_app_or in H. destruct H as [H|[H|[]]].
      - revert H. apply Hfresh. now right.
      - subst k. contradiction. }
    assert (forall v, Dict.keys (Dict.set course_code v selected) ++ Dict.keys rest
                      = Dict.keys selected ++ Dict.keys ((course_code, sections) :: rest))
      as Hkeys.
    { intros v. rewrite (dict_set_fresh _ _ _ Hk). unfold Dict.keys.
      rewrite map_app, <- app_assoc. reflexivity. }
    assert (committed (Dict.set course_code None selected) = schedule) as HcNone.
    { rewrite (dict_set_fresh _ _ _ Hk), committed_app, Hc. cbn. apply app_nil_r. }
    cbn [select_loop].
    destruct sections as [|s0 more].
    + rewrite <- (Hkeys None).
      apply IH; [assumption | apply Hfresh' | assumption | assumption].
    + destruct (best_section (s0 :: more) schedule) as [best|] eqn:Eb.
      * rewrite <- (Hkeys (Some best)). apply IH; try assumption.
        -- apply Hfresh'.
        -- rewrite (dict_set_fresh _ _ _ Hk), committed_app, Hc. reflexivity.
        -- apply best_section_spec in Eb. destruct Eb as [_ Hb].
           apply pairs_snoc; [assumption|].
           eapply Forall_impl; [|exact Hb]. cbn. intros y Hy.
           split; [|assumption].
           rewrite conflicts_eq_cases, conflicts_cases_sym, <- conflicts_eq_cases.
           exact Hy.
      * rewrite <- (Hkeys None).
        apply IH; [assumption | apply Hfresh' | assumption | assumption].
Qed.

(** X1. Simple mode books no two sections that conflict: the sections
    that [auto_select_sections] commits are free of conflict two by two,
    in both orders. *)
Lemma simple_mode_no_double_booking (available : list (string * list SectionInfo)) :
  NoDup (Dict.keys available) ->
  conflict_free (committed (auto_select_sections available)).
Proof.
  intros Hnd. unfold auto_select_sections.
  destruct (select_loop_invariant (courses_by_options available) [] []) as (Hc & Hf & _).
  - eapply Permutation_NoDup; [|exact Hnd].
    unfold Dict.keys. apply Permutation_map. apply sorted_by_perm.
  - intros k _ [].
  - reflexivity.
  - constructor.
  - now rewrite Hc.
Qed.

(** C1. The grouped selector books two sections that conflict: for a
    course whose only group has a lecture on Monday from 08:30 to 10:00
    and a laboratory on Monday from 09:00 to 10:30, read from the course
    data, and for every state of the random source,
    [select_valid_sections] commits both, although the detector of section
    4.3 finds them in conflict.  ([has_time_conflict] compares the two
    time strings for equality.) *)
Theorem C1_grouped_mode_double_books (g : Views.Rng) :
  Views.get_live_sections no_repr no_repr lab_files ["CSI2110"%string] "Fall"
  = [lecture_A00; lab_A01]
  /\ fst (Views.select_valid_sections [lecture_A00; lab_A01] g) = [lecture_A00; lab_A01]
  /\ conflicts lecture_A00 lab_A01 = true
  /\ Views.has_time_conflict lab_A01 [lecture_A00] = false.
Proof.
  split; [|split; [|split]].
  - vm_compute. reflexivity.
  - unfold Views.select_valid_sections. cbn [for_each]. reflexivity.
  - vm_compute. reflexivity.
  - vm_compute. reflexivity.
Qed.

(** ** Fewest options first *)

Lemma best_section_single (a : SectionInfo) : best_section [a] [] = Some a.
Proof.
  unfold best_section, sort_sections. cbn.
  now rewrite no_conflict_with_empty.
Qed.

Lemma select_two (cA cB : string) (a : SectionInfo) (bs : list SectionInfo) :
  cA <> cB -> bs <> [] ->
  fst (select_loop [(cA, [a]); (cB, bs)] [] [])
  = [(cA, Some a); (cB, best_section bs [a])].
Proof.
  intros Hne Hbs. cbn [select_loop]. rewrite best_section_single.
  cbn [Dict.set app].
  destruct bs as [|b0 more]; [contradiction|].
  apply String.eqb_neq in Hne. rewrite String.eqb_sym in Hne.
  destruct (best_section (b0 :: more) [a]) as [b|]; cbn; rewrite Hne; reflexivity.
Qed.

(** C4. Simple mode takes the courses by ascending count of candidates:
    the order of processing is the list of the courses sorted by that
    count, and the selection lists the courses in that order.  For a
    course A with one candidate and a course B with five, in either order
    of the input, A gets its candidate; and when a candidate of B does not
    conflict with it, B gets such a candidate as well. *)
Theorem C4_fewest_options_first :
  (forall available,
      Permutation available (courses_by_options available)
      /\ StronglySorted (fun x y => (List.length (snd x) <= List.length (snd y))%nat)
                        (courses_by_options available)
      /\ (NoDup (Dict.keys available) ->
          Dict.keys (auto_select_sections available)
          = Dict.keys (courses_by_options available)))
  /\ (forall cA cB a bs available,
         cA <> cB -> List.length bs = 5%nat ->
         available = [(cA, [a]); (cB, bs)] \/ available = [(cB, bs); (cA, [a])] ->
         Dict.get cA (auto_select_sections available) = Some (Some a)
         /\ ((exists b, In b bs /\ conflicts b a = false) ->
             exists b, In b bs /\ conflicts b a = false
                       /\ Dict.get cB (auto_select_sections available) = Some (Some b))).
Proof.
  split.
  - intros available. split; [|split].
    + apply sorted_by_perm.
    + apply courses_by_options_sorted.
    + intros Hnd. unfold auto_select_sections.
      destruct (select_loop_invariant (courses_by_options available) [] [])
        as (_ & _ & Hk); try easy.
      * eapply Permutation_NoDup; [|exact Hnd].
        unfold Dict.keys. apply Permutation_map. apply sorted_by_perm.
      * constructor.
  - intros cA cB a bs available Hne Hlen Hav.
    assert (courses_by_options available = [(cA, [a]); (cB, bs)]) as Hord.
    { unfold courses_by_options, sorted_key.
      destruct Hav as [-> | ->]; cbn; rewrite Hlen; reflexivity. }
    assert (bs <> []) as Hbs by (intros ->; discriminate).
    unfold auto_select_sections. rewrite Hord, (select_two cA cB a bs Hne Hbs).
    assert (String.eqb cB cA = false) as Hba
      by (apply String.eqb_neq; congruence).
    split.
    + cbn. now rewrite String.eqb_refl.
    + intros (b & Hin & Hb).
      destruct (best_section_exists bs [a] b Hin) as [best Ebest].
      { rewrite conflicts_with_schedule_existsb. cbn. now rewrite Hb. }
      pose proof (best_section_spec _ _ _ Ebest) as [Hbin Hfree].
      apply Forall_inv in Hfree.
      exists best. repeat split; try assumption.
      rewrite Ebest. cbn. now rewrite Hba, String.eqb_refl.
Qed.

(** The scenario, with the larger course first in the input: the course
    of one candidate is served. *)
Lemma C4_witness :
  Dict.get "MAT1341"
           (auto_select_sections [ ("CSI2110", plentiful_candidates);
                                   ("MAT1341", [scarce_candidate]) ])
  = Some (Some scarce_candidate).
Proof.
  apply (proj2 C4_fewest_options_first
               "MAT1341" "CSI2110" scarce_candidate plentiful_candidates).
  - discriminate.
  - reflexivity.
  - now right.
Defined.

(** ** The order of the candidates *)

Lemma priority_of_place (s : SectionInfo) (place : string) :
  location s = JStr place -> _get_section_priority s = time_score s + penalty place.
Proof.
  intros H. unfold _get_section_priority, time_score, penalty, online_or_tba, upper_of.
  rewrite H. cbn.
  destruct (_parse_time_string (time s)) as [[st et]|];
    destruct (PyStr.contains "ONLINE" (PyStr.upper place)
              || PyStr.contains "TBA" (PyStr.upper place));
    unfold minutes; lia.
Qed.

Lemma time_score_bounds (s : SectionInfo) :
  match _parse_time_string (time s) with
  | Some (st, _) => time_score s = minutes st /\ 0 <= minutes st <= 1439
  | None => time_score s = 2000
  end.
Proof.
  unfold time_score.
  destruct (_parse_time_string (time s)) as [[st et]|] eqn:E; [|reflexivity].
  apply parse_time_valid in E. destruct E as [[Hh Hm] _].
  unfold minutes. split; [reflexivity | lia].
Qed.

(** C5, as the code has it.  The candidates of a course are tried in the
    order of the pair (0 when open, 1 when closed; priority), so every
    open section comes before every closed one, and sections of equal
    openness are in ascending order of priority.  With a place that is a
    string, the priority is the start in minutes since midnight (at most
    1439), or 2000 without a parsed time, plus 1000 when the place is
    online or TBA.  So between two sections of equal openness and of equal
    online/TBA status, the order is the order of the starts, and one
    without a parsed time is only followed by others without one. *)
Theorem C5_candidate_order :
  (forall s place, location s = JStr place ->
                   _get_section_priority s = time_score s + penalty place)
  /\ (forall s st et, _parse_time_string (time s) = Some (st, et) ->
                      time_score s = minutes st /\ 0 <= minutes st <= 1439)
  /\ (forall s, _parse_time_string (time s) = None -> time_score s = 2000)
  /\ (forall l, Permutation l (sort_sections l))
  /\ (forall l x y,
         precedes x y (sort_sections l) ->
         (is_open y = true -> is_open x = true)
         /\ (is_open x = is_open y ->
             _get_section_priority x <= _get_section_priority y)
         /\ (forall px py,
                is_open x = is_open y ->
                location x = JStr px -> location y = JStr py ->
                online_or_tba px = online_or_tba py ->
                time_score x <= time_score y
                /\ (_parse_time_string (time x) = None ->
                    _parse_time_string (time y) = None))).
Proof.
  split; [exact priority_of_place|].
  split.
  { intros s st et H. pose proof (time_score_bounds s) as B. now rewrite H in B. }
  split.
  { intros s H. pose proof (time_score_bounds s) as B. now rewrite H in B. }
  split; [intros l; apply sorted_by_perm|].
  intros l x y Hp.
  pose proof (sorted_precedes _ _ x y (sort_sections_sorted l) Hp) as Hle.
  unfold pair_le, section_key in Hle. cbn [fst snd] in Hle.
  rewrite orb_true_iff, andb_true_iff, Z.ltb_lt, Z.eqb_eq, Z.leb_le in Hle.
  split; [|split].
  - intros Hy. rewrite Hy in Hle. destruct (is_open x); [reflexivity | lia].
  - intros Ho. rewrite Ho in Hle. destruct (is_open y); lia.
  - intros px py Ho Hx Hy Hon.
    rewrite (priority_of_place x px Hx), (priority_of_place y py Hy) in Hle.
    unfold penalty in Hle. rewrite Ho, Hon in Hle.
    assert (time_score x <= time_score y) as Hts
      by (destruct (is_open y), (online_or_tba py); lia).
    split; [assumption|].
    intros Nx.
    pose proof (time_score_bounds x) as Bx. rewrite Nx in Bx.
    pose proof (time_score_bounds y) as By.
    destruct (_parse_time_string (time y)) as [[st et]|]; [|reflexivity].
    lia.
Qed.

(** The section at 08:30 comes before the one at 10:00, whatever their
    order in the input. *)
Lemma C5_witness :
  time_score early_section <= time_score late_section
  /\ (_parse_time_string (time early_section) = None ->
      _parse_time_string (time late_section) = None).
Proof.
  apply (proj2 (proj2
           (proj2 (proj2 (proj2 (proj2 C5_candidate_order)))
                  [late_section; early_section] early_section late_section
                  (ex_intro _ [] (ex_intro _ [] (ex_intro _ [] eq_refl)))))
           "STE"%string "STE"%string); reflexivity.
Defined.

(** Against C5 as stated: of two open sections, the one without a parsed
    time (priority 2000) is tried before the online one that starts at
    17:00 (priority 1020 + 1000), so it is not sorted last. *)
Lemma C5_counterexample :
  sort_sections [evening_online; untimed_in_room] = [untimed_in_room; evening_online]
  /\ _parse_time_string (time untimed_in_room) = None
  /\ _parse_time_string (time evening_online) = Some (mkTime 17 0, mkTime 18 30)
  /\ is_open untimed_in_room = is_open evening_online
  /\ _get_section_priority untimed_in_room = 2000
  /\ _get_section_priority evening_online = 2020.
Proof. vm_compute. repeat split. Qed.

(** ** The calendar materializer *)

Lemma date_of_ok (y m d : Z) :
  1 <= y <= 9999 -> 1 <= m <= 12 -> 1 <= d <= days_in_month y m ->
  date_of y m d = Ok (mkDate y m d).
Proof.
  intros Hy Hm Hd. unfold date_of.
  assert ((1 <=? y) && (y <=? 9999) && (1 <=? m) && (m <=? 12)
          && (1 <=? d) && (d <=? days_in_month y m) = true) as ->; [|reflexivity].
  rewrite !andb_true_iff, !Z.leb_le. lia.
Qed.

Lemma term_dates_ok (term : string) (year : Z) :
  1 <= year <= 9998 -> exists ts te, _get_term_dates term year = Ok (ts, te).
Proof.
  intros Hy. unfold _get_term_dates.
  assert (forall y m d, 1 <= y <= 9999 -> 1 <= m <= 12 -> m <> 2 -> 1 <= d <= 30 ->
                        date_of y m d = Ok (mkDate y m d)) as D.
  { intros y m d H1 H2 H3 H4. apply date_of_ok; try assumption.
    unfold days_in_month. apply Z.eqb_neq in H3. rewrite H3.
    destruct ((m =? 4) || (m =? 6) || (m =? 9) || (m =? 11)); lia. }
  destruct (String.eqb (PyStr.lower term) "fall");
    [| destruct (String.eqb (PyStr.lower term) "winter");
       [| destruct (PyStr.mem (PyStr.lower term) ["spring"%string; "summer"%string])]];
    rewrite !D by lia; cbn; eauto.
Qed.

Lemma Date_eqb_refl (d : Date) : Date_eqb d d = true.
Proof. unfold Date_eqb. now rewrite !Z.eqb_refl. Qed.

Section CalendarFacts.

Variable py_repr : json -> string.
Variable rejects : Store -> CalendarEvent -> bool.
Variable user : User.
Variables term_start term_end : Date.

Lemma create_days_adds (event_on : string -> CalendarEvent) (days : list string) :
  (forall day, (of_term user term_start term_end) (event_on day)) ->
  forall events_added db,
  exists added,
    create_days rejects event_on days events_added db
    = (events_added + Z.of_nat (List.length added), db ++ added)
    /\ Forall (of_term user term_start term_end) added.
Proof.
  intros Hev. induction days as [|day rest IH]; intros n db; cbn.
  - exists []. rewrite Z.add_0_r, app_nil_r. split; [reflexivity | constructor].
  - unfold create. destruct (rejects db (event_on day)).
    + exists []. rewrite Z.add_0_r, app_nil_r. split; [reflexivity | constructor].
    + destruct (IH (n + 1) (db ++ [event_on day])) as (added & E & F).
      exists (event_on day :: added). rewrite E. split.
      * rewrite <- app_assoc. cbn [app List.length]. f_equal. lia.
      * constructor; [apply Hev | assumption].
Qed.

Lemma add_section_events_adds (entry : string * option SectionInfo) :
  forall events_added db,
  exists added,
    add_section_events py_repr rejects user term_start term_end (events_added, db) entry
    = (events_added + Z.of_nat (List.length added), db ++ added)
    /\ Forall (of_term user term_start term_end) added.
Proof.
  intros n db. destruct entry as [course_code [sec|]]; cbn.
  - destruct (_parse_time_string (time sec)) as [[st et]|].
    + destruct (_parse_days_string (days sec)) as [|d0 ds] eqn:Ed.
      * exists []. rewrite Z.add_0_r, app_nil_r. split; [reflexivity | constructor].
      * apply create_days_adds. intros day. unfold of_term, in_term. cbn.
        now rewrite String.eqb_refl, !Date_eqb_refl.
    + exists []. rewrite Z.add_0_r, app_nil_r. split; [reflexivity | constructor].
  - exists []. rewrite Z.add_0_r, app_nil_r. split; [reflexivity | constructor].
Qed.

Lemma fold_events_adds (selected : list (string * option SectionInfo)) :
  forall events_added db,
  exists added,
    fold_left (add_section_events py_repr rejects user term_start term_end)
              selected (events_added, db)
    = (events_added + Z.of_nat (List.length added), db ++ added)
    /\ Forall (of_term user term_start term_end) added.
Proof.
  induction selected as [|entry rest IH]; intros n db; cbn [fold_left].
  - exists []. rewrite Z.add_0_r, app_nil_r. split; [reflexivity | constructor].
  - destruct (add_section_events_adds entry n db) as (a1 & E1 & F1). rewrite E1.
    destruct (IH (n + Z.of_nat (List.length a1)) (db ++ a1)) as (a2 & E2 & F2).
    exists (a1 ++ a2). split; [|apply Forall_app; now split].
    etransitivity; [exact E2|].
    rewrite <- app_assoc, length_app, Nat2Z.inj_add. f_equal. lia.
Qed.

Lemma filter_out_term (kept added : Store) :
  Forall (fun ev => in_term user term_start term_end ev = false) kept ->
  Forall (of_term user term_start term_end) added ->
  filter (fun ev => negb (in_term user term_start term_end ev)) (kept ++ added) = kept.
Proof.
  intros Hk Ha. rewrite filter_app.
  assert (filter (fun ev => negb (in_term user term_start term_end ev)) added = []) as ->.
  { induction Ha as [|ev r Hev _ IH]; cbn; [reflexivity|].
    unfold of_term in Hev. now rewrite Hev. }
  rewrite app_nil_r.
  induction Hk as [|ev r Hev _ IH]; cbn; [reflexivity|].
  rewrite Hev. cbn. now f_equal.
Qed.

Lemma filter_out_term_clean (db : Store) :
  Forall (fun ev => in_term user term_start term_end ev = false)
         (filter (fun ev => negb (in_term user term_start term_end ev)) db).
Proof.
  apply Forall_forall. intros ev H. apply filter_In in H.
  destruct H as [_ H]. now apply negb_true_iff in H.
Qed.

End CalendarFacts.

(** C3. The materializer of the views clears, then adds.  For a year that
    [datetime.date] accepts, clearing leaves no weekly row of the user
    with the dates of the term, the rows of the other users and terms
    stay, and the new rows come after them; a second run on the result
    returns the same count and leaves the same store, so the number of
    records does not grow. *)
Theorem C3_materialize_idempotent :
  forall (py_repr : json -> string) (rejects : Store -> CalendarEvent -> bool)
         (user : User) (selected : list (string * option SectionInfo))
         (term : string) (year : Z) (db : Store),
    1 <= year <= 9998 ->
    exists term_start term_end n added,
      let cleared := snd (clear_user_schedule user term year db) in
      _get_term_dates term year = Ok (term_start, term_end)
      /\ cleared = filter (fun ev => negb (in_term user term_start term_end ev)) db
      /\ Forall (fun ev => in_term user term_start term_end ev = false) cleared
      /\ Forall (fun ev => in_term user term_start term_end ev = true) added
      /\ n = Z.of_nat (List.length added)
      /\ materialize py_repr rejects user selected term year db
         = Ok (n, cleared ++ added)
      /\ materialize py_repr rejects user selected term year (cleared ++ added)
         = Ok (n, cleared ++ added).
Proof.
  intros py_repr rejects user selected term year db Hy.
  destruct (term_dates_ok term year Hy) as (ts & te & Hd).
  set (kept := filter (fun ev => negb (in_term user ts te ev)) db).
  destruct (fold_events_adds py_repr rejects user ts te selected 0 kept)
    as (added & Hadd & Hof).
  exists ts, te, (Z.of_nat (List.length added)), added.
  assert (forall store, clear_user_schedule user term year store
                        = (Z.of_nat (List.length (filter (in_term user ts te) store)),
                           filter (fun ev => negb (in_term user ts te ev)) store)) as Hclear.
  { intros store. unfold clear_user_schedule. now rewrite Hd. }
  assert (materialize py_repr rejects user selected term year db
          = Ok (Z.of_nat (List.length added), kept ++ added)) as Hm.
  { unfold materialize. rewrite Hclear. unfold add_sections_to_calendar.
    rewrite Hd. cbn. fold kept. now rewrite Hadd. }
  cbn zeta. rewrite Hclear. cbn [snd]. fold kept.
  repeat split; try assumption; try reflexivity.
  - apply filter_out_term_clean.
  - unfold materialize. rewrite Hclear.
    rewrite (filter_out_term user ts te kept added (filter_out_term_clean user ts te db) Hof).
    unfold add_sections_to_calendar. rewrite Hd. cbn. now rewrite Hadd.
Qed.

(** One generation on an empty calendar, then a second one on its result:
    the same count and the same store. *)
Lemma C3_witness :
  exists n db1,
    materialize no_repr accepts_all "alice" fall_selection "Fall" 2025 [] = Ok (n, db1)
    /\ materialize no_repr accepts_all "alice" fall_selection "Fall" 2025 db1 = Ok (n, db1).
Proof.
  destruct (C3_materialize_idempotent no_repr accepts_all "alice" fall_selection
              "Fall" 2025 [] ltac:(lia))
    as (ts & te & n & added & _ & _ & _ & _ & _ & H1 & H2).
  exists n. eexists. split; [exact H1 | exact H2].
Defined.

(** ** Write failures *)

Lemma add_sections_total (py_repr : json -> string)
      (rejects : Store -> CalendarEvent -> bool) (user : User)
      (selected : list (string * option SectionInfo)) (term : string) (year : Z)
      (db : Store) :
  1 <= year <= 9998 ->
  exists added,
    add_sections_to_calendar py_repr rejects user selected term year db
    = Ok (Z.of_nat (List.length added), db ++ added).
Proof.
  intros Hy. destruct (term_dates_ok term year Hy) as (ts & te & Hd).
  destruct (fold_events_adds py_repr rejects user ts te selected 0 db) as (added & E & _).
  exists added. unfold add_sections_to_calendar. rewrite Hd. cbn.
  f_equal. exact E.
Qed.

Section Shift.

Variable py_repr : json -> string.
Variable rejects : Store -> CalendarEvent -> bool.
Variable user : User.
Variables ts te : Date.

Lemma create_days_shift (event_on : string -> CalendarEvent) (days : list string) :
  forall k n db,
    create_days rejects event_on days (k + n) db
    = (k + fst (create_days rejects event_on days n db),
       snd (create_days rejects event_on days n db)).
Proof.
  induction days as [|d r IH]; intros k n db; cbn; [reflexivity|].
  destruct (create rejects db (event_on d)) as [db1|]; [|reflexivity].
  replace (k + n + 1) with (k + (n + 1)) by lia. apply IH.
Qed.

Lemma add_section_events_shift (entry : string * option SectionInfo) :
  forall k n db,
    add_section_events py_repr rejects user ts te (k + n, db) entry
    = (k + fst (add_section_events py_repr rejects user ts te (n, db) entry),
       snd (add_section_events py_repr rejects user ts te (n, db) entry)).
Proof.
  intros k n db. destruct entry as [c [sec|]]; cbn; [|reflexivity].
  destruct (_parse_time_string (time sec)) as [[st et]|]; [|reflexivity].
  destruct (_parse_days_string (days sec)) as [|d0 ds]; [reflexivity|].
  apply create_days_shift.
Qed.

Lemma fold_events_shift (selected : list (string * option SectionInfo)) :
  forall k n db,
    fold_left (add_section_events py_repr rejects user ts te) selected (k + n, db)
    = (k + fst (fold_left (add_section_events py_repr rejects user ts te) selected (n, db)),
       snd (fold_left (add_section_events py_repr rejects user ts te) selected (n, db))).
Proof.
  induction selected as [|entry rest IH]; intros k n db; cbn [fold_left].
  - reflexivity.
  - rewrite add_section_events_shift.
    destruct (add_section_events py_repr rejects user ts te (n, db) entry) as [n1 db1].
    apply IH.
Qed.

End Shift.

Lemma run_terms_same_report (py_repr json_dumps : json -> string)
      (rejects rejects' : Store -> CalendarEvent -> bool) (fs : FileSystem)
      (user : User) (pname : string)
      (plans : list (ScheduleGeneratorService.TermPlan)) :
  forall acc acc' db db',
    same_report acc acc' ->
    exists r r' d d',
      ScheduleGeneratorService.run_terms py_repr json_dumps rejects fs user pname
                                         plans acc db = (Ok r, d)
      /\ ScheduleGeneratorService.run_terms py_repr json_dumps rejects' fs user pname
                                            plans acc' db' = (Ok r', d')
      /\ same_report r r'.
Proof.
  induction plans as [|plan rest IH]; intros acc acc' db db' Hs.
  - exists acc, acc', db, db'. cbn. auto.
  - cbn [ScheduleGeneratorService.run_terms].
    set (selected := auto_select_sections
                       (find_sections_for_courses py_repr json_dumps fs
                          (ScheduleGeneratorService.required_courses plan)
                          (ScheduleGeneratorService.plan_term plan))).
    destruct (add_sections_total py_repr rejects user selected
                (ScheduleGeneratorService.plan_term plan) 2025 db ltac:(lia))
      as (a & Ea).
    destruct (add_sections_total py_repr rejects' user selected
                (ScheduleGeneratorService.plan_term plan) 2025 db' ltac:(lia))
      as (a' & Ea').
    rewrite Ea, Ea'.
    destruct Hs as (H1 & H2 & H3 & H4 & H5).
    destruct (ScheduleGeneratorService.required_courses plan),
             (ScheduleGeneratorService.electives_info plan);
      try (apply IH; repeat split; assumption);
      apply IH; unfold same_report; cbn;
      rewrite H1, H2, H3, H4, !map_app, H5; repeat split; reflexivity.
Qed.

(** C8, as the code has it.  A write that the store refuses does not leave
    [add_sections_to_calendar]: the other days of that section are
    skipped, the sections after it are still processed, from the store as
    it then is, and the call returns the count of the rows it did write.
    The pipeline reads only that count from the call, so whether it
    reports success, and with which events and courses, does not depend
    on what the store refuses. *)
Theorem C8_write_failures_degrade :
  forall (py_repr json_dumps : json -> string)
         (rejects : Store -> CalendarEvent -> bool) (user : User)
         (term : string) (year : Z),
    1 <= year <= 9998 ->
    (forall event_on day rest n db,
        rejects db (event_on day) = true ->
        create_days rejects event_on (day :: rest) n db = (n, db))
    /\ (forall selected db,
           exists added,
             add_sections_to_calendar py_repr rejects user selected term year db
             = Ok (Z.of_nat (List.length added), db ++ added))
    /\ (forall sel1 sel2 db,
           exists n1 db1 n2 db2,
             add_sections_to_calendar py_repr rejects user sel1 term year db = Ok (n1, db1)
             /\ add_sections_to_calendar py_repr rejects user sel2 term year db1
                = Ok (n2, db2)
             /\ add_sections_to_calendar py_repr rejects user (sel1 ++ sel2) term year db
                = Ok (n1 + n2, db2))
    /\ (forall rejects' fs pname plans db db',
           let r := fst (ScheduleGeneratorService.generate
                           py_repr json_dumps rejects fs user pname plans db) in
           let r' := fst (ScheduleGeneratorService.generate
                            py_repr json_dumps rejects' fs user pname plans db') in
           ScheduleGeneratorService.success r = ScheduleGeneratorService.success r'
           /\ ScheduleGeneratorService.events r = ScheduleGeneratorService.events r'
           /\ ScheduleGeneratorService.matched_courses r
              = ScheduleGeneratorService.matched_courses r'
           /\ ScheduleGeneratorService.unmatched_courses r
              = ScheduleGeneratorService.unmatched_courses r').
Proof.
  intros py_repr json_dumps rejects user term year Hy.
  split; [|split; [|split]].
  - intros event_on day rest n db H. cbn. unfold create. now rewrite H.
  - intros selected db. now apply add_sections_total.
  - intros sel1 sel2 db.
    destruct (term_dates_ok term year Hy) as (ts & te & Hd).
    unfold add_sections_to_calendar. rewrite Hd. cbn.
    set (f := add_section_events py_repr rejects user ts te).
    destruct (fold_left f sel1 (0, db)) as [n1 db1] eqn:E1.
    destruct (fold_left f sel2 (0, db1)) as [n2 db2] eqn:E2.
    exists n1, db1, n2, db2.
    split; [reflexivity | split; [now rewrite E2|]].
    rewrite fold_left_app, E1.
    replace n1 with (n1 + 0) at 1 by lia.
    unfold f. rewrite fold_events_shift. fold f. now rewrite E2.
  - intros rejects' fs pname plans db db'.
    unfold ScheduleGeneratorService.generate.
    set (start := ScheduleGeneratorService.mkTotals [] [] [] [] []).
    destruct (run_terms_same_report py_repr json_dumps rejects rejects' fs user pname
                plans start start db db') as (r & r' & d & d' & E & E' & Hs).
    { repeat split. }
    rewrite E, E'. destruct Hs as (H1 & H2 & H3 & H4 & _).
    rewrite H1, H2, H4.
    destruct (ScheduleGeneratorService.all_events r'),
             (ScheduleGeneratorService.all_successful r'),
             (ScheduleGeneratorService.all_electives r');
      cbn; rewrite ?H1, ?H2, ?H3; repeat split; reflexivity.
Qed.

(** With a store that refuses the rows of Wednesday, the call still returns
    a count and a store that extends the one it started from. *)
Lemma C8_witness :
  exists added,
    add_sections_to_calendar no_repr refuses_wednesday "alice" fall_selection
                             "Fall" 2025 []
    = Ok (Z.of_nat (List.length added), [] ++ added).
Proof.
  apply (proj1 (proj2 (C8_write_failures_degrade
                         no_repr no_repr refuses_wednesday "alice" "Fall" 2025
                         ltac:(lia)))).
Defined.

(** Against C8 as stated: the store refuses the row of Wednesday of the
    first course; the call does not raise, it returns 2 (3 with a store
    that takes every row) after writing the rows of Monday and of Tuesday,
    and the pipeline answers with success and "2 events added". *)
Lemma C8_counterexample :
  match add_sections_to_calendar no_repr refuses_wednesday "alice" fall_selection
                                 "Fall" 2025 [] with
  | Ok (n, db) => n = 2 /\ map day_of_week db = ["Monday"; "Tuesday"]%string
  | Raise => False
  end
  /\ match add_sections_to_calendar no_repr accepts_all "alice" fall_selection
                                    "Fall" 2025 [] with
     | Ok (n, db) => n = 3 /\ map day_of_week db = ["Monday"; "Wednesday"; "Tuesday"]%string
     | Raise => False
     end
  /\ (let r := fst (ScheduleGeneratorService.generate
                      no_repr no_repr refuses_wednesday fall_files "alice"
                      "Computer Science" [fall_plan] []) in
      ScheduleGeneratorService.success r = true
      /\ ScheduleGeneratorService.summary r = [("Computer Science Fall"%string, 2)]
      /\ ScheduleGeneratorService.matched_courses r = ["MAT1341"; "CSI2110"]%string).
Proof. vm_compute. repeat split. Qed.

(** ** The status of a section *)

Lemma closed_token_not_open (status_str : string) :
  any_token closed_tokens status_str = true -> is_open_of_tokens status_str = false.
Proof.
  intros H. unfold is_open_of_tokens. now rewrite H.
Qed.

(** C10. When the lowered status string of a section has an open token
    and a closed token, the loader sets [is_open] to false, in the by-term
    loader and in the per-term one: the test of the closed tokens is the
    last assignment. *)
Theorem C10_closed_tokens_win :
  forall (py_repr json_dumps : json -> string) (s : string),
    any_token open_tokens (PyStr.lower (PyStr.strip s)) = true ->
    any_token closed_tokens (PyStr.lower (PyStr.strip s)) = true ->
    status_is_open py_repr (JStr s) = false
    /\ (forall section course_sections result,
           raw_status_of section = Ok (JStr s) ->
           add_section py_repr json_dumps course_sections section = Ok result ->
           result = course_sections
           \/ exists info, result = Dict.append_to (code info) info course_sections
                           /\ is_open info = false)
    /\ (forall section course_sections result,
           raw_status_of section = Ok (JStr s) ->
           add_section_single py_repr json_dumps course_sections section = Ok result ->
           result = course_sections
           \/ exists info, result = Dict.append_to (code info) info course_sections
                           /\ is_open info = false).
Proof.
  intros py_repr json_dumps s _ Hclosed.
  assert (status_is_open py_repr (JStr s) = false) as Hs.
  { unfold status_is_open. cbn. now apply closed_token_not_open. }
  split; [exact Hs|]. split.
  - intros section course_sections result Hraw.
    destruct section; try discriminate.
    unfold add_section. cbn [Json.get Json.get_default bind].
    match goal with |- context [if ?c then _ else _] => destruct c end.
    + intros H. injection H as <-. now left.
    + rewrite Hraw. cbn [bind].
      match goal with |- context [_determine_section_type ?c] =>
        destruct (_determine_section_type c) as [ty|] end; [|discriminate].
      cbn [bind]. intros H. injection H as <-. right.
      match goal with |- exists _, Dict.append_to _ ?i _ = _ /\ _ => exists i end.
      split; [reflexivity | exact Hs].
  - intros section course_sections result Hraw.
    destruct section; try discriminate.
    unfold add_section_single. cbn [Json.get_default bind].
    destruct (Dict.get "courseCode" kv) as [[| | |raw_code| |]|]; try discriminate.
    2: { cbn. intros H. injection H as <-. now left. }
    match goal with |- context [if ?c then _ else _] => destruct c end.
    + intros H. injection H as <-. now left.
    + rewrite Hraw. cbn [bind].
      match goal with |- context [_determine_section_type ?c] =>
        destruct (_determine_section_type c) as [ty|] end; [|discriminate].
      cbn [bind]. intros H. injection H as <-. right.
      match goal with |- exists _, Dict.append_to _ ?i _ = _ /\ _ => exists i end.
      split; [reflexivity | exact Hs].
Qed.

(** The status "Waitlist open". *)
Lemma C10_witness : status_is_open no_repr (JStr "Waitlist open") = false.
Proof.
  apply (proj1 (C10_closed_tokens_win no_repr no_repr "Waitlist open"
                  eq_refl eq_refl)).
Defined.

(** ** The fuzzy matcher *)

Lemma pair_lt_spec (p q : Z * Z) :
  pair_lt p q = true <-> fst p < fst q \/ (fst p = fst q /\ snd p < snd q).
Proof.
  unfold pair_lt. rewrite orb_true_iff, andb_true_iff, !Z.ltb_lt, Z.eqb_eq. reflexivity.
Qed.

Lemma pair_lt_false (p q : Z * Z) :
  pair_lt p q = false <-> fst q < fst p \/ (fst q = fst p /\ snd q <= snd p).
Proof.
  rewrite <- not_true_iff_false, pair_lt_spec. lia.
Qed.

(** The loop over the candidates keeps a score that no candidate beats,
    and the code that goes with it: a candidate of minimal score when one
    is below the initial score. *)
Lemma best_of_from (normalized_code : string) (target_number : option Z)
      (candidates : list (string * option Z)) :
  forall best0 : option string * (Z * Z),
    let step := fun (best : option string * (Z * Z)) (cand : string * option Z) =>
                  let score := score_of normalized_code target_number cand in
                  if pair_lt score (snd best) then (Some (fst cand), score) else best in
    let best := fold_left step candidates best0 in
    pair_lt (snd best0) (snd best) = false
    /\ (forall cand, In cand candidates ->
                     pair_lt (score_of normalized_code target_number cand) (snd best) = false)
    /\ (best = best0
        \/ exists cand, In cand candidates
                        /\ best = (Some (fst cand),
                                   score_of normalized_code target_number cand)).
Proof.
  induction candidates as [|cand rest IH]; intros best0; cbn zeta; cbn [fold_left].
  - split; [|split].
    + apply pair_lt_false. lia.
    + intros cand [].
    + now left.
  - set (score := score_of normalized_code target_number cand).
    destruct (pair_lt score (snd best0)) eqn:E.
    + specialize (IH (Some (fst cand), score)). cbn zeta in IH. cbn [snd] in IH.
      destruct IH as (H1 & H2 & H3).
      apply pair_lt_spec in E. rewrite pair_lt_false in H1.
      split; [|split].
      * apply pair_lt_false. lia.
      * intros c [<-|Hc]; [|now apply H2]. apply pair_lt_false. fold score. lia.
      * right. destruct H3 as [H3|(c & Hc & H3)].
        -- exists cand. split; [now left | exact H3].
        -- exists c. split; [now right | exact H3].
    + specialize (IH best0). cbn zeta in IH.
      destruct IH as (H1 & H2 & H3).
      rewrite pair_lt_false in E, H1.
      split; [|split].
      * apply pair_lt_false. lia.
      * intros c [<-|Hc]; [|now apply H2]. apply pair_lt_false. fold score. lia.
      * destruct H3 as [H3|(c & Hc & H3)]; [now left|].
        right. exists c. split; [now right | exact H3].
Qed.

(** Among the codes of the subject the matcher keeps one of minimal score,
    the absolute difference of the numbers first [the part of C7 that the
    code has]. *)
Lemma best_of_minimal (normalized_code : string) (target_number : option Z)
      (candidates : list (string * option Z)) (cand : string * option Z) :
  In cand candidates ->
  pair_lt (score_of normalized_code target_number cand) (10 ^ 9, 10 ^ 9) = true ->
  exists best,
    In best candidates
    /\ best_of normalized_code target_number candidates
       = (Some (fst best), score_of normalized_code target_number best)
    /\ forall other, In other candidates ->
                     pair_lt (score_of normalized_code target_number other)
                             (score_of normalized_code target_number best) = false.
Proof.
  intros Hin Hlt.
  destruct (best_of_from normalized_code target_number candidates (None, (10 ^ 9, 10 ^ 9)))
    as (_ & H2 & H3).
  cbn zeta in H2, H3. fold (best_of normalized_code target_number candidates) in H2, H3.
  destruct H3 as [H3|(best & Hb & H3)].
  - specialize (H2 cand Hin). rewrite H3 in H2. cbn [snd] in H2. congruence.
  - exists best. split; [assumption|]. split; [assumption|].
    intros other Ho. specialize (H2 other Ho). now rewrite H3 in H2.
Qed.

(** C7. Two codes of the subject at the same distance from the requested
    number: the matcher takes the one that the course data lists first,
    CSI2120 when it comes first, where the lexicographic rule gives
    CSI2110 whatever the order of the data. *)
Theorem C7_tie_follows_catalog_order :
  map (fun kv => (fst kv, map code (snd kv)))
      (find_sections_for_courses no_repr no_repr tie_files ["CSI2115"%string] "Fall")
  = [("CSI2115"%string, ["CSI2120"%string])]
  /\ fuzzy_code catalog_2120_first "CSI2115" = Some "CSI2120"%string
  /\ fuzzy_code catalog_2110_first "CSI2115" = Some "CSI2110"%string
  /\ score_of "CSI2115" (Some 2115) ("CSI2120"%string, Some 2120) = (5, 1)
  /\ score_of "CSI2115" (Some 2115) ("CSI2110"%string, Some 2110) = (5, 1)
  /\ String.ltb "CSI2110" "CSI2120" = true.
Proof. vm_compute. repeat split. Qed.

(** ** The loader fails soft *)

Lemma find_no_file (fs : FileSystem) (paths : list Path) :
  (forall p, In p paths -> fs p = None) -> find (exists_ fs) paths = None.
Proof.
  induction paths as [|p r IH]; intros H; cbn; [reflexivity|].
  unfold exists_ at 1. rewrite (H p) by now left.
  apply IH. intros q Hq. apply H. now right.
Qed.

Lemma filter_none {A : Type} (f : A -> bool) (l : list A) :
  (forall x, In x l -> f x = false) -> filter f l = [].
Proof.
  induction l as [|x r IH]; intros H; cbn; [reflexivity|].
  rewrite (H x) by now left. apply IH. intros y Hy. apply H. now right.
Qed.

Lemma dict_get_in {V : Type} (k : string) (d : list (string * V)) :
  In k (Dict.keys d) -> exists v, Dict.get k d = Some v.
Proof.
  induction d as [|[k' v'] r IH]; cbn; [intros []|].
  destruct (String.eqb k k') eqn:E; [eauto|].
  intros [H|H]; [|now apply IH].
  subst k'. now rewrite String.eqb_refl in E.
Qed.

Lemma dict_keys_set {V : Type} (k : string) (v : V) (d : list (string * V)) (k0 : string) :
  In k0 (Dict.keys (Dict.set k v d)) <-> k0 = k \/ In k0 (Dict.keys d).
Proof.
  induction d as [|[k' v'] r IH]; cbn.
  - intuition.
  - destruct (String.eqb k k') eqn:E; cbn.
    + apply String.eqb_eq in E. subst k'. intuition.
    + rewrite IH. intuition.
Qed.

Section LoaderFacts.

Variables py_repr json_dumps : json -> string.

Lemma sections_for_nothing (course_code : string) :
  sections_for [] course_code = [].
Proof.
  unfold sections_for. cbn [find Dict.get].
  unfold fuzzy_code. cbn [Dict.keys map subject_to_codes_of fold_left Dict.get filter].
  destruct (extract_subject_and_number course_code) as [subject number].
  now destruct (String.eqb subject "").
Qed.

Lemma find_in_nothing (course_codes : list string) :
  forall result,
    (forall k v, Dict.get k result = Some v -> v = []) ->
    (forall k v, Dict.get k (fold_left
                               (fun result course_code =>
                                  Dict.set course_code (sections_for [] course_code) result)
                               course_codes result) = Some v -> v = [])
    /\ (forall k, In k (Dict.keys (fold_left
                               (fun result course_code =>
                                  Dict.set course_code (sections_for [] course_code) result)
                               course_codes result))
                  <-> In k course_codes \/ In k (Dict.keys result)).
Proof.
  induction course_codes as [|c r IH]; intros result Hres; cbn [fold_left].
  - split; [exact Hres|]. intros k. cbn. tauto.
  - rewrite sections_for_nothing.
    destruct (IH (Dict.set c [] result)) as [H1 H2].
    + intros k v. destruct (String.eqb k c) eqn:E.
      * apply String.eqb_eq in E. subst k. rewrite dict_get_set_same. congruence.
      * apply String.eqb_neq in E. rewrite dict_get_set_other by assumption. apply Hres.
    + split; [exact H1|].
      intros k. rewrite H2, dict_keys_set. cbn. intuition.
Qed.

(** C6. The loader returns a map and raises nothing: an exception of its
    [try] block is caught and the map is then empty.  Without any of the
    by-term files, or with a first file that cannot be read as JSON, the
    block raises and the map is empty; with a file that has no key for the
    term, the map is the one of the per-term
    loader, which is empty when no per-term file exists or when the first
    one cannot be read.  And on an empty map [find_sections_for_courses]
    returns the map that gives no section to each requested course. *)
Theorem C6_loader_fails_soft :
  forall (fs : FileSystem) (term : string),
    (_load_course_data_try py_repr json_dumps fs term = Raise ->
     _load_course_data py_repr json_dumps fs term = [])
    /\ ((forall p, In p possible_paths -> fs p = None) ->
     _load_course_data_try py_repr json_dumps fs term = Raise
     /\ _load_course_data py_repr json_dumps fs term = [])
    /\ (forall p, find (exists_ fs) possible_paths = Some p ->
                  fs p = Some Malformed ->
                  _load_course_data_try py_repr json_dumps fs term = Raise
                  /\ _load_course_data py_repr json_dumps fs term = [])
    /\ (forall p kv,
           find (exists_ fs) possible_paths = Some p ->
           fs p = Some (Parsed (JDict kv)) ->
           (forall key, In key (Dict.keys kv) ->
                        PyStr.contains (PyStr.lower term) (PyStr.lower key) = false
                        /\ String.eqb (PyStr.lower key)
                                      (PyStr.lower (_map_term_to_kairoll_format term))
                           = false) ->
           _load_course_data py_repr json_dumps fs term
           = _load_course_data_from_single_file py_repr json_dumps fs term)
    /\ ((forall p, In p (candidate_paths (slug_of term)) -> fs p = None) ->
        _load_course_data_from_single_file py_repr json_dumps fs term = [])
    /\ (forall p, find (exists_ fs) (candidate_paths (slug_of term)) = Some p ->
                  fs p = Some Malformed ->
                  _load_course_data_from_single_file_try py_repr json_dumps fs term = Raise
                  /\ _load_course_data_from_single_file py_repr json_dumps fs term = [])
    /\ (forall course_codes,
           _load_course_data py_repr json_dumps fs term = [] ->
           forall k,
             (In k course_codes ->
              Dict.get k (find_sections_for_courses py_repr json_dumps fs course_codes term)
              = Some [])
             /\ (In k (Dict.keys (find_sections_for_courses
                                    py_repr json_dumps fs course_codes term))
                 -> In k course_codes)).
Proof.
  intros fs term. repeat apply conj.
  - intros Ht. unfold _load_course_data. now rewrite Ht.
  - intros H.
    assert (_load_course_data_try py_repr json_dumps fs term = Raise) as Ht.
    { unfold _load_course_data_try, _get_course_data_path.
      rewrite (find_no_file fs possible_paths H).
      unfold load_json. rewrite (H (ScrapersData, by_term_file)); [reflexivity|].
      now left. }
    split; [exact Ht|]. unfold _load_course_data. now rewrite Ht.
  - intros p Hp Hm.
    assert (_load_course_data_try py_repr json_dumps fs term = Raise) as Ht.
    { unfold _load_course_data_try, _get_course_data_path.
      rewrite Hp. unfold load_json. now rewrite Hm. }
    split; [exact Ht|]. unfold _load_course_data. now rewrite Ht.
  - intros p kv Hp Hf Hkeys.
    unfold _load_course_data, _load_course_data_try, _get_course_data_path.
    rewrite Hp. unfold load_json. rewrite Hf. cbn [bind].
    rewrite (filter_none _ (Dict.keys kv)) by (intros key Hk; now apply Hkeys).
    rewrite (filter_none _ (Dict.keys kv)) by (intros key Hk; now apply Hkeys).
    cbn. now destruct (_load_course_data_from_single_file py_repr json_dumps fs term).
  - intros H.
    unfold _load_course_data_from_single_file, _load_course_data_from_single_file_try.
    now rewrite (find_no_file fs _ H).
  - intros p Hp Hm.
    assert (_load_course_data_from_single_file_try py_repr json_dumps fs term = Raise)
      as Ht.
    { unfold _load_course_data_from_single_file_try.
      rewrite Hp. unfold load_json. now rewrite Hm. }
    split; [exact Ht|]. unfold _load_course_data_from_single_file. now rewrite Ht.
  - intros course_codes Hempty k.
    unfold find_sections_for_courses, find_in. rewrite Hempty.
    destruct (find_in_nothing course_codes []) as [H1 H2]; [discriminate|].
    split.
    + intros Hin.
      destruct (dict_get_in k _ (proj2 (H2 k) (or_introl Hin))) as [v Hv].
      rewrite Hv. f_equal. exact (H1 k v Hv).
    + intros Hin. apply H2 in Hin. destruct Hin as [Hin|[]]. exact Hin.
Qed.

End LoaderFacts.

(** Without any course-data file, two requested courses get no section. *)
Lemma C6_witness :
  _load_course_data no_repr no_repr (fun _ => None) "Winter" = []
  /\ Dict.get "CSI2110"
              (find_sections_for_courses no_repr no_repr (fun _ => None)
                                         ["CSI2110"; "MAT1341"]%string "Winter")
     = Some [].
Proof.
  pose proof (C6_loader_fails_soft no_repr no_repr (fun _ => None) "Winter") as H.
  destruct H as (_ & H1 & _ & _ & _ & _ & H6).
  destruct (H1 (fun _ _ => eq_refl)) as [_ He].
  split; [exact He|].
  apply (H6 ["CSI2110"; "MAT1341"]%string He "CSI2110"%string).
  now left.
Defined.

(** * Further properties *)

Lemma best_section_none (sections schedule : list SectionInfo) :
  best_section sections schedule = None ->
  forall s, In s sections -> exists y, In y schedule /\ conflicts s y = true.
Proof.
  unfold best_section. intros H s Hs.
  assert (In s (sort_sections sections)) as Hin
    by (eapply Permutation_in; [apply sorted_by_perm | exact Hs]).
  pose proof (find_none _ _ H s Hin) as Hc. cbn in Hc.
  apply negb_false_iff in Hc. rewrite conflicts_with_schedule_existsb in Hc.
  apply existsb_exists in Hc. exact Hc.
Qed.

Lemma dict_get_In {V : Type} (k : string) (v : V) (d : list (string * V)) :
  Dict.get k d = Some v -> In (k, v) d.
Proof.
  induction d as [|[k' v'] r IH]; cbn; [discriminate|].
  destruct (String.eqb k k') eqn:E.
  - apply String.eqb_eq in E. intros H. injection H as <-. subst. now left.
  - intros H. right. now apply IH.
Qed.

Lemma dict_In_get {V : Type} (k : string) (v : V) (d : list (string * V)) :
  NoDup (Dict.keys d) -> In (k, v) d -> Dict.get k d = Some v.
Proof.
  induction d as [|[k' v'] r IH]; cbn; [intros _ []|].
  intros Hnd [H|H].
  - injection H as -> ->. now rewrite String.eqb_refl.
  - apply NoDup_cons_iff in Hnd. destruct Hnd as [Hk Hnd].
    destruct (String.eqb k k') eqn:E.
    + apply String.eqb_eq in E. subst k'. exfalso. apply Hk.
      change (In (fst (k, v)) (map fst r)). now apply in_map.
    + now apply IH.
Qed.

(** The entries of the selection after the loop: those it started with,
    and one for each course, which is a candidate of the course or, when
    none is free, [None]. *)
Lemma select_loop_entries (courses : list (string * list SectionInfo)) :
  forall selected schedule,
    (exists more, snd (select_loop courses selected schedule) = schedule ++ more)
    /\ forall c v,
        Dict.get c (fst (select_loop courses selected schedule)) = Some v ->
        Dict.get c selected = Some v
        \/ exists sections,
            In (c, sections) courses
            /\ match v with
               | Some s => In s sections
               | None =>
                   forall s, In s sections ->
                             exists y, In y (snd (select_loop courses selected schedule))
                                       /\ conflicts s y = true
               end.
Proof.
  induction courses as [|[c0 secs0] rest IH]; intros selected schedule.
  - cbn. split; [exists []; now rewrite app_nil_r | auto].
  - assert (forall v0 schedule',
               (exists more0, schedule' = schedule ++ more0) ->
               match v0 with
               | Some s => In s secs0
               | None => forall s, In s secs0 ->
                                   exists y, In y schedule' /\ conflicts s y = true
               end ->
               (exists more,
                   snd (select_loop rest (Dict.set c0 v0 selected) schedule')
                   = schedule ++ more)
               /\ forall c v,
                   Dict.get c (fst (select_loop rest (Dict.set c0 v0 selected) schedule'))
                   = Some v ->
                   Dict.get c selected = Some v
                   \/ exists sections,
                       In (c, sections) ((c0, secs0) :: rest)
                       /\ match v with
                          | Some s => In s sections
                          | None =>
                              forall s, In s sections ->
                                exists y,
                                  In y (snd (select_loop rest (Dict.set c0 v0 selected)
                                                         schedule'))
                                  /\ conflicts s y = true
                          end) as Step.
    { intros v0 schedule' [more0 ->] Hv0.
      destruct (IH (Dict.set c0 v0 selected) (schedule ++ more0)) as [[more Hm] Hent].
      split.
      - exists (more0 ++ more). now rewrite Hm, app_assoc.
      - intros c v Hget. destruct (Hent c v Hget) as [Hsel | (sections & Hin & Hv)].
        + destruct (String.eqb c c0) eqn:E.
          * apply String.eqb_eq in E. subst c0.
            rewrite dict_get_set_same in Hsel. injection Hsel as <-.
            right. exists secs0. split; [now left|].
            destruct v0 as [s|]; [exact Hv0|].
            intros s Hs. destruct (Hv0 s Hs) as (y & Hy & Hc).
            exists y. split; [|exact Hc].
            rewrite Hm. apply in_or_app. left. exact Hy.
          * apply String.eqb_neq in E.
            rewrite dict_get_set_other in Hsel by assumption. now left.
        + right. exists sections. split; [now right | exact Hv]. }
    cbn [select_loop]. destruct secs0 as [|s0 more0].
    + apply Step; [exists []; now rewrite app_nil_r | intros s []].
    + destruct (best_section (s0 :: more0) schedule) as [best|] eqn:Eb.
      * apply Step; [now exists [best]|].
        now apply best_section_spec in Eb.
      * apply Step; [exists []; now rewrite app_nil_r|].
        intros s Hs. now apply (best_section_none _ _ Eb).
Qed.

Lemma courses_by_options_keys (available : list (string * list SectionInfo)) :
  Permutation (Dict.keys available) (Dict.keys (courses_by_options available)).
Proof. unfold Dict.keys. apply Permutation_map. apply sorted_by_perm. Qed.

(** X2. Simple mode gives each course of the input one entry, and the
    section of an entry is one of the candidates of its course. *)
Theorem auto_select_picks_candidates (available : list (string * list SectionInfo)) :
  NoDup (Dict.keys available) ->
  Permutation (Dict.keys available) (Dict.keys (auto_select_sections available))
  /\ NoDup (Dict.keys (auto_select_sections available))
  /\ (forall c s,
         Dict.get c (auto_select_sections available) = Some (Some s) ->
         exists sections, Dict.get c available = Some sections /\ In s sections)
  /\ (forall c, Dict.get c available = Some [] ->
                Dict.get c (auto_select_sections available) = Some None).
Proof.
  intros Hnd.
  assert (NoDup (Dict.keys (courses_by_options available))) as Hnd'
    by (eapply Permutation_NoDup; [apply courses_by_options_keys | exact Hnd]).
  unfold auto_select_sections.
  destruct (select_loop_invariant (courses_by_options available) [] [] Hnd')
    as (_ & _ & Hkeys); [intros k _ [] | reflexivity | constructor |].
  cbn [Dict.keys map app] in Hkeys.
  destruct (select_loop_entries (courses_by_options available) [] []) as [_ Hent].
  assert (forall c sections, In (c, sections) (courses_by_options available) ->
                             Dict.get c available = Some sections) as Hback.
  { intros c sections Hin. apply dict_In_get; [exact Hnd|].
    eapply Permutation_in; [symmetry; apply sorted_by_perm | exact Hin]. }
  split; [|split; [|split]].
  - unfold Dict.keys in *. rewrite Hkeys. apply courses_by_options_keys.
  - unfold Dict.keys in *. now rewrite Hkeys.
  - intros c s Hget. destruct (Hent c (Some s) Hget) as [H | (sections & Hin & Hs)];
      [discriminate|].
    exists sections. split; [now apply Hback | exact Hs].
  - intros c Hc.
    assert (In c (Dict.keys (fst (select_loop (courses_by_options available) [] [])))) as Hk.
    { unfold Dict.keys in *. rewrite Hkeys.
      eapply Permutation_in; [apply courses_by_options_keys|].
      apply dict_get_In in Hc. change (In (fst (c, @nil SectionInfo)) (map fst available)).
      now apply in_map. }
    destruct (dict_get_in c _ Hk) as [v Hv]. rewrite Hv. f_equal.
    destruct v as [s|]; [|reflexivity].
    destruct (Hent c (Some s) Hv) as [H | (sections & Hin & Hs)]; [discriminate|].
    apply Hback in Hin. rewrite Hc in Hin. injection Hin as <-. destruct Hs.
Qed.

(** X3. A course is left without a section only when each of its
    candidates conflicts with a section that the selection commits. *)
Theorem auto_select_none_means_blocked (available : list (string * list SectionInfo)) :
  NoDup (Dict.keys available) ->
  forall c sections s,
    Dict.get c available = Some sections ->
    Dict.get c (auto_select_sections available) = Some None ->
    In s sections ->
    exists y, In y (committed (auto_select_sections available)) /\ conflicts s y = true.
Proof.
  intros Hnd c sections s Hc Hnone Hs.
  assert (NoDup (Dict.keys (courses_by_options available))) as Hnd'
    by (eapply Permutation_NoDup; [apply courses_by_options_keys | exact Hnd]).
  unfold auto_select_sections in *.
  destruct (select_loop_invariant (courses_by_options available) [] [] Hnd')
    as (Hcom & _ & _); [intros k _ [] | reflexivity | constructor |].
  destruct (select_loop_entries (courses_by_options available) [] []) as [_ Hent].
  destruct (Hent c None Hnone) as [H | (sections' & Hin & Hblocked)]; [discriminate|].
  assert (Dict.get c available = Some sections') as Hc'.
  { apply dict_In_get; [exact Hnd|].
    eapply Permutation_in; [symmetry; apply sorted_by_perm | exact Hin]. }
  rewrite Hc in Hc'. injection Hc' as <-.
  rewrite Hcom. now apply Hblocked.
Qed.

(** ** Characters and case *)

Lemma lower_char_letter (c : ascii) :
  PyStr.is_lower (PyStr.lower_char c) = true ->
  PyStr.is_alpha c = true
  /\ PyStr.upper_char c = PyStr.upper_char (PyStr.lower_char c).
Proof.
  destruct c as [[] [] [] [] [] [] [] []]; vm_compute; intros H;
    solve [discriminate H | split; reflexivity].
Qed.

Lemma upper_char_idem (c : ascii) :
  PyStr.upper_char (PyStr.upper_char c) = PyStr.upper_char c.
Proof. destruct c as [[] [] [] [] [] [] [] []]; vm_compute; reflexivity. Qed.

Lemma upper_char_blank (c : ascii) :
  Ascii.eqb (PyStr.upper_char c) " " = Ascii.eqb c " ".
Proof. destruct c as [[] [] [] [] [] [] [] []]; vm_compute; reflexivity. Qed.

Lemma title_from_letters (s : string) :
  forall previous_is_cased,
    all_lower (PyStr.lower s) = true ->
    PyStr.title_from previous_is_cased s
    = if previous_is_cased then PyStr.lower s else capitalized (PyStr.lower s).
Proof.
  induction s as [|c r IH]; intros b H; cbn in *.
  - now destruct b.
  - apply andb_prop in H. destruct H as [Hc Hr].
    destruct (lower_char_letter c Hc) as [Ha Hu].
    rewrite Ha, (IH true Hr). destruct b; [reflexivity|].
    now rewrite Hu.
Qed.

Lemma titled_full_name (item : string) :
  is_full_name item = true -> In (PyStr.titled item) weekdays.
Proof.
  unfold is_full_name. intros H. apply mem_In in H.
  assert (forall name, In name (map PyStr.lower (Dict.values day_mapping)) ->
                       all_lower name = true /\ In (capitalized name) weekdays) as Hn.
  { intros name Hin. cbn in Hin.
    repeat (destruct Hin as [<-|Hin]; [split; [reflexivity | cbn; tauto]|]).
    destruct Hin. }
  destruct (Hn _ H) as [Hl Hc].
  unfold PyStr.titled. now rewrite title_from_letters.
Qed.

Lemma dict_get_value {V : Type} (k : string) (v : V) (d : list (string * V)) :
  Dict.get k d = Some v -> In v (Dict.values d).
Proof.
  induction d as [|[k' v'] r IH]; cbn; [discriminate|].
  destruct (String.eqb k k'); intros H.
  - injection H as <-. now left.
  - right. now apply IH.
Qed.

Lemma mapped_weekday (k d : string) : In d (mapped k) -> In d weekdays.
Proof.
  unfold mapped. destruct (Dict.get k day_mapping) as [v|] eqn:E; [|intros []].
  intros [<-|[]]. apply dict_get_value in E. cbn in E. cbn. tauto.
Qed.

Lemma parse_days_weekdays (days_input : DaysInput) (d : string) :
  In d (_parse_days_string days_input) -> In d weekdays.
Proof.
  destruct days_input as [items|s]; unfold _parse_days_string.
  - intros H. apply in_flat_map in H. destruct H as (item & _ & H).
    destruct (is_full_name item) eqn:E.
    + destruct H as [<-|[]]. now apply titled_full_name.
    + now apply mapped_weekday in H.
  - destruct (String.eqb s ""); [intros []|].
    match goal with |- context [if ?c then _ else _] => destruct c end.
    + intros H. apply in_flat_map in H. destruct H as (tok & _ & H).
      destruct (is_full_name tok) eqn:E; [|destruct H].
      destruct H as [<-|[]]. now apply titled_full_name.
    + intros H. apply in_flat_map in H. destruct H as (ch & _ & H).
      now apply mapped_weekday in H.
Qed.

Lemma scan_days_weekdays (s d : string) : In d (scan_days s) -> In d weekdays.
Proof.
  unfold scan_days. intros H. apply in_flat_map in H.
  destruct H as ([abbr name] & Hin & H). cbn [fst snd] in H.
  destruct (PyStr.contains abbr s); [|destruct H].
  destruct H as [<-|[]].
  cbn in Hin. repeat (destruct Hin as [Hin|Hin]; [injection Hin as <- <-; cbn; tauto|]).
  destruct Hin.
Qed.

Lemma extract_days_weekdays (py_repr : json -> string) (schedule_input : json) (d : string) :
  In d (_extract_days_from_schedule py_repr schedule_input) -> In d weekdays.
Proof.
  unfold _extract_days_from_schedule.
  destruct (negb (Json.truthy schedule_input)); [intros []|].
  destruct schedule_input; try apply scan_days_weekdays.
  match goal with |- context [days_input_of ?v] => destruct (days_input_of v) end; cbn.
  - apply parse_days_weekdays.
  - apply scan_days_weekdays.
Qed.

(** ** Normalized codes *)

Lemma remove_blanks_append (a b : string) :
  PyStr.remove_blanks (String.append a b)
  = String.append (PyStr.remove_blanks a) (PyStr.remove_blanks b).
Proof.
  induction a as [|c r IH]; cbn; [reflexivity|].
  destruct (Ascii.eqb c " "); cbn; now rewrite IH.
Qed.

Lemma take_drop (n : nat) (s : string) :
  String.append (PyStr.take n s) (PyStr.drop n s) = s.
Proof.
  revert s. induction n as [|n IH]; intros s; [reflexivity|].
  destruct s as [|c r]; cbn; [reflexivity|]. now rewrite IH.
Qed.

Lemma remove_blanks_idem (s : string) :
  PyStr.remove_blanks (PyStr.remove_blanks s) = PyStr.remove_blanks s.
Proof.
  induction s as [|c r IH]; cbn; [reflexivity|].
  destruct (Ascii.eqb c " ") eqn:E; [assumption|]. cbn. now rewrite E, IH.
Qed.

Lemma upper_idem (s : string) : PyStr.upper (PyStr.upper s) = PyStr.upper s.
Proof.
  induction s as [|c r IH]; cbn; [reflexivity|].
  rewrite upper_char_idem. f_equal. exact IH.
Qed.

Lemma remove_blanks_upper (s : string) :
  PyStr.remove_blanks (PyStr.upper s) = PyStr.upper (PyStr.remove_blanks s).
Proof.
  induction s as [|c r IH]; cbn; [reflexivity|].
  rewrite upper_char_blank. destruct (Ascii.eqb c " "); cbn; now rewrite IH.
Qed.

Lemma normalize_eq (s : string) :
  _normalize_course_code s = PyStr.upper (PyStr.remove_blanks s).
Proof. unfold _normalize_course_code. now destruct s. Qed.

Lemma normalize_idem (s : string) :
  _normalize_course_code (_normalize_course_code s) = _normalize_course_code s.
Proof.
  rewrite !normalize_eq, remove_blanks_upper, upper_idem, remove_blanks_idem.
  reflexivity.
Qed.

(** X4. Normalizing a course code twice changes nothing more; the blank that
    [_add_space_to_course_code] inserts is removed again by the
    normalization; and the subject and number of a code are those of its
    normalized form. *)
Theorem course_code_normal_form (course_code : string) :
  _normalize_course_code (_normalize_course_code course_code)
  = _normalize_course_code course_code
  /\ _normalize_course_code (_add_space_to_course_code course_code)
     = _normalize_course_code course_code
  /\ extract_subject_and_number (_normalize_course_code course_code)
     = extract_subject_and_number course_code
  /\ extract_subject_and_number (_add_space_to_course_code course_code)
     = extract_subject_and_number course_code.
Proof.
  assert (_normalize_course_code (_add_space_to_course_code course_code)
          = _normalize_course_code course_code) as Hsp.
  { unfold _add_space_to_course_code.
    destruct (String.eqb course_code "" || (String.length course_code <? 4)%nat);
      [reflexivity|].
    destruct ((0 <? leading_letters course_code)%nat
              && (leading_letters course_code <? String.length course_code)%nat);
      [|reflexivity].
    rewrite !normalize_eq, !remove_blanks_append.
    change (PyStr.remove_blanks " ") with "". cbn [String.append].
    now rewrite <- remove_blanks_append, take_drop. }
  split; [apply normalize_idem|]. split; [exact Hsp|].
  unfold extract_subject_and_number. now rewrite normalize_idem, Hsp.
Qed.

(** ** Dictionaries *)

Lemma dict_get_none {V : Type} (k : string) (d : list (string * V)) :
  Dict.get k d = None -> ~ In k (Dict.keys d).
Proof.
  intros H Hin. apply dict_get_in in Hin. destruct Hin as [v Hv]. congruence.
Qed.

Lemma dict_set_In {V : Type} (k : string) (v : V) (d : list (string * V)) k' v' :
  In (k', v') (Dict.set k v d) -> (k' = k /\ v' = v) \/ In (k', v') d.
Proof.
  induction d as [|[k0 v0] r IH]; cbn.
  - intros [H|[]]. injection H as <- <-. now left.
  - destruct (String.eqb k k0) eqn:E; cbn.
    + intros [H|H]; [injection H as <- <-; now left | right; now right].
    + intros [H|H]; [right; now left|].
      destruct (IH H) as [?|?]; [now left | right; now right].
Qed.

Lemma dict_set_keys_present {V : Type} (k : string) (v : V) (d : list (string * V)) :
  In k (Dict.keys d) -> Dict.keys (Dict.set k v d) = Dict.keys d.
Proof.
  induction d as [|[k0 v0] r IH]; cbn; [intros []|].
  destruct (String.eqb k k0) eqn:E; cbn.
  - apply String.eqb_eq in E. now subst.
  - intros [H|H]; [subst; now rewrite String.eqb_refl in E|].
    f_equal. now apply IH.
Qed.

Lemma dict_set_nodup {V : Type} (k : string) (v : V) (d : list (string * V)) :
  NoDup (Dict.keys d) -> NoDup (Dict.keys (Dict.set k v d)).
Proof.
  intros Hnd. destruct (Dict.get k d) as [old|] eqn:E.
  - rewrite dict_set_keys_present; [assumption|].
    apply dict_get_In in E. change (In (fst (k, old)) (map fst d)). now apply in_map.
  - apply dict_get_none in E. rewrite (dict_set_fresh _ _ _ E).
    unfold Dict.keys. rewrite map_app. cbn.
    apply NoDup_app. repeat split; try assumption.
    + constructor; [intros []|constructor].
    + intros a Ha [<-|[]]. contradiction.
Qed.

(** ** The loaded map *)

Lemma section_type_known (section_code : json) (ty : string) :
  _determine_section_type section_code = Ok ty -> In ty section_types.
Proof.
  unfold _determine_section_type.
  destruct (negb (Json.truthy section_code)).
  - intros H. injection H as <-. cbn. tauto.
  - destruct (upper_of section_code) as [u|]; [|discriminate]. cbn [bind].
    intros H. injection H as <-.
    repeat match goal with |- context [if ?c then _ else _] => destruct c end;
      cbn; tauto.
Qed.

Lemma section_label_shape (section_code : json) (ty : string) :
  _determine_section_type section_code = Ok ty ->
  Json.truthy section_code = false \/ exists label, section_code = JStr label.
Proof.
  unfold _determine_section_type.
  destruct (Json.truthy section_code) eqn:E; [|now left]. cbn [negb].
  destruct section_code; try discriminate. right. eauto.
Qed.

Lemma stored_status_open (py_repr : json -> string) (raw_status : json) :
  status_is_open py_repr raw_status
  = status_is_open py_repr match raw_status with JNull => JStr "" | _ => raw_status end.
Proof. now destruct raw_status. Qed.

Lemma append_to_loaded (py_repr : json -> string) (key : string) (sec : SectionInfo)
      (m : list (string * list SectionInfo)) :
  loaded_map py_repr m ->
  key <> "" -> _normalize_course_code key = key -> loaded_section py_repr key sec ->
  loaded_map py_repr (Dict.append_to key sec m).
Proof.
  intros [Hnd Hm] Hk Hn Hs. unfold Dict.append_to.
  destruct (Dict.get key m) as [old|] eqn:E.
  - split; [now apply dict_set_nodup|].
    intros k l Hin. apply dict_set_In in Hin. destruct Hin as [[-> ->]|Hin]; [|now apply Hm].
    apply dict_get_In in E. destruct (Hm _ _ E) as (_ & _ & _ & Hold).
    repeat split; try assumption.
    + now destruct old.
    + apply Forall_app. split; [assumption | now constructor].
  - split; [now apply dict_set_nodup|].
    intros k l Hin. apply dict_set_In in Hin. destruct Hin as [[-> ->]|Hin]; [|now apply Hm].
    repeat split; try assumption; [discriminate | now constructor].
Qed.

Lemma for_each_invariant {A B : Type} (P : B -> Prop) (step : B -> A -> Exc B) :
  (forall acc x acc', P acc -> step acc x = Ok acc' -> P acc') ->
  forall xs acc r, P acc -> for_each step xs acc = Ok r -> P r.
Proof.
  intros Hstep. induction xs as [|x rest IH]; intros acc r Hacc; cbn.
  - intros H. injection H as <-. exact Hacc.
  - destruct (step acc x) as [acc'|] eqn:E; [|discriminate]. cbn [bind].
    apply IH. now apply (Hstep acc x).
Qed.

Lemma normalized_code (s : string) :
  _normalize_course_code (PyStr.upper (PyStr.remove_blanks s))
  = PyStr.upper (PyStr.remove_blanks s).
Proof. rewrite <- normalize_eq. apply normalize_idem. Qed.

Section LoadedFacts.

Variables py_repr json_dumps : json -> string.

Lemma weekdays_of_schedule (schedule_input : json) :
  exists ds, DaysList (_extract_days_from_schedule py_repr schedule_input) = DaysList ds
             /\ Forall (fun d => In d weekdays) ds.
Proof.
  eexists. split; [reflexivity|]. apply Forall_forall.
  intros d. apply extract_days_weekdays.
Qed.

Lemma add_section_loaded (m : list (string * list SectionInfo)) (section : json)
      (m' : list (string * list SectionInfo)) :
  loaded_map py_repr m -> add_section py_repr json_dumps m section = Ok m' ->
  loaded_map py_repr m'.
Proof.
  intros Hm. destruct section; try discriminate.
  unfold add_section. cbn [Json.get Json.get_default bind].
  match goal with |- context [if String.eqb ?c "" then _ else _] =>
    destruct (String.eqb c "") eqn:Ec end.
  - intros H. injection H as <-. exact Hm.
  - unfold raw_status_of. cbn [Json.get bind].
    match goal with |- context [_determine_section_type ?c] =>
      destruct (_determine_section_type c) as [ty|] eqn:Et end; [|discriminate].
    cbn [bind]. intros H. injection H as <-.
    apply append_to_loaded; try assumption.
    + now apply String.eqb_neq in Ec.
    + apply normalized_code.
    + unfold loaded_section. cbn [code days type is_open status title section].
      split; [reflexivity|]. split; [apply weekdays_of_schedule|].
      split; [now apply section_type_known in Et|].
      split; [now apply section_label_shape in Et|].
      split; [apply stored_status_open | reflexivity].
Qed.

Lemma add_section_single_loaded (m : list (string * list SectionInfo)) (section : json)
      (m' : list (string * list SectionInfo)) :
  loaded_map py_repr m -> add_section_single py_repr json_dumps m section = Ok m' ->
  loaded_map py_repr m'.
Proof.
  intros Hm. destruct section; try discriminate.
  unfold add_section_single. cbn [Json.get_default bind].
  destruct (Dict.get "courseCode" kv) as [[| | |raw_code| |]|]; try discriminate.
  2: { cbn. intros H. injection H as <-. exact Hm. }
  match goal with |- context [if String.eqb ?c "" then _ else _] =>
    destruct (String.eqb c "") eqn:Ec end.
  - intros H. injection H as <-. exact Hm.
  - unfold raw_status_of. cbn [Json.get bind].
    match goal with |- context [_determine_section_type ?c] =>
      destruct (_determine_section_type c) as [ty|] eqn:Et end; [|discriminate].
    cbn [bind]. intros H. injection H as <-.
    apply append_to_loaded; try assumption.
    + now apply String.eqb_neq in Ec.
    + apply normalized_code.
    + unfold loaded_section. cbn [code days type is_open status title section].
      split; [reflexivity|]. split; [apply weekdays_of_schedule|].
      split; [now apply section_type_known in Et|].
      split; [now apply section_label_shape in Et|].
      split; [apply stored_status_open | reflexivity].
Qed.

Lemma empty_loaded : loaded_map py_repr [].
Proof. split; [constructor | intros key sections []]. Qed.

Lemma single_file_loaded (fs : FileSystem) (term : string) :
  loaded_map py_repr (_load_course_data_from_single_file py_repr json_dumps fs term).
Proof.
  unfold _load_course_data_from_single_file.
  destruct (_load_course_data_from_single_file_try py_repr json_dumps fs term)
    as [m|] eqn:E; cbn; [|apply empty_loaded].
  unfold _load_course_data_from_single_file_try in E.
  match type of E with context [find ?f ?l] => destruct (find f l) as [p|] end.
  - destruct (load_json fs p) as [data|]; [|discriminate]. cbn [bind] in E.
    destruct (negb (Json.truthy data)).
    + injection E as <-. apply empty_loaded.
    + destruct (sections_of data) as [sections|]; [|discriminate]. cbn [bind] in E.
      eapply for_each_invariant; [|apply empty_loaded | exact E].
      intros acc x acc'. apply add_section_single_loaded.
  - cbn in E. injection E as <-. apply empty_loaded.
Qed.

Lemma course_data_loaded (fs : FileSystem) (term : string) :
  loaded_map py_repr (_load_course_data py_repr json_dumps fs term).
Proof.
  unfold _load_course_data.
  destruct (_load_course_data_try py_repr json_dumps fs term) as [m|] eqn:E; cbn;
    [|apply empty_loaded].
  unfold _load_course_data_try in E.
  destruct (load_json fs (_get_course_data_path fs term)) as [data|]; [|discriminate].
  cbn [bind] in E. destruct data; try discriminate.
  match type of E with context [negb (Json.truthy ?t)] =>
    destruct (negb (Json.truthy t)) end.
  - pose proof (single_file_loaded fs term) as Hs.
    destruct (_load_course_data_from_single_file py_repr json_dumps fs term);
      injection E as <-; [apply empty_loaded | exact Hs].
  - match type of E with context [sections_of ?t] =>
      destruct (sections_of t) as [sections|] end; [|discriminate].
    cbn [bind] in E.
    eapply for_each_invariant; [|apply empty_loaded | exact E].
    intros acc x acc'. apply add_section_loaded.
Qed.

End LoadedFacts.

(** ** Looking the requested courses up *)

Section Lookup.

Context {V : Type} (f : string -> V).

Lemma fold_set_get (codes : list string) :
  forall acc k,
    Dict.get k (fold_left (fun result c => Dict.set c (f c) result) codes acc)
    = if PyStr.mem k codes then Some (f k) else Dict.get k acc.
Proof.
  unfold PyStr.mem.
  induction codes as [|c rest IH]; intros acc k; cbn [fold_left existsb]; [reflexivity|].
  rewrite IH. destruct (existsb (String.eqb k) rest) eqn:Em.
  - now rewrite orb_true_r.
  - rewrite orb_false_r. destruct (String.eqb k c) eqn:E.
    + apply String.eqb_eq in E. subst c. apply dict_get_set_same.
    + apply String.eqb_neq in E. now apply dict_get_set_other.
Qed.

Lemma fold_set_nodup (codes : list string) :
  forall acc, NoDup (Dict.keys acc) ->
    NoDup (Dict.keys (fold_left (fun result c => Dict.set c (f c) result) codes acc)).
Proof.
  induction codes as [|c rest IH]; intros acc Hnd; cbn [fold_left]; [exact Hnd|].
  apply IH. now apply dict_set_nodup.
Qed.

Lemma fold_set_keys (codes : list string) :
  forall acc k,
    In k (Dict.keys (fold_left (fun result c => Dict.set c (f c) result) codes acc))
    <-> In k codes \/ In k (Dict.keys acc).
Proof.
  induction codes as [|c rest IH]; intros acc k; cbn [fold_left In]; [tauto|].
  rewrite IH, dict_keys_set. intuition.
Qed.

End Lookup.

Lemma sections_for_origin (cs : list (string * list SectionInfo)) (course_code : string) :
  sections_for cs course_code = []
  \/ exists key, In (key, sections_for cs course_code) cs.
Proof.
  unfold sections_for.
  match goal with |- context [find ?p ?l] => destruct (find p l) as [search_code|] end.
  - destruct (Dict.get search_code cs) as [sections|] eqn:E; [|now left].
    right. exists search_code. now apply dict_get_In.
  - destruct (fuzzy_code cs course_code) as [c|]; [|now left].
    destruct (negb (String.eqb c "")); [|now left].
    destruct (Dict.get c cs) as [sections|] eqn:E; [|now left].
    right. exists c. now apply dict_get_In.
Qed.

Lemma sections_for_hit (cs : list (string * list SectionInfo)) (course_code : string)
      (sections : list SectionInfo) :
  Dict.get course_code cs = Some sections -> sections_for cs course_code = sections.
Proof.
  intros H. unfold sections_for. cbn [find]. rewrite H. cbv beta iota. now rewrite H.
Qed.

Lemma sections_for_normalized (cs : list (string * list SectionInfo))
      (course_code : string) (sections : list SectionInfo) :
  Dict.get course_code cs = None ->
  Dict.get (_normalize_course_code course_code) cs = Some sections ->
  sections_for cs course_code = sections.
Proof.
  intros H0 H. unfold sections_for. cbn [find]. rewrite H0, H. cbv beta iota.
  now rewrite H.
Qed.

(** ** Blanks *)

Lemma normalized_no_blank (s : string) : has_blank (_normalize_course_code s) = false.
Proof.
  rewrite normalize_eq. induction s as [|c r IH]; cbn; [reflexivity|].
  destruct (Ascii.eqb c " ") eqn:E; [exact IH|].
  cbn. now rewrite upper_char_blank, E, IH.
Qed.

Lemma has_blank_append (a b : string) :
  has_blank (String.append a b) = has_blank a || has_blank b.
Proof.
  induction a as [|c r IH]; cbn; [reflexivity|]. now rewrite IH, orb_assoc.
Qed.

Lemma spaced_code_cases (course_code : string) :
  _add_space_to_course_code course_code = course_code
  \/ has_blank (_add_space_to_course_code course_code) = true.
Proof.
  unfold _add_space_to_course_code.
  destruct (String.eqb course_code "" || (String.length course_code <? 4)%nat);
    [now left|].
  destruct ((0 <? leading_letters course_code)%nat
            && (leading_letters course_code <? String.length course_code)%nat);
    [|now left].
  right. rewrite !has_blank_append. cbn. now rewrite orb_true_r.
Qed.

Lemma flat_map_nil {A B : Type} (f : A -> list B) (l : list A) :
  (forall x, In x l -> f x = []) -> flat_map f l = [].
Proof.
  induction l as [|x r IH]; intros H; cbn; [reflexivity|].
  rewrite (H x) by now left. apply IH. intros y Hy. apply H. now right.
Qed.

Lemma committed_In (selected : list (string * option SectionInfo)) (s : SectionInfo) :
  In s (committed selected) <-> exists c, In (c, Some s) selected.
Proof.
  unfold committed. rewrite in_flat_map. split.
  - intros ([c [s'|]] & Hin & Hs); cbn in Hs; [|destruct Hs].
    destruct Hs as [<-|[]]. now exists c.
  - intros [c Hin]. exists (c, Some s). split; [exact Hin | now left].
Qed.

Lemma auto_select_keys (available : list (string * list SectionInfo)) :
  NoDup (Dict.keys available) ->
  Dict.keys (auto_select_sections available) = Dict.keys (courses_by_options available)
  /\ committed (auto_select_sections available)
     = snd (select_loop (courses_by_options available) [] [])
  /\ conflict_free (committed (auto_select_sections available)).
Proof.
  intros Hnd.
  assert (NoDup (Dict.keys (courses_by_options available))) as Hnd'
    by (eapply Permutation_NoDup; [apply courses_by_options_keys | exact Hnd]).
  unfold auto_select_sections.
  destruct (select_loop_invariant (courses_by_options available) [] [] Hnd')
    as (Hc & Hf & Hkeys); [intros k _ [] | reflexivity | constructor |].
  repeat split; [exact Hkeys | exact Hc | now rewrite Hc].
Qed.

Lemma auto_select_nodup (available : list (string * list SectionInfo)) :
  NoDup (Dict.keys available) -> NoDup (Dict.keys (auto_select_sections available)).
Proof.
  intros Hnd. destruct (auto_select_keys available Hnd) as (-> & _).
  eapply Permutation_NoDup; [apply courses_by_options_keys | exact Hnd].
Qed.

Lemma auto_select_entry (available : list (string * list SectionInfo))
      (c : string) (v : option SectionInfo) :
  NoDup (Dict.keys available) ->
  Dict.get c (auto_select_sections available) = Some v ->
  exists sections,
    Dict.get c available = Some sections
    /\ match v with
       | Some s => In s sections
       | None => forall s, In s sections ->
                           exists y, In y (committed (auto_select_sections available))
                                     /\ conflicts s y = true
       end.
Proof.
  intros Hnd Hget. destruct (auto_select_keys available Hnd) as (_ & Hc & _).
  unfold auto_select_sections in *.
  destruct (select_loop_entries (courses_by_options available) [] []) as [_ Hent].
  destruct (Hent c v Hget) as [H | (sections & Hin & Hs)]; [discriminate|].
  exists sections. split.
  - apply dict_In_get; [exact Hnd|].
    eapply Permutation_in; [symmetry; apply sorted_by_perm | exact Hin].
  - destruct v as [s|]; [exact Hs|]. now rewrite Hc.
Qed.

Section PipelineFacts.

Variables py_repr json_dumps : json -> string.
Variable fs : FileSystem.

Let load := _load_course_data py_repr json_dumps fs.
Let find_ := find_sections_for_courses py_repr json_dumps fs.

Lemma find_nodup (course_codes : list string) (term : string) :
  NoDup (Dict.keys (find_ course_codes term)).
Proof. apply fold_set_nodup. constructor. Qed.

Lemma find_entry_loaded (course_codes : list string) (term : string)
      (c : string) (sections : list SectionInfo) :
  Dict.get c (find_ course_codes term) = Some sections ->
  sections = sections_for (load term) c
  /\ In c course_codes
  /\ (sections = []
      \/ exists key, In (key, sections) (load term)
                     /\ Forall (loaded_section py_repr key) sections).
Proof.
  unfold find_, find_sections_for_courses, find_in. rewrite fold_set_get.
  destruct (PyStr.mem c course_codes) eqn:Em; [|discriminate].
  intros H. injection H as <-. split; [reflexivity|].
  split; [now apply mem_In|].
  destruct (sections_for_origin (load term) c) as [H|[key H]]; [now left|].
  right. exists key. split; [exact H|].
  now apply (course_data_loaded py_repr json_dumps fs term).
Qed.

Lemma selected_loaded (course_codes : list string) (term : string)
      (c : string) (s : SectionInfo) :
  In (c, Some s) (auto_select_sections (find_ course_codes term)) ->
  In s (sections_for (load term) c)
  /\ exists key, Dict.get key (load term) = Some (sections_for (load term) c)
                 /\ loaded_section py_repr key s.
Proof.
  intros Hin.
  pose proof (find_nodup course_codes term) as Hnd.
  apply dict_In_get in Hin; [|now apply auto_select_nodup].
  destruct (auto_select_entry _ c (Some s) Hnd Hin) as (sections & Hget & Hs).
  destruct (find_entry_loaded _ _ _ _ Hget) as (-> & _ & [H0|(key & Hk & Hall)]).
  - rewrite H0 in Hs. destruct Hs.
  - split; [exact Hs|]. exists key. split.
    + apply dict_In_get; [|exact Hk]. apply (course_data_loaded py_repr json_dumps fs term).
    + rewrite Forall_forall in Hall. now apply Hall.
Qed.

End PipelineFacts.

Lemma weekday_not_letter (d : string) :
  In d weekdays -> Dict.get d ScheduleGeneratorService.day_mapping = None.
Proof.
  intros H. cbn in H.
  repeat (destruct H as [<-|H]; [reflexivity|]). destruct H.
Qed.

Lemma events_of_weekdays (py_repr : json -> string) (course_code : string)
      (sec : SectionInfo) (ds : list string) :
  days sec = DaysList ds -> Forall (fun d => In d weekdays) ds ->
  ScheduleGeneratorService.events_of py_repr course_code sec = [].
Proof.
  intros Hd Hw. unfold ScheduleGeneratorService.events_of.
  match goal with |- (if ?c then _ else _) = _ => destruct c end; [reflexivity|].
  destruct (PyStr.split_on "-" (PyStr.remove_blanks (time sec))) as [|a [|b [|x r]]];
    try reflexivity.
  rewrite Hd. cbn [ScheduleGeneratorService.iterate_days].
  rewrite flat_map_nil; [reflexivity|].
  intros d Hin. rewrite Forall_forall in Hw. now rewrite weekday_not_letter by auto.
Qed.

Section ResponseFacts.

Variables py_repr json_dumps : json -> string.
Variable rejects : Store -> CalendarEvent -> bool.
Variable fs : FileSystem.

Lemma term_events_empty (course_codes : list string) (term : string) :
  ScheduleGeneratorService._convert_sections_to_events py_repr
    (auto_select_sections
       (find_sections_for_courses py_repr json_dumps fs course_codes term)) term = [].
Proof.
  unfold ScheduleGeneratorService._convert_sections_to_events.
  apply flat_map_nil. intros [c [s|]] Hin; [|reflexivity]. cbn [fst snd].
  destruct (selected_loaded py_repr json_dumps fs _ _ _ _ Hin)
    as (_ & key & _ & _ & (ds & Hd & Hw) & _).
  now apply (events_of_weekdays py_repr c s ds).
Qed.

Lemma run_terms_no_events (user : User) (pname : string)
      (plans : list ScheduleGeneratorService.TermPlan) :
  forall acc db acc',
    ScheduleGeneratorService.all_events acc = [] ->
    fst (ScheduleGeneratorService.run_terms py_repr json_dumps rejects fs
           user pname plans acc db) = Ok acc' ->
    ScheduleGeneratorService.all_events acc' = [].
Proof.
  induction plans as [|plan rest IH]; intros acc db acc' H0; cbn [ScheduleGeneratorService.run_terms].
  - cbn. intros H. now injection H as <-.
  - assert (forall acc1 db1,
               ScheduleGeneratorService.all_events acc1 = [] ->
               fst (ScheduleGeneratorService.run_terms py_repr json_dumps rejects fs
                      user pname rest acc1 db1) = Ok acc' ->
               ScheduleGeneratorService.all_events acc' = []) as IH'
        by (intros; eapply IH; eauto).
    destruct (ScheduleGeneratorService.required_courses plan) as [|r0 rs] eqn:Er;
      [destruct (ScheduleGeneratorService.electives_info plan) as [|e0 es] eqn:Ee;
       [now apply IH'|]|].
    all: match goal with
         | |- context [add_sections_to_calendar ?p ?rj ?u ?sel ?t ?y ?d] =>
             destruct (add_sections_to_calendar p rj u sel t y d) as [[n db']|]
         end; [|discriminate].
    all: apply IH'; cbn [ScheduleGeneratorService.all_events]; rewrite H0;
      cbn [app]; apply term_events_empty.
Qed.

End ResponseFacts.

Lemma reported_keys {V : Type} (sel : list (string * option V)) (c : string) :
  In c (flat_map (fun cs => match snd cs with Some _ => [fst cs] | None => [] end) sel
        ++ flat_map (fun cs => match snd cs with Some _ => [] | None => [fst cs] end) sel)
  <-> In c (Dict.keys sel).
Proof.
  induction sel as [|[k [v|]] r IH]; cbn; [tauto| |].
  - rewrite <- IH, !in_app_iff. tauto.
  - rewrite <- IH, !in_app_iff. cbn. tauto.
Qed.

Section ReportFacts.

Variables py_repr json_dumps : json -> string.
Variable rejects : Store -> CalendarEvent -> bool.
Variable fs : FileSystem.

Lemma selection_keys (course_codes : list string) (term : string) (c : string) :
  In c (Dict.keys (auto_select_sections
                     (find_sections_for_courses py_repr json_dumps fs course_codes term)))
  <-> In c course_codes.
Proof.
  pose proof (find_nodup py_repr json_dumps fs course_codes term) as Hnd.
  destruct (auto_select_keys _ Hnd) as (-> & _).
  split.
  - intros H. eapply Permutation_in in H; [|symmetry; apply courses_by_options_keys].
    apply fold_set_keys in H. destruct H as [H|[]]. exact H.
  - intros H. eapply Permutation_in; [apply courses_by_options_keys|].
    apply fold_set_keys. now left.
Qed.

Lemma term_selection_nothing (plan : ScheduleGeneratorService.TermPlan) :
  ScheduleGeneratorService.required_courses plan = [] -> term_selection py_repr json_dumps fs plan = [].
Proof. unfold term_selection. now intros ->. Qed.

Lemma run_terms_totals (user : User) (pname : string)
      (plans : list ScheduleGeneratorService.TermPlan) :
  forall acc db,
  exists acc' db',
    ScheduleGeneratorService.run_terms py_repr json_dumps rejects fs
      user pname plans acc db = (Ok acc', db')
    /\ ScheduleGeneratorService.all_successful acc'
       = ScheduleGeneratorService.all_successful acc ++ flat_map (matched_of py_repr json_dumps fs) plans
    /\ ScheduleGeneratorService.all_failed acc'
       = ScheduleGeneratorService.all_failed acc ++ flat_map (unmatched_of py_repr json_dumps fs) plans
    /\ ScheduleGeneratorService.all_electives acc'
       = ScheduleGeneratorService.all_electives acc
         ++ flat_map ScheduleGeneratorService.electives_info plans.
Proof.
  induction plans as [|plan rest IH]; intros acc db.
  - exists acc, db. cbn. now rewrite !app_nil_r.
  - cbn [ScheduleGeneratorService.run_terms flat_map].
    fold (term_selection py_repr json_dumps fs plan).
    destruct (add_sections_total py_repr rejects user (term_selection py_repr json_dumps fs plan)
                (ScheduleGeneratorService.plan_term plan) 2025 db) as (added & Ea); [lia|].
    rewrite Ea.
    match goal with |- context [ScheduleGeneratorService.run_terms _ _ _ _ _ _ rest
                                  (ScheduleGeneratorService.mkTotals ?e ?s ?f ?l ?t) ?d] =>
      destruct (IH (ScheduleGeneratorService.mkTotals e s f l t) d)
        as (acc1 & db1 & E1 & Hs1 & Hf1 & He1)
    end.
    cbn [ScheduleGeneratorService.all_successful ScheduleGeneratorService.all_failed
         ScheduleGeneratorService.all_electives] in Hs1, Hf1, He1.
    fold (matched_of py_repr json_dumps fs plan) in Hs1.
    fold (unmatched_of py_repr json_dumps fs plan) in Hf1.
    rewrite <- app_assoc in Hs1, Hf1, He1.
    destruct (ScheduleGeneratorService.required_courses plan) as [|r0 rs] eqn:Er;
      [destruct (ScheduleGeneratorService.electives_info plan) as [|e0 es] eqn:Ee|].
    + destruct (IH acc db) as (acc0 & db0 & E0 & Hs0 & Hf0 & He0).
      exists acc0, db0. split; [exact E0|].
      unfold matched_of, unmatched_of.
      rewrite (term_selection_nothing plan Er). cbn [flat_map app].
      auto.
    + exists acc1, db1. auto.
    + exists acc1, db1. auto.
Qed.

End ReportFacts.

Lemma filter_filter_weaker {A : Type} (p q : A -> bool) (l : list A) :
  (forall x, q x = true -> p x = true) -> filter q (filter p l) = filter q l.
Proof.
  intros H. induction l as [|x r IH]; cbn; [reflexivity|].
  destruct (p x) eqn:Ep; cbn.
  - now rewrite IH.
  - destruct (q x) eqn:Eq; [|exact IH]. apply H in Eq. congruence.
Qed.




Lemma other_not_in_term (user : User) (ts te : Date) (ev : CalendarEvent) :
  of_other user ev = true -> negb (in_term user ts te ev) = true.
Proof.
  unfold of_other, in_term. intros H. apply negb_true_iff in H. now rewrite H.
Qed.

Lemma clear_keeps_other_users (user : User) (term : string) (year : Z) (db : Store) :
  filter (of_other user) (snd (clear_user_schedule user term year db))
  = filter (of_other user) db.
Proof.
  unfold clear_user_schedule.
  destruct (_get_term_dates term year) as [[ts te]|]; cbn [bind catch fst snd];
    [|reflexivity].
  apply filter_filter_weaker. intros ev. apply other_not_in_term.
Qed.

Section SessionFacts.

Variable py_repr : json -> string.
Variable rejects : Store -> CalendarEvent -> bool.
Variable user : User.
Variables term_start term_end : Date.

Lemma rows_for_nil : rows_for rejects user [] [].
Proof. repeat split; [constructor | constructor]. Qed.

Lemma rows_for_none (ds : list string) :
  (exists d ev, rejects d ev = true) -> rows_for rejects user ds [].
Proof.
  intros (d & ev & H). repeat split; [cbn; lia | constructor|].
  intros Hall. rewrite Hall in H. discriminate.
Qed.

Lemma rows_for_app (d1 d2 : list string) (a1 a2 : Store) :
  rows_for rejects user d1 a1 -> rows_for rejects user d2 a2 -> rows_for rejects user (d1 ++ d2) (a1 ++ a2).
Proof.
  intros (L1 & F1 & E1) (L2 & F2 & E2). repeat split.
  - rewrite !length_app. lia.
  - apply Forall_app. split; eapply Forall_impl; try eassumption;
      intros ev [Hu Hin]; (split; [exact Hu|]); apply in_or_app; auto.
  - intros H. rewrite map_app. now rewrite E1, E2.
Qed.

Lemma create_days_rows (event_on : string -> CalendarEvent) (days : list string) :
  (forall day, ev_user (event_on day) = user /\ day_of_week (event_on day) = day) ->
  forall events_added db,
  exists added,
    create_days rejects event_on days events_added db
    = (events_added + Z.of_nat (List.length added), db ++ added)
    /\ rows_for rejects user days added.
Proof.
  intros Hev. induction days as [|day rest IH]; intros n db; cbn [create_days].
  - exists []. rewrite Z.add_0_r, app_nil_r. split; [reflexivity | apply rows_for_nil].
  - unfold create. destruct (rejects db (event_on day)) eqn:Er.
    + exists []. rewrite Z.add_0_r, app_nil_r. split; [reflexivity|].
      apply rows_for_none. eauto.
    + destruct (IH (n + 1) (db ++ [event_on day])) as (added & E & R).
      exists (event_on day :: added). rewrite E. split.
      * rewrite <- app_assoc. cbn [app List.length]. f_equal. lia.
      * apply (rows_for_app [day] rest [event_on day] added); [|exact R].
        destruct (Hev day) as [Hu Hd].
        repeat split; [cbn; lia | constructor; [|constructor] | cbn; now rewrite Hd].
        split; [exact Hu | rewrite Hd; now left].
Qed.

Lemma add_section_events_rows (entry : string * option SectionInfo) :
  forall events_added db,
  exists added,
    add_section_events py_repr rejects user term_start term_end (events_added, db) entry
    = (events_added + Z.of_nat (List.length added), db ++ added)
    /\ rows_for rejects user (sessions [entry]) added.
Proof.
  intros n db. destruct entry as [course_code [sec|]];
    unfold sessions; cbn [committed flat_map snd app add_section_events].
  - rewrite app_nil_r.
    destruct (_parse_time_string (time sec)) as [[st et]|].
    + destruct (_parse_days_string (days sec)) as [|d0 ds] eqn:Ed.
      * exists []. rewrite Z.add_0_r, app_nil_r. split; [reflexivity | apply rows_for_nil].
      * apply create_days_rows. intros day. cbn. auto.
    + exists []. rewrite Z.add_0_r, app_nil_r. split; [reflexivity | apply rows_for_nil].
  - exists []. rewrite Z.add_0_r, app_nil_r. split; [reflexivity | apply rows_for_nil].
Qed.

Lemma sessions_cons (entry : string * option SectionInfo)
      (rest : list (string * option SectionInfo)) :
  sessions (entry :: rest) = sessions [entry] ++ sessions rest.
Proof.
  unfold sessions. change (entry :: rest) with ([entry] ++ rest).
  now rewrite committed_app, flat_map_app.
Qed.

Lemma fold_events_rows (selected : list (string * option SectionInfo)) :
  forall events_added db,
  exists added,
    fold_left (add_section_events py_repr rejects user term_start term_end)
              selected (events_added, db)
    = (events_added + Z.of_nat (List.length added), db ++ added)
    /\ rows_for rejects user (sessions selected) added.
Proof.
  induction selected as [|entry rest IH]; intros n db; cbn [fold_left].
  - exists []. rewrite Z.add_0_r, app_nil_r. split; [reflexivity | apply rows_for_nil].
  - destruct (add_section_events_rows entry n db) as (a1 & E1 & R1). rewrite E1.
    destruct (IH (n + Z.of_nat (List.length a1)) (db ++ a1)) as (a2 & E2 & R2).
    exists (a1 ++ a2). split.
    + etransitivity; [exact E2|].
      rewrite <- app_assoc, length_app, Nat2Z.inj_add. f_equal. lia.
    + rewrite sessions_cons. now apply rows_for_app.
Qed.

End SessionFacts.

Lemma clash_catalog_keys : NoDup (Dict.keys clash_catalog).
Proof.
  cbn. constructor; [intros [H|[]]; discriminate|].
  constructor; [intros [] | constructor].
Qed.

(** X5. The days that [_parse_days_string] returns are names of the week,
    whatever it is given; so are those of [_extract_days_from_schedule]. *)
Theorem parsed_days_are_weekdays (py_repr : json -> string) (days_input : DaysInput)
        (schedule_input : json) :
  Forall (fun d => In d weekdays) (_parse_days_string days_input)
  /\ Forall (fun d => In d weekdays) (_extract_days_from_schedule py_repr schedule_input).
Proof.
  split; apply Forall_forall; intros d.
  - apply parse_days_weekdays.
  - apply extract_days_weekdays.
Qed.

(** X6. What both loaders return: distinct keys, each a non-empty
    normalized code with at least one section; each section carries the
    key as its code, a list of names of the week as its days, one of the
    seven types, a label that is a string or a false value, the flag
    computed from its stored status, and no title. *)
Theorem loaders_build_loaded_maps (py_repr json_dumps : json -> string)
        (fs : FileSystem) (term : string) :
  loaded_map py_repr (_load_course_data py_repr json_dumps fs term)
  /\ loaded_map py_repr (_load_course_data_from_single_file py_repr json_dumps fs term).
Proof. split; [apply course_data_loaded | apply single_file_loaded]. Qed.

(** X7. The result of [find_sections_for_courses] has the requested
    codes as its keys, each once; a value is empty or the value of a key
    of the course data; a code that is a key of the course data gets the
    sections of that key, and so does a code whose normalized form is. *)
Theorem find_sections_lookup (py_repr json_dumps : json -> string)
        (fs : FileSystem) (course_codes : list string) (term : string) :
  let catalog := _load_course_data py_repr json_dumps fs term in
  let found := find_sections_for_courses py_repr json_dumps fs course_codes term in
  NoDup (Dict.keys found)
  /\ (forall c, In c (Dict.keys found) <-> In c course_codes)
  /\ (forall c sections, Dict.get c found = Some sections ->
        sections = [] \/ exists key, Dict.get key catalog = Some sections)
  /\ (forall c sections, In c course_codes -> Dict.get c catalog = Some sections ->
        Dict.get c found = Some sections)
  /\ (forall c sections, In c course_codes -> Dict.get c catalog = None ->
        Dict.get (_normalize_course_code c) catalog = Some sections ->
        Dict.get c found = Some sections).
Proof.
  intros catalog found.
  assert (forall c, In c course_codes ->
                    Dict.get c found = Some (sections_for catalog c)) as Hget.
  { intros c Hin. unfold found, find_sections_for_courses, find_in.
    rewrite fold_set_get. apply mem_In in Hin. now rewrite Hin. }
  split; [apply find_nodup|]. split; [|split; [|split]].
  - intros c. unfold found, find_sections_for_courses, find_in.
    rewrite fold_set_keys. cbn. tauto.
  - intros c sections H.
    destruct (find_entry_loaded py_repr json_dumps fs _ _ _ _ H)
      as (_ & _ & [H0|(key & Hk & _)]); [now left|].
    right. exists key. apply dict_In_get; [|exact Hk].
    apply (course_data_loaded py_repr json_dumps fs term).
  - intros c sections Hin Hc. rewrite (Hget c Hin). f_equal.
    now apply sections_for_hit.
  - intros c sections Hin H0 Hc. rewrite (Hget c Hin). f_equal.
    now apply sections_for_normalized.
Qed.

(** X8. The third name under which a course is searched, the code with
    a blank after its letters, is never a key of the loaded course data
    unless it is the requested code itself. *)
Theorem spaced_code_never_found (py_repr json_dumps : json -> string)
        (fs : FileSystem) (term : string) (course_code : string) :
  _add_space_to_course_code course_code = course_code
  \/ Dict.get (_add_space_to_course_code course_code)
              (_load_course_data py_repr json_dumps fs term) = None.
Proof.
  destruct (spaced_code_cases course_code) as [H|H]; [now left|]. right.
  destruct (Dict.get _ _) as [sections|] eqn:E; [|reflexivity].
  apply dict_get_In in E.
  destruct (course_data_loaded py_repr json_dumps fs term) as [_ Hm].
  destruct (Hm _ _ E) as (_ & Hn & _).
  pose proof (normalized_no_blank (_add_space_to_course_code course_code)) as Hb.
  rewrite Hn in Hb. congruence.
Qed.

(** X9. From the course data to the selection: the sections that simple
    mode books for the requested courses are free of conflict two by two,
    every requested course has an entry, and a booked section is one of
    the sections found for its course, in the form the loader gives. *)
Theorem found_selection_is_sound (py_repr json_dumps : json -> string)
        (fs : FileSystem) (course_codes : list string) (term : string) :
  let catalog := _load_course_data py_repr json_dumps fs term in
  let selected :=
    auto_select_sections
      (find_sections_for_courses py_repr json_dumps fs course_codes term) in
  conflict_free (committed selected)
  /\ NoDup (Dict.keys selected)
  /\ (forall c, In c (Dict.keys selected) <-> In c course_codes)
  /\ (forall c s, Dict.get c selected = Some (Some s) ->
        In s (sections_for catalog c)
        /\ exists key, Dict.get key catalog = Some (sections_for catalog c)
                       /\ loaded_section py_repr key s).
Proof.
  intros catalog selected.
  pose proof (find_nodup py_repr json_dumps fs course_codes term) as Hnd.
  split; [now apply auto_select_keys|].
  split; [now apply auto_select_nodup|].
  split; [apply selection_keys|].
  intros c s H. apply dict_get_In in H.
  now apply (selected_loaded py_repr json_dumps fs course_codes term).
Qed.

(** X10. The response of a generation never carries an event: the days of
    a loaded section are names of the week, and
    [_convert_sections_to_events] keeps the days that are one of the
    letters M, T, W, R, F and S. *)
Theorem response_carries_no_event (py_repr json_dumps : json -> string)
        (rejects : Store -> CalendarEvent -> bool) (fs : FileSystem)
        (user : User) (pname : string)
        (plans : list ScheduleGeneratorService.TermPlan) (db : Store) :
  ScheduleGeneratorService.events
    (fst (ScheduleGeneratorService.generate py_repr json_dumps rejects fs
            user pname plans db)) = [].
Proof.
  unfold ScheduleGeneratorService.generate.
  match goal with |- context [ScheduleGeneratorService.run_terms ?a ?b ?c ?d ?e ?f ?g ?h ?i] =>
    pose proof (run_terms_no_events a b c d e f g h i) as Hev;
    destruct (ScheduleGeneratorService.run_terms a b c d e f g h i) as [[acc|] db']
  end; [|reflexivity].
  specialize (Hev acc eq_refl eq_refl).
  destruct (ScheduleGeneratorService.all_events acc);
    destruct (ScheduleGeneratorService.all_successful acc);
    destruct (ScheduleGeneratorService.all_electives acc); try reflexivity; discriminate.
Qed.

Lemma nonempty_In {A : Type} (l : list A) : l <> [] <-> exists x, In x l.
Proof.
  destruct l as [|x r]; split.
  - intros H. now destruct H.
  - intros [x []].
  - intros _. exists x. now left.
  - discriminate.
Qed.

Section ResponseReport.

Variables py_repr json_dumps : json -> string.
Variable fs : FileSystem.

Lemma matched_of_In (plan : ScheduleGeneratorService.TermPlan) (c : string) :
  In c (matched_of py_repr json_dumps fs plan)
  <-> exists s, Dict.get c (term_selection py_repr json_dumps fs plan) = Some (Some s).
Proof.
  unfold matched_of. rewrite in_flat_map. split.
  - intros ([k [s|]] & Hin & Hc); cbn in Hc; [|destruct Hc].
    destruct Hc as [<-|[]]. exists s. apply dict_In_get; [|exact Hin].
    apply auto_select_nodup. apply find_nodup.
  - intros [s H]. apply dict_get_In in H. exists (c, Some s). split; [exact H | now left].
Qed.

Lemma reported_In (plan : ScheduleGeneratorService.TermPlan) (c : string) :
  In c (matched_of py_repr json_dumps fs plan)
  \/ In c (unmatched_of py_repr json_dumps fs plan)
  <-> In c (ScheduleGeneratorService.required_courses plan).
Proof.
  rewrite <- in_app_iff. unfold matched_of, unmatched_of.
  rewrite reported_keys. apply selection_keys.
Qed.

End ResponseReport.

(** X11. A generation answers with success exactly when some term books
    a section or has an elective; the answer then names every required
    course of the terms, as matched or as unmatched, and no other course. *)
Theorem response_reports_requested (py_repr json_dumps : json -> string)
        (rejects : Store -> CalendarEvent -> bool) (fs : FileSystem)
        (user : User) (pname : string)
        (plans : list ScheduleGeneratorService.TermPlan) (db : Store) :
  let response :=
    fst (ScheduleGeneratorService.generate py_repr json_dumps rejects fs
           user pname plans db) in
  (ScheduleGeneratorService.success response = true
   <-> (exists plan c s,
           In plan plans
           /\ Dict.get c (term_selection py_repr json_dumps fs plan) = Some (Some s))
       \/ (exists plan,
              In plan plans /\ ScheduleGeneratorService.electives_info plan <> []))
  /\ (ScheduleGeneratorService.success response = true ->
      forall c,
        In c (ScheduleGeneratorService.matched_courses response
              ++ ScheduleGeneratorService.unmatched_courses response)
        <-> exists plan, In plan plans
                         /\ In c (ScheduleGeneratorService.required_courses plan)).
Proof.
  intros response. subst response. unfold ScheduleGeneratorService.generate.
  match goal with |- context [ScheduleGeneratorService.run_terms ?a ?b ?c ?d ?e ?f ?g ?h ?i] =>
    pose proof (run_terms_no_events a b c d e f g h i) as Hev;
    destruct (run_terms_totals a b c d e f g h i) as (acc & db' & E & Hs & Hf & He)
  end.
  rewrite E in *. specialize (Hev acc eq_refl eq_refl). rewrite Hev.
  cbn [ScheduleGeneratorService.all_successful ScheduleGeneratorService.all_failed
       ScheduleGeneratorService.all_electives app] in Hs, Hf, He.
  assert (flat_map (matched_of py_repr json_dumps fs) plans <> []
          <-> exists plan c s,
                In plan plans
                /\ Dict.get c (term_selection py_repr json_dumps fs plan) = Some (Some s))
    as Hm.
  { rewrite nonempty_In. split.
    - intros (c & Hc). apply in_flat_map in Hc. destruct Hc as (plan & Hp & Hc).
      apply matched_of_In in Hc. destruct Hc as [s Hc]. now exists plan, c, s.
    - intros (plan & c & s & Hp & Hc). exists c. apply in_flat_map.
      exists plan. split; [exact Hp|]. apply matched_of_In. now exists s. }
  assert (flat_map ScheduleGeneratorService.electives_info plans <> []
          <-> exists plan,
                In plan plans /\ ScheduleGeneratorService.electives_info plan <> []) as Hel.
  { rewrite nonempty_In. split.
    - intros (e & Hin). apply in_flat_map in Hin. destruct Hin as (plan & Hp & Hin).
      exists plan. split; [exact Hp|]. intros H0. rewrite H0 in Hin. destruct Hin.
    - intros (plan & Hp & Hne). apply nonempty_In in Hne. destruct Hne as [e Hin].
      exists e. apply in_flat_map. now exists plan. }
  rewrite <- Hm, <- Hel, <- Hs, <- He.
  assert (forall c,
            In c (ScheduleGeneratorService.all_successful acc
                  ++ ScheduleGeneratorService.all_failed acc)
            <-> exists plan, In plan plans
                             /\ In c (ScheduleGeneratorService.required_courses plan)) as Hrep.
  { intros c. rewrite Hs, Hf, in_app_iff, !in_flat_map. split.
    - intros [(plan & Hp & H)|(plan & Hp & H)]; exists plan; (split; [exact Hp|]);
        apply (reported_In py_repr json_dumps fs); auto.
    - intros (plan & Hp & H). apply (reported_In py_repr json_dumps fs) in H.
      destruct H; [left | right]; now exists plan. }
  destruct (ScheduleGeneratorService.all_successful acc) as [|m0 ms];
    destruct (ScheduleGeneratorService.all_electives acc) as [|e0 es];
    cbn [fst ScheduleGeneratorService.success ScheduleGeneratorService.matched_courses
         ScheduleGeneratorService.unmatched_courses].
  - split; [|discriminate]. split; [discriminate|]. intros [H|H]; now destruct H.
  - split; [|intros _; exact Hrep]. split; [|reflexivity]. intros _. right. discriminate.
  - split; [|intros _; exact Hrep]. split; [|reflexivity]. intros _. left. discriminate.
  - split; [|intros _; exact Hrep]. split; [|reflexivity]. intros _. left. discriminate.
Qed.

(** X12. [add_sections_to_calendar] only appends: the rows that were in
    the store stay in place, the count it returns is the number of rows it
    adds, each row is a row of the user for a weekly session of a chosen
    section, there are at most as many rows as sessions, and one for each
    session when the store refuses no row. *)
Theorem calendar_rows_per_session (py_repr : json -> string)
        (rejects : Store -> CalendarEvent -> bool) (user : User)
        (selected : list (string * option SectionInfo)) (term : string) (year : Z)
        (db : Store) :
  1 <= year <= 9998 ->
  exists added,
    add_sections_to_calendar py_repr rejects user selected term year db
    = Ok (Z.of_nat (List.length added), db ++ added)
    /\ rows_for rejects user (sessions selected) added.
Proof.
  intros Hy. destruct (term_dates_ok term year Hy) as (ts & te & Hd).
  destruct (fold_events_rows py_repr rejects user ts te selected 0 db) as (added & E & R).
  exists added. unfold add_sections_to_calendar. rewrite Hd. cbn [bind].
  split; [|exact R]. f_equal. exact E.
Qed.

Lemma calendar_rows_per_session_witness :
  exists added,
    add_sections_to_calendar no_repr accepts_all "alice" fall_selection "Fall" 2025 []
    = Ok (Z.of_nat (List.length added), [] ++ added)
    /\ rows_for accepts_all "alice" (sessions fall_selection) added.
Proof.
  apply (calendar_rows_per_session no_repr accepts_all "alice" fall_selection
                                   "Fall" 2025 []).
  lia.
Defined.

(** X13. The materializer leaves the rows of the other users as they
    are, and its count is at most the number of weekly sessions of the
    selection. *)
Theorem materialize_keeps_other_users (py_repr : json -> string)
        (rejects : Store -> CalendarEvent -> bool) (user : User)
        (selected : list (string * option SectionInfo)) (term : string) (year : Z)
        (db : Store) :
  1 <= year <= 9998 ->
  exists n db',
    materialize py_repr rejects user selected term year db = Ok (n, db')
    /\ filter (of_other user) db' = filter (of_other user) db
    /\ 0 <= n <= Z.of_nat (List.length (sessions selected)).
Proof.
  intros Hy. unfold materialize.
  pose proof (clear_keeps_other_users user term year db) as Hother.
  destruct (clear_user_schedule user term year db) as [removed kept].
  cbn [snd] in Hother.
  destruct (term_dates_ok term year Hy) as (ts & te & Hd).
  destruct (fold_events_rows py_repr rejects user ts te selected 0 kept)
    as (added & E & (Hlen & Hrows & _)).
  exists (Z.of_nat (List.length added)), (kept ++ added). split; [|split].
  - unfold add_sections_to_calendar. rewrite Hd. cbn [bind]. f_equal. exact E.
  - rewrite filter_app, Hother.
    assert (filter (of_other user) added = []) as ->; [|apply app_nil_r].
    clear E Hlen. induction Hrows as [|ev r [Hu _] _ IH]; cbn; [reflexivity|].
    unfold of_other at 1. now rewrite Hu, String.eqb_refl.
  - lia.
Qed.

Lemma materialize_keeps_other_users_witness :
  exists n db',
    materialize no_repr accepts_all "alice" fall_selection "Fall" 2025 [] = Ok (n, db')
    /\ filter (of_other "alice") db' = filter (of_other "alice") []
    /\ 0 <= n <= Z.of_nat (List.length (sessions fall_selection)).
Proof.
  apply (materialize_keeps_other_users no_repr accepts_all "alice" fall_selection
                                       "Fall" 2025 []).
  lia.
Defined.


(** ** Shuffling *)




(** ** Grouping *)







(** ** The grouped selector *)











(** ** Live sections *)

Lemma for_each_total {A B : Type} (step : B -> A -> Exc B) (xs : list A) :
  (forall x, In x xs -> forall acc, exists acc', step acc x = Ok acc') ->
  forall acc, exists r, for_each step xs acc = Ok r.
Proof.
  induction xs as [|x rest IH]; intros Hstep acc; cbn; [eauto|].
  destruct (Hstep x (or_introl eq_refl) acc) as [acc' ->]. cbn [bind].
  apply IH. intros y Hy. apply Hstep. now right.
Qed.

Lemma label_has_group (section_code : json) :
  Json.truthy section_code = false \/ (exists label, section_code = JStr label) ->
  exists gid, Views.section_group_of section_code = Ok gid.
Proof.
  intros [H|[label ->]].
  - unfold Views.section_group_of. rewrite H.
    destruct section_code as [| | |[|c r]| |]; eauto; discriminate.
  - destruct label as [|c r]; cbn; eauto.
Qed.

(** X16. The sections that [get_live_sections] hands to the selector are
    loaded sections with their course title as title: a code that is not
    empty, names of the week as days, one of the seven types; and the
    grouping of the selector raises on none of them. *)
Theorem live_sections_are_grouped (py_repr json_dumps : json -> string)
        (fs : FileSystem) (course_codes : list string) (term : string) :
  let live := Views.get_live_sections py_repr json_dumps fs course_codes term in
  (exists courses, for_each Views.file_section live [] = Ok courses)
  /\ Forall (fun s => code s <> ""
                      /\ (exists ds, days s = DaysList ds
                                     /\ Forall (fun d => In d weekdays) ds)
                      /\ In (type s) section_types
                      /\ title s = Some (courseTitle s)) live.
Proof.
  intros live.
  assert (forall s, In s live ->
            exists key loaded,
              loaded_section py_repr key loaded /\ key <> ""
              /\ code s = code loaded /\ section s = section loaded
              /\ days s = days loaded /\ type s = type loaded
              /\ title s = Some (courseTitle s)) as Hlive.
  { intros s Hs. unfold live, Views.get_live_sections in Hs.
    apply in_flat_map in Hs. destruct Hs as ([c sections] & Hin & Hs).
    cbn [snd] in Hs. apply in_map_iff in Hs. destruct Hs as (loaded & <- & Hl).
    apply dict_In_get in Hin; [|apply find_nodup].
    destruct (find_entry_loaded py_repr json_dumps fs _ _ _ _ Hin)
      as (_ & _ & [H0|(key & Hk & Hall)]); [rewrite H0 in Hl; destruct Hl|].
    rewrite Forall_forall in Hall.
    destruct (course_data_loaded py_repr json_dumps fs term) as [_ Hm].
    destruct (Hm _ _ Hk) as (Hne & _).
    exists key, loaded. cbn. auto 10. }
  split.
  - apply for_each_total. intros s Hs acc.
    destruct (Hlive s Hs) as (key & loaded & (_ & _ & _ & Hlabel & _) & _ & _ & Hsec & _).
    rewrite <- Hsec in Hlabel. destruct (label_has_group _ Hlabel) as [gid Hg].
    unfold Views.file_section. rewrite Hg. cbn [bind]. eauto.
  - apply Forall_forall. intros s Hs.
    destruct (Hlive s Hs)
      as (key & loaded & (Hc & Hd & Ht & _) & Hne & Hcode & _ & Hdays & Htype & Htitle).
    rewrite Hcode, Hdays, Htype, Hc. auto.
Qed.

(** ** The fuzzy matcher *)

Lemma subject_to_codes_from (subject : string) (available_codes : list string) :
  subject <> "" ->
  forall acc,
    Dict.get subject
      (fold_left
         (fun subject_to_codes avail =>
            let '(subj, num) := extract_subject_and_number avail in
            if String.eqb subj "" then subject_to_codes
            else Dict.append_to subj (avail, num) subject_to_codes)
         available_codes acc)
    = match Dict.get subject acc, codes_of_subject subject available_codes with
      | None, [] => None
      | None, more => Some more
      | Some l, more => Some (l ++ more)
      end.
Proof.
  intros Hne. induction available_codes as [|avail rest IH]; intros acc.
  - cbn. destruct (Dict.get subject acc); [now rewrite app_nil_r | reflexivity].
  - cbn [fold_left codes_of_subject flat_map]. rewrite IH. clear IH.
    fold (codes_of_subject subject rest).
    destruct (extract_subject_and_number avail) as [subj num]. cbn [fst snd].
    destruct (String.eqb subj "") eqn:E0.
    + apply String.eqb_eq in E0. subst subj.
      assert (String.eqb "" subject = false) as -> by (apply String.eqb_neq; congruence).
      reflexivity.
    + destruct (String.eqb subj subject) eqn:Es.
      * apply String.eqb_eq in Es. subst subj. unfold Dict.append_to.
        destruct (Dict.get subject acc) as [l|]; rewrite dict_get_set_same; cbn [app].
        -- now rewrite <- app_assoc.
        -- reflexivity.
      * apply String.eqb_neq in Es. unfold Dict.append_to.
        destruct (Dict.get subj acc) as [l|]; rewrite dict_get_set_other by congruence;
          reflexivity.
Qed.

Lemma subject_to_codes_get (subject : string) (available_codes : list string) :
  subject <> "" ->
  Dict.get subject (subject_to_codes_of available_codes)
  = match codes_of_subject subject available_codes with
    | [] => None
    | more => Some more
    end.
Proof.
  intros Hne. unfold subject_to_codes_of. now rewrite subject_to_codes_from.
Qed.

Lemma codes_of_subject_In (subject : string) (available_codes : list string)
      (k : string) (nk : option Z) :
  In (k, nk) (codes_of_subject subject available_codes)
  <-> In k available_codes /\ extract_subject_and_number k = (subject, nk).
Proof.
  unfold codes_of_subject. rewrite in_flat_map. split.
  - intros (avail & Hin & H).
    destruct (String.eqb (fst (extract_subject_and_number avail)) subject) eqn:E;
      [|destruct H].
    destruct H as [H|[]]. injection H as <- <-. split; [exact Hin|].
    apply String.eqb_eq in E. rewrite <- E. now destruct (extract_subject_and_number avail).
  - intros [Hin He]. exists k. split; [exact Hin|]. rewrite He. cbn [fst snd].
    rewrite String.eqb_refl. now left.
Qed.

Lemma subject_of_empty : extract_subject_and_number "" = ("", None).
Proof. reflexivity. Qed.

Lemma score_of_distance (normalized_code : string) (target_number : option Z)
      (cand : string * option Z) :
  fst (score_of normalized_code target_number cand)
  = number_distance target_number (snd cand)
  /\ 0 <= snd (score_of normalized_code target_number cand) <= 1.
Proof.
  destruct cand as [cand_code cand_num]. unfold score_of, number_distance.
  destruct target_number, cand_num; cbn [fst snd];
    (split; [reflexivity|]); destruct (String.eqb cand_code normalized_code); lia.
Qed.

(** X17. When the course data has a code of the subject of the requested
    code, at a distance below [10 ^ 9], the fuzzy matcher answers with a
    code of the data, of the same subject, whose number is as near to the
    requested one as that of any code of the subject. *)
Theorem fuzzy_code_nearest (course_sections : list (string * list SectionInfo))
        (course_code subject : string) (target_number : option Z)
        (known : string) (known_number : option Z) :
  extract_subject_and_number course_code = (subject, target_number) ->
  subject <> "" ->
  In known (Dict.keys course_sections) ->
  extract_subject_and_number known = (subject, known_number) ->
  number_distance target_number known_number < 10 ^ 9 ->
  exists best best_number,
    fuzzy_code course_sections course_code = Some best
    /\ In best (Dict.keys course_sections)
    /\ extract_subject_and_number best = (subject, best_number)
    /\ forall other other_number,
         In other (Dict.keys course_sections) ->
         extract_subject_and_number other = (subject, other_number) ->
         number_distance target_number best_number
         <= number_distance target_number other_number.
Proof.
  intros Ht Hne Hk Hke Hnear.
  set (normalized_code := _normalize_course_code course_code).
  assert (In (known, known_number)
             (codes_of_subject subject (Dict.keys course_sections))) as Hcand
      by now apply codes_of_subject_In.
  destruct (best_of_minimal normalized_code target_number _ _ Hcand)
    as ([best best_number] & Hb & Hbest & Hmin).
  { apply pair_lt_spec. left.
    destruct (score_of_distance normalized_code target_number (known, known_number))
      as [-> _]. cbn [fst snd]. exact Hnear. }
  apply codes_of_subject_In in Hb. destruct Hb as [Hbk Hbe].
  exists best, best_number. split; [|split; [exact Hbk|split; [exact Hbe|]]].
  - unfold fuzzy_code. rewrite Ht.
    apply String.eqb_neq in Hne. rewrite Hne. apply String.eqb_neq in Hne.
    rewrite (subject_to_codes_get subject _ Hne).
    destruct (codes_of_subject subject (Dict.keys course_sections)) as [|c0 cr] eqn:Ec;
      [destruct Hcand|].
    fold normalized_code. rewrite Hbest. cbn [fst some_code].
    assert (String.eqb best "" = false) as ->; [|reflexivity].
    apply String.eqb_neq. intros ->. rewrite subject_of_empty in Hbe. congruence.
  - intros other other_number Ho Hoe.
    assert (In (other, other_number)
               (codes_of_subject subject (Dict.keys course_sections))) as Hin
        by now apply codes_of_subject_In.
    specialize (Hmin _ Hin). apply pair_lt_false in Hmin.
    destruct (score_of_distance normalized_code target_number (other, other_number))
      as [Ho1 _].
    destruct (score_of_distance normalized_code target_number (best, best_number))
      as [Hb1 _].
    cbn [snd] in Ho1, Hb1. lia.
Qed.

Lemma fuzzy_code_nearest_witness :
  exists best best_number,
    fuzzy_code catalog_2110_first "CSI2115" = Some best
    /\ In best (Dict.keys catalog_2110_first)
    /\ extract_subject_and_number best = ("CSI", best_number)
    /\ forall other other_number,
         In other (Dict.keys catalog_2110_first) ->
         extract_subject_and_number other = ("CSI", other_number) ->
         number_distance (Some 2115) best_number
         <= number_distance (Some 2115) other_number.
Proof.
  apply (fuzzy_code_nearest catalog_2110_first "CSI2115" "CSI" (Some 2115)
                            "CSI2120" (Some 2120)).
  - reflexivity.
  - discriminate.
  - cbn. tauto.
  - reflexivity.
  - reflexivity.
Defined.

(** ** The term of a message *)

Lemma lower_upper_char (c : ascii) :
  PyStr.lower_char (PyStr.upper_char c) = PyStr.lower_char c.
Proof. destruct c as [[] [] [] [] [] [] [] []]; vm_compute; reflexivity. Qed.

Lemma lower_upper (s : string) : PyStr.lower (PyStr.upper s) = PyStr.lower s.
Proof.
  induction s as [|c r IH]; cbn; [reflexivity|].
  rewrite lower_upper_char. f_equal. exact IH.
Qed.

Lemma prefix_append (sub s : string) :
  String.prefix sub s = true <-> exists b, s = String.append sub b.
Proof.
  revert s. induction sub as [|c r IH]; intros s; cbn.
  - split; [intros _; now exists s | intros _; now destruct s].
  - destruct s as [|d t]; [split; [discriminate | intros [b H]; discriminate]|].
    cbn [String.prefix]. destruct (Ascii.ascii_dec c d) as [Heq|Hne].
    + subst d. rewrite IH.
      split; intros [b H]; exists b; [now rewrite H | now injection H].
    + split; [discriminate|]. intros [b H]. injection H as H _. congruence.
Qed.

Lemma contains_append (sub s : string) :
  PyStr.contains sub s = true
  <-> exists a b, s = String.append a (String.append sub b).
Proof.
  induction s as [|d t IH]; cbn [PyStr.contains]; rewrite orb_true_iff, prefix_append.
  - split.
    + intros [[b H]|H]; [|discriminate]. now exists "", b.
    + intros (a & b & H). left. destruct a; [now exists b | discriminate].
  - rewrite IH. split.
    + intros [[b H]|(a & b & H)]; [now exists "", b|].
      exists (String d a), b. cbn. now rewrite H.
    + intros (a & b & H). destruct a as [|e a]; [left; now exists b|].
      right. exists a, b. cbn in H. now injection H.
Qed.

(** X18. [_infer_term_from_message] reads the message in lower case, and
    answers Fall exactly when the lowered message holds one of "fall",
    "autumn", "september" and "sept" somewhere, be it inside a word and
    whatever else the message names. *)
Theorem infer_term_by_substring (message : string) :
  ScheduleGeneratorService._infer_term_from_message (PyStr.upper message)
  = ScheduleGeneratorService._infer_term_from_message message
  /\ (ScheduleGeneratorService._infer_term_from_message message = Some "Fall"
      <-> exists a word b,
            In word ["fall"; "autumn"; "september"; "sept"]
            /\ PyStr.lower message = String.append a (String.append word b)).
Proof.
  split.
  - unfold ScheduleGeneratorService._infer_term_from_message. now rewrite lower_upper.
  - unfold ScheduleGeneratorService._infer_term_from_message.
    set (words := ["fall"; "autumn"; "september"; "sept"]).
    assert (ScheduleGeneratorService.any_word words (PyStr.lower message) = true
            <-> exists a word b,
                  In word words
                  /\ PyStr.lower message = String.append a (String.append word b)) as H.
    { unfold ScheduleGeneratorService.any_word. rewrite existsb_exists. split.
      - intros (word & Hin & Hc). apply contains_append in Hc.
        destruct Hc as (a & b & Hc). now exists a, word, b.
      - intros (a & word & b & Hin & Hc). exists word. split; [exact Hin|].
        apply contains_append. now exists a, b. }
    rewrite <- H. destruct (ScheduleGeneratorService.any_word words (PyStr.lower message)).
    + tauto.
    + split; [|discriminate].
      repeat match goal with |- context [if ?c then _ else _] => destruct c end;
        discriminate.
Qed.

(** X19. The detector answers for a schedule as for its sections one by
    one: a section conflicts with two schedules put together when it
    conflicts with one of them, in whatever order they are put. *)
Theorem detector_reads_sections_one_by_one (s : SectionInfo)
        (schedule more : list SectionInfo) :
  _section_conflicts_with_schedule s (schedule ++ more)
  = _section_conflicts_with_schedule s schedule || _section_conflicts_with_schedule s more
  /\ _section_conflicts_with_schedule s (more ++ schedule)
     = _section_conflicts_with_schedule s (schedule ++ more)
  /\ _section_conflicts_with_schedule s (rev schedule)
     = _section_conflicts_with_schedule s schedule.
Proof.
  rewrite !conflicts_with_schedule_existsb, !existsb_app. repeat split.
  - apply orb_comm.
  - induction schedule as [|y r IH]; [reflexivity|].
    cbn [rev existsb]. rewrite existsb_app, IH. cbn [existsb].
    rewrite orb_false_r. apply orb_comm.
Qed.

Lemma simple_mode_no_double_booking_witness :
  conflict_free (committed (auto_select_sections clash_catalog)).
Proof. apply simple_mode_no_double_booking. exact clash_catalog_keys. Defined.

Lemma auto_select_picks_candidates_witness :
  NoDup (Dict.keys (auto_select_sections clash_catalog)).
Proof.
  exact (proj1 (proj2 (auto_select_picks_candidates clash_catalog clash_catalog_keys))).
Defined.

Lemma auto_select_none_means_blocked_witness :
  exists y, In y (committed (auto_select_sections clash_catalog))
            /\ conflicts mat1341_section y = true.
Proof.
  apply (auto_select_none_means_blocked clash_catalog clash_catalog_keys
           "MAT1341" [mat1341_section] mat1341_section).
  - reflexivity.
  - vm_compute. reflexivity.
  - now left.
Defined.

(** ** The selector with preferences *)

Section PreferenceFacts.

Variable Score : Type.
Variable score_leb : Score -> Score -> bool.
Variable Random : Type.
Variable score_fn :
  SectionInfo -> TimeConstraints -> InstructorPreferences -> Random -> Score * Random.

Variable avoid_sections : list string.
Variable tc : TimeConstraints.
Variable ip : InstructorPreferences.

Lemma scored_sections_pass (existing : list SectionInfo) (sections : list SectionInfo) :
  forall g scored g',
    scored_sections Score Random score_fn sections existing avoid_sections tc ip g
    = (Ok scored, g') ->
    Forall (fun p => In (snd p) sections
                     /\ allowed avoid_sections tc ip (snd p)
                     /\ _section_conflicts_with_schedule (snd p) existing = false)
           scored.
Proof.
  induction sections as [|sec rest IH]; intros g scored g'; cbn [scored_sections]; cbn zeta.
  - intros H. injection H as <- _. constructor.
  - destruct (stripped (instructor sec)) as [name|] eqn:En; [|discriminate].
    destruct (label_avoided avoid_sections (section sec)) as [avoided|] eqn:El;
      [|discriminate].
    assert (forall scored0 g0,
               scored_sections Score Random score_fn rest existing avoid_sections tc ip g0
               = (Ok scored0, g') ->
               Forall (fun p => In (snd p) (sec :: rest)
                                /\ allowed avoid_sections tc ip (snd p)
                                /\ _section_conflicts_with_schedule (snd p) existing = false)
                      scored0) as IH'.
    { intros scored0 g0 H. eapply Forall_impl; [|exact (IH _ _ _ H)].
      intros p (Hin & Hp). split; [now right | exact Hp]. }
    match goal with |- context [if ?c then _ else _] => destruct c eqn:Ec end.
    + apply IH'.
    + destruct (score_fn sec tc ip g) as [score g1].
      destruct (scored_sections Score Random score_fn rest existing avoid_sections tc ip g1)
        as [[more|] g2] eqn:Er; [|discriminate].
      intros H. injection H as <- <-.
      apply orb_false_iff in Ec. destruct Ec as [Ec Ht].
      apply orb_false_iff in Ec. destruct Ec as [Ec Hi].
      apply orb_false_iff in Ec. destruct Ec as [Ea Hc]. subst avoided.
      apply negb_false_iff in Ht.
      constructor; [|eapply IH'; eassumption].
      cbn [snd]. split; [now left|]. split; [|exact Hc].
      split; [exact El|]. split; [now exists name | exact Ht].
Qed.

Lemma find_best_pass (sections existing : list SectionInfo) (course_code : string)
      (g g' : Random) (best : SectionInfo) :
  _find_best_section Score score_leb Random score_fn sections existing avoid_sections
                     tc ip course_code g = (Ok (Some best), g') ->
  In best sections
  /\ allowed avoid_sections tc ip best
  /\ _section_conflicts_with_schedule best existing = false.
Proof.
  unfold _find_best_section.
  destruct (scored_sections Score Random score_fn sections existing avoid_sections tc ip g)
    as [[scored|] g1] eqn:E; [|discriminate].
  apply scored_sections_pass in E.
  destruct (sorted_by _ scored) as [|[score s] more] eqn:Es; [discriminate|].
  intros H. injection H as <- _.
  rewrite Forall_forall in E. apply (E (score, s)).
  eapply Permutation_in; [symmetry; apply sorted_by_perm|].
  rewrite Es. now left.
Qed.

Lemma scored_sections_complete (existing : list SectionInfo) (sections : list SectionInfo) :
  forall g scored g',
    scored_sections Score Random score_fn sections existing avoid_sections tc ip g
    = (Ok scored, g') ->
    forall s, In s sections -> allowed avoid_sections tc ip s ->
              _section_conflicts_with_schedule s existing = false ->
              In s (map snd scored).
Proof.
  induction sections as [|sec rest IH]; intros g scored g'; cbn [scored_sections]; cbn zeta.
  - intros _ s [].
  - destruct (stripped (instructor sec)) as [name|] eqn:En; [|discriminate].
    destruct (label_avoided avoid_sections (section sec)) as [avoided|] eqn:El;
      [|discriminate].
    match goal with |- context [if ?c then _ else _] => destruct c eqn:Ec end.
    + intros H s [<-|Hin] Hok Hc; [|now apply (IH _ _ _ H)].
      destruct Hok as (Hl & (name' & Hn & Hi) & Ht).
      rewrite El in Hl. injection Hl as ->. rewrite En in Hn. injection Hn as <-.
      rewrite Hc, Hi, Ht in Ec. discriminate.
    + destruct (score_fn sec tc ip g) as [score g1].
      destruct (scored_sections Score Random score_fn rest existing avoid_sections tc ip g1)
        as [[more|] g2] eqn:Er; [|discriminate].
      intros H. injection H as <- <-.
      intros s [<-|Hin] Hok Hc; [now left|]. right. now apply (IH _ _ _ Er).
Qed.

Lemma find_best_none (sections existing : list SectionInfo) (course_code : string)
      (g g' : Random) :
  _find_best_section Score score_leb Random score_fn sections existing avoid_sections
                     tc ip course_code g = (Ok None, g') ->
  forall s, In s sections -> allowed avoid_sections tc ip s ->
            _section_conflicts_with_schedule s existing = true.
Proof.
  unfold _find_best_section.
  destruct (scored_sections Score Random score_fn sections existing avoid_sections tc ip g)
    as [[scored|] g1] eqn:E; [|discriminate].
  destruct (sorted_by _ scored) as [|[score best] more] eqn:Es; [|discriminate].
  intros _ s Hin Hok.
  destruct (_section_conflicts_with_schedule s existing) eqn:Ec; [reflexivity|].
  pose proof (scored_sections_complete _ _ _ _ _ E s Hin Hok Ec) as Hs.
  apply in_map_iff in Hs. destruct Hs as (p & _ & Hp).
  eapply Permutation_in in Hp; [|apply sorted_by_perm]. rewrite Es in Hp. destruct Hp.
Qed.

End PreferenceFacts.

Lemma no_conflict_snoc (l : list SectionInfo) (s : SectionInfo) :
  conflict_free l -> _section_conflicts_with_schedule s l = false ->
  conflict_free (l ++ [s]).
Proof.
  intros Hl Hs. apply pairs_snoc; [exact Hl|].
  rewrite conflicts_with_schedule_existsb in Hs.
  apply Forall_forall. intros y Hy.
  assert (conflicts s y = false) as Hsy.
  { destruct (conflicts s y) eqn:E; [|reflexivity].
    assert (existsb (conflicts s) l = true) as Hex by (apply existsb_exists; eauto).
    congruence. }
  split; [|exact Hsy].
  now rewrite conflicts_eq_cases, conflicts_cases_sym, <- conflicts_eq_cases.
Qed.

Lemma dict_values_set_fresh {V : Type} (k : string) (v : V) (d : list (string * V)) :
  ~ In k (Dict.keys d) -> Dict.values (Dict.set k v d) = Dict.values d ++ [v].
Proof.
  intros H. rewrite (dict_set_fresh _ _ _ H). unfold Dict.values. now rewrite map_app.
Qed.

Lemma sections_by_type_facts (sections : list SectionInfo) :
  NoDup (Dict.keys (sections_by_type sections))
  /\ forall ty secs, In (ty, secs) (sections_by_type sections) ->
                     Forall (fun s => type s = ty /\ In s sections) secs.
Proof.
  unfold sections_by_type.
  assert (forall acc : list (string * list SectionInfo),
             NoDup (Dict.keys acc) ->
             (forall ty secs, In (ty, secs) acc ->
                              Forall (fun s => type s = ty) secs) ->
             forall done,
             (forall ty secs, In (ty, secs) acc -> incl secs done) ->
             NoDup (Dict.keys (fold_left (fun by_type sec =>
                                            Dict.append_to (type sec) sec by_type)
                                         sections acc))
             /\ forall ty secs,
                 In (ty, secs) (fold_left (fun by_type sec =>
                                             Dict.append_to (type sec) sec by_type)
                                          sections acc) ->
                 Forall (fun s => type s = ty /\ In s (done ++ sections)) secs) as H.
  { induction sections as [|sec rest IH]; intros acc Hnd Hty done Hdone; cbn [fold_left].
    - split; [exact Hnd|]. intros ty secs Hin. rewrite app_nil_r.
      apply Forall_forall. intros s Hs. split.
      + specialize (Hty _ _ Hin). rewrite Forall_forall in Hty. now apply Hty.
      + now apply (Hdone _ _ Hin).
    - destruct (IH (Dict.append_to (type sec) sec acc)) with (done := done ++ [sec])
        as [H1 H2].
      + unfold Dict.append_to. destruct (Dict.get (type sec) acc); now apply dict_set_nodup.
      + intros ty secs Hin. unfold Dict.append_to in Hin.
        destruct (Dict.get (type sec) acc) as [old|] eqn:E;
          apply dict_set_In in Hin; destruct Hin as [[-> ->]|Hin]; eauto.
        apply Forall_app. split; [|now constructor].
        apply (Hty (type sec)). now apply dict_get_In.
      + intros ty secs Hin. unfold Dict.append_to in Hin.
        destruct (Dict.get (type sec) acc) as [old|] eqn:E;
          apply dict_set_In in Hin; destruct Hin as [[-> ->]|Hin].
        * apply incl_app; [|intros x [<-|[]]; apply in_or_app; right; now left].
          apply incl_appl. apply (Hdone (type sec)). now apply dict_get_In.
        * apply incl_appl. eauto.
        * intros x [<-|[]]. apply in_or_app. right. now left.
        * apply incl_appl. eauto.
      + split; [exact H1|]. intros ty secs Hin.
        specialize (H2 _ _ Hin). now rewrite <- app_assoc in H2. }
  destruct (H [] (NoDup_nil _) (fun ty secs (Hin : In (ty, secs) []) => match Hin with end)
              [] (fun ty secs (Hin : In (ty, secs) []) => match Hin with end))
    as [H1 H2].
  split; [exact H1 | exact H2].
Qed.

Lemma course_type_sections_facts (available : list (string * list SectionInfo)) :
  NoDup (Dict.keys (course_type_sections_of available))
  /\ forall c types, In (c, types) (course_type_sections_of available) ->
                     exists secs, In (c, secs) available /\ types = sections_by_type secs.
Proof.
  unfold course_type_sections_of.
  assert (forall acc : list (string * list (string * list SectionInfo)),
             NoDup (Dict.keys acc) ->
             forall done,
             (forall c types, In (c, types) acc ->
                              exists secs, In (c, secs) done /\ types = sections_by_type secs) ->
             NoDup (Dict.keys (fold_left (fun acc entry =>
                                            Dict.set (fst entry) (sections_by_type (snd entry)) acc)
                                         available acc))
             /\ forall c types,
                 In (c, types) (fold_left (fun acc entry =>
                                             Dict.set (fst entry)
                                                      (sections_by_type (snd entry)) acc)
                                          available acc) ->
                 exists secs, In (c, secs) (done ++ available)
                              /\ types = sections_by_type secs) as H.
  { induction available as [|[c0 secs0] rest IH]; intros acc Hnd done Hdone; cbn [fold_left].
    - split; [exact Hnd|]. intros c types Hin. rewrite app_nil_r. eauto.
    - destruct (IH (Dict.set c0 (sections_by_type secs0) acc)) with (done := done ++ [(c0, secs0)])
        as [H1 H2].
      + now apply dict_set_nodup.
      + cbn [fst snd]. intros c types Hin. apply dict_set_In in Hin.
        destruct Hin as [[-> ->]|Hin].
        * exists secs0. split; [apply in_or_app; right; now left | reflexivity].
        * destruct (Hdone _ _ Hin) as (secs & Hs & Ht). exists secs.
          split; [apply in_or_app; now left | exact Ht].
      + split; [exact H1|]. intros c types Hin.
        destruct (H2 _ _ Hin) as (secs & Hs & Ht). exists secs.
        rewrite <- app_assoc in Hs. auto. }
  destruct (H [] (NoDup_nil _) []) as [H1 H2]; [intros c types []|].
  split; [exact H1 | exact H2].
Qed.

Section SelectorFacts.

Variable Score : Type.
Variable score_leb : Score -> Score -> bool.
Variable Random : Type.
Variable score_fn :
  SectionInfo -> TimeConstraints -> InstructorPreferences -> Random -> Score * Random.

Variable avoid_sections : list string.
Variable tc : TimeConstraints.
Variable ip : InstructorPreferences.

Lemma select_types_invariant (course_code : string)
      (type_sections : list (string * list SectionInfo)) :
  forall chosen all_selected g chosen' all_selected' g' base,
    select_types Score score_leb Random score_fn course_code type_sections
                 avoid_sections tc ip chosen all_selected g
    = (Ok (chosen', all_selected'), g') ->
    NoDup (Dict.keys type_sections) ->
    NoDup (Dict.keys chosen) ->
    (forall k, In k (Dict.keys type_sections) -> ~ In k (Dict.keys chosen)) ->
    conflict_free all_selected ->
    all_selected = base ++ Dict.values chosen ->
    conflict_free all_selected'
    /\ all_selected' = base ++ Dict.values chosen'
    /\ NoDup (Dict.keys chosen')
    /\ forall ty s, In (ty, s) chosen' ->
                    In (ty, s) chosen
                    \/ exists secs, In (ty, secs) type_sections /\ In s secs
                                    /\ allowed avoid_sections tc ip s.
Proof.
  induction type_sections as [|[section_type sections] rest IH];
    intros chosen all_selected g chosen' all' g' base; cbn [select_types].
  - intros H _ Hnd _ Hfree Hall. injection H as <- <- _. auto.
  - intros H Hkeys Hnd Hfresh Hfree Hall.
    cbn [Dict.keys map fst] in Hkeys, Hfresh. apply NoDup_cons_iff in Hkeys.
    destruct Hkeys as [Hnew Hkeys].
    assert (~ In section_type (Dict.keys chosen)) as Hk by (apply Hfresh; now left).
    destruct (_find_best_section Score score_leb Random score_fn sections all_selected
                                 avoid_sections tc ip course_code g)
      as [[[best|]|] g1] eqn:Eb; [| |discriminate].
    + apply find_best_pass in Eb. destruct Eb as (Hin & Hok & Hc).
      destruct (IH _ _ _ _ _ _ base H Hkeys) as (H1 & H2 & H3 & H4).
      * now apply dict_set_nodup.
      * intros k Hkin Hks. apply dict_keys_set in Hks. destruct Hks as [->|Hks].
        -- contradiction.
        -- revert Hks. apply Hfresh. now right.
      * now apply no_conflict_snoc.
      * rewrite (dict_values_set_fresh _ _ _ Hk), Hall. now rewrite app_assoc.
      * split; [exact H1|]. split; [exact H2|]. split; [exact H3|].
        intros ty s Hs. destruct (H4 ty s Hs) as [Hold|(secs & Hsecs & Hmore)].
        -- apply dict_set_In in Hold. destruct Hold as [[-> ->]|Hold]; [|now left].
           right. exists sections. split; [now left | auto].
        -- right. exists secs. split; [now right | exact Hmore].
    + destruct (IH _ _ _ _ _ _ base H Hkeys Hnd) as (H1 & H2 & H3 & H4);
        [intros k Hkin; apply Hfresh; now right | exact Hfree | exact Hall |].
      split; [exact H1|]. split; [exact H2|]. split; [exact H3|].
      intros ty s Hs. destruct (H4 ty s Hs) as [Hold|(secs & Hsecs & Hmore)];
        [now left|].
      right. exists secs. split; [now right | exact Hmore].
Qed.

Lemma select_courses_invariant
      (courses : list (string * list (string * list SectionInfo))) :
  forall selected all_selected g selected' all_selected' g',
    select_courses Score score_leb Random score_fn courses avoid_sections tc ip
                   selected all_selected g
    = (Ok (selected', all_selected'), g') ->
    NoDup (Dict.keys courses) ->
    (forall c types, In (c, types) courses -> NoDup (Dict.keys types)) ->
    (forall k, In k (Dict.keys courses) -> ~ In k (Dict.keys selected)) ->
    conflict_free all_selected ->
    all_selected = flat_map (fun entry => Dict.values (snd entry)) selected ->
    conflict_free all_selected'
    /\ all_selected' = flat_map (fun entry => Dict.values (snd entry)) selected'
    /\ forall c chosen,
         In (c, chosen) selected' ->
         In (c, chosen) selected
         \/ exists types,
              In (c, types) courses
              /\ NoDup (Dict.keys chosen)
              /\ forall ty s, In (ty, s) chosen ->
                              exists secs, In (ty, secs) types /\ In s secs
                                           /\ allowed avoid_sections tc ip s.
Proof.
  induction courses as [|[course_code type_sections] rest IH];
    intros selected all_selected g selected' all' g'; cbn [select_courses].
  - intros H _ _ _ Hfree Hall. injection H as <- <- _. auto.
  - intros H Hkeys Htypes Hfresh Hfree Hall.
    cbn [Dict.keys map fst] in Hkeys, Hfresh. apply NoDup_cons_iff in Hkeys.
    destruct Hkeys as [Hnew Hkeys].
    assert (~ In course_code (Dict.keys selected)) as Hk by (apply Hfresh; now left).
    destruct (select_types Score score_leb Random score_fn course_code type_sections
                           avoid_sections tc ip [] all_selected g)
      as [[[chosen all1]|] g1] eqn:Et; [|discriminate].
    destruct (select_types_invariant _ _ _ _ _ _ _ _ all_selected Et)
      as (Hf1 & Ha1 & Hn1 & Hc1);
      [apply (Htypes course_code type_sections); now left | constructor
       | intros k _ [] | exact Hfree | cbn; now rewrite app_nil_r |].
    destruct (IH _ _ _ _ _ _ H Hkeys) as (H1 & H2 & H3).
    + intros c types Hin. apply (Htypes c types). now right.
    + intros k Hkin Hks. apply dict_keys_set in Hks. destruct Hks as [->|Hks].
      * contradiction.
      * revert Hks. apply Hfresh. now right.
    + exact Hf1.
    + rewrite (dict_set_fresh _ _ _ Hk), flat_map_app, <- Hall. cbn.
      now rewrite app_nil_r.
    + split; [exact H1|]. split; [exact H2|].
      intros c ch Hin. destruct (H3 c ch Hin) as [Hold|(types & Ht & Hmore)].
      * apply dict_set_In in Hold. destruct Hold as [[-> ->]|Hold]; [|now left].
        right. exists type_sections. split; [now left|]. split; [exact Hn1|].
        intros ty s Hs. destruct (Hc1 ty s Hs) as [[]|Hnew']. exact Hnew'.
      * right. exists types. split; [now right | exact Hmore].
Qed.

End SelectorFacts.

Lemma values_types {V : Type} (key_of : V -> string) (d : list (string * V)) :
  (forall k v, In (k, v) d -> key_of v = k) -> map key_of (Dict.values d) = Dict.keys d.
Proof.
  induction d as [|[k v] r IH]; intros H; cbn; [reflexivity|].
  rewrite (H k v) by now left. f_equal. apply IH. intros k' v' Hin. apply H. now right.
Qed.

Lemma booked_several (selected : list (string * list (string * SectionInfo))) :
  booked (map (fun entry =>
                 (fst entry,
                  match snd entry with
                  | [] => Nothing
                  | type_sections => Several (Dict.values type_sections)
                  end))
              selected)
  = flat_map (fun entry => Dict.values (snd entry)) selected.
Proof.
  unfold booked. induction selected as [|[c [|t ts]] r IH]; cbn in *; [reflexivity| |].
  - exact IH.
  - now rewrite IH.
Qed.

Lemma booked_single (selected : list (string * option SectionInfo)) :
  booked (map (fun entry =>
                 (fst entry,
                  match snd entry with
                  | Some chosen => Single chosen
                  | None => Nothing
                  end))
              selected)
  = committed selected.
Proof.
  unfold booked, committed. induction selected as [|[c [s|]] r IH]; cbn in *;
    [reflexivity | now rewrite IH | exact IH].
Qed.

(** X20. The selector with preferences books no two sections that
    conflict, whatever the preferences, the scores and the random draws,
    and also when an exception makes it fall back on
    [auto_select_sections]. *)
Theorem preferences_mode_no_double_booking
        (Score : Type) (score_leb : Score -> Score -> bool) (Random : Type)
        (score_fn : SectionInfo -> TimeConstraints -> InstructorPreferences ->
                    Random -> Score * Random)
        (available : list (string * list SectionInfo))
        (preferences : option Preferences) (avoid_sections : option (list string))
        (g : Random) :
  NoDup (Dict.keys available) ->
  conflict_free
    (booked (fst (auto_select_sections_with_preferences
                    Score score_leb Random score_fn
                    available preferences avoid_sections g))).
Proof.
  intros Hnd. unfold auto_select_sections_with_preferences. cbn zeta.
  match goal with |- context [select_courses ?a ?b ?c ?d ?e ?f ?t ?i ?s ?l ?r] =>
    destruct (select_courses a b c d e f t i s l r) as [[[selected all]|] g'] eqn:E
  end; cbn [fst].
  - rewrite booked_several.
    destruct (course_type_sections_facts available) as [Hk Hc].
    destruct (select_courses_invariant _ _ _ _ _ _ _ _ _ _ _ _ _ _ E Hk) as (H1 & H2 & _).
    + intros c types Hin. destruct (Hc c types Hin) as (secs & _ & ->).
      apply sections_by_type_facts.
    + intros k _ [].
    + constructor.
    + reflexivity.
    + now rewrite <- H2.
  - rewrite booked_single. now apply auto_select_keys.
Qed.

Lemma preferences_mode_no_double_booking_witness :
  conflict_free
    (booked (fst (auto_select_sections_with_preferences
                    Z Z.leb unit (fun _ _ _ g => (0, g))
                    clash_catalog None None tt))).
Proof.
  apply preferences_mode_no_double_booking. exact clash_catalog_keys.
Defined.

(** X21. Each section that the selector with preferences chooses is one
    of the sections of its course; its label holds no code to avoid, its
    instructor no name to avoid, and it meets the time constraints; and
    the sections chosen for one course are of different types. *)
Theorem preferences_are_respected
        (Score : Type) (score_leb : Score -> Score -> bool) (Random : Type)
        (score_fn : SectionInfo -> TimeConstraints -> InstructorPreferences ->
                    Random -> Score * Random)
        (available : list (string * list SectionInfo))
        (preferences : option Preferences) (avoid_sections : option (list string))
        (g : Random) (course_code : string) (chosen : list SectionInfo) :
  In (course_code, Several chosen)
     (fst (auto_select_sections_with_preferences
             Score score_leb Random score_fn available preferences avoid_sections g)) ->
  let preferences := or_default preferences (mkPreferences None None) in
  let time_constraints :=
    or_default (time_constraints preferences) (mkTimeConstraints None None None None) in
  let instructor_preferences :=
    or_default (instructor_preferences preferences) (mkInstructorPreferences None) in
  NoDup (map type chosen)
  /\ exists sections,
       In (course_code, sections) available
       /\ Forall (fun s => In s sections
                           /\ allowed (or_default avoid_sections [])
                                      time_constraints instructor_preferences s)
                 chosen.
Proof.
  unfold auto_select_sections_with_preferences. cbn zeta.
  match goal with |- context [select_courses ?a ?b ?c ?d ?e ?f ?t ?i ?s ?l ?r] =>
    destruct (select_courses a b c d e f t i s l r) as [[[selected all]|] g'] eqn:E
  end; cbn [fst]; intros Hin.
  - apply in_map_iff in Hin. destruct Hin as ([c picks] & Heq & Hin).
    cbn [fst snd] in Heq.
    destruct picks as [|p ps]; [discriminate|]. injection Heq as -> <-.
    change (snd p :: Dict.values ps) with (Dict.values (p :: ps)).
    destruct (course_type_sections_facts available) as [Hk Hc].
    destruct (select_courses_invariant _ _ _ _ _ _ _ _ _ _ _ _ _ _ E Hk) as (_ & _ & H3).
    + intros c types Ht. destruct (Hc c types Ht) as (secs & _ & ->).
      apply sections_by_type_facts.
    + intros k _ [].
    + constructor.
    + reflexivity.
    + destruct (H3 _ _ Hin) as [[]|(types & Ht & Hnd & Hall)].
      destruct (Hc _ _ Ht) as (sections & Hs & ->).
      destruct (sections_by_type_facts sections) as [_ Hty].
      split.
      * rewrite (values_types type); [exact Hnd|].
        intros ty s Hts. destruct (Hall ty s Hts) as (secs & Hsecs & Hsin & _).
        specialize (Hty _ _ Hsecs). rewrite Forall_forall in Hty. now apply Hty.
      * exists sections. split; [exact Hs|]. apply Forall_forall. intros s Hsin.
        unfold Dict.values in Hsin. apply in_map_iff in Hsin.
        destruct Hsin as ([ty s'] & Heq & Hts). cbn [snd] in Heq. subst s'.
        destruct (Hall ty s Hts) as (secs & Hsecs & Hsin & Hok).
        split; [|exact Hok].
        specialize (Hty _ _ Hsecs). rewrite Forall_forall in Hty. now apply Hty.
  - apply in_map_iff in Hin. destruct Hin as ([c [s|]] & Heq & _); discriminate.
Qed.

Lemma preferences_are_respected_witness :
  NoDup (map type [csi2110_section])
  /\ exists sections,
       In ("CSI2110", sections) clash_catalog
       /\ Forall (fun s => In s sections
                           /\ allowed [] (mkTimeConstraints None None None None)
                                      (mkInstructorPreferences None) s)
                 [csi2110_section].
Proof.
  apply (preferences_are_respected Z Z.leb unit (fun _ _ _ g => (0, g))
           clash_catalog None None tt "CSI2110" [csi2110_section]).
  vm_compute. left. reflexivity.
Defined.

(** X22. [_find_best_section] answers with a section of the list that is
    allowed by the preferences and conflicts with no section chosen
    before; when it answers [None], every section of the list that the
    preferences allow conflicts with a section chosen before. *)
Theorem find_best_section_is_exhaustive
        (Score : Type) (score_leb : Score -> Score -> bool) (Random : Type)
        (score_fn : SectionInfo -> TimeConstraints -> InstructorPreferences ->
                    Random -> Score * Random)
        (sections existing_sections : list SectionInfo) (avoid_sections : list string)
        (time_constraints : TimeConstraints)
        (instructor_preferences : InstructorPreferences)
        (course_code : string) (g g' : Random) (answer : option SectionInfo) :
  _find_best_section Score score_leb Random score_fn sections existing_sections
                     avoid_sections time_constraints instructor_preferences
                     course_code g = (Ok answer, g') ->
  match answer with
  | Some best =>
      In best sections
      /\ allowed avoid_sections time_constraints instructor_preferences best
      /\ _section_conflicts_with_schedule best existing_sections = false
  | None =>
      forall s, In s sections ->
                allowed avoid_sections time_constraints instructor_preferences s ->
                _section_conflicts_with_schedule s existing_sections = true
  end.
Proof.
  destruct answer as [best|]; [apply find_best_pass | apply find_best_none].
Qed.

Lemma find_best_section_is_exhaustive_witness :
  _section_conflicts_with_schedule mat1341_section [csi2110_section] = true.
Proof.
  apply (find_best_section_is_exhaustive
           Z Z.leb unit (fun _ _ _ g => (0, g))
           [mat1341_section] [csi2110_section] []
           (mkTimeConstraints None None None None) (mkInstructorPreferences None)
           "MAT1341" tt tt None).
  - reflexivity.
  - now left.
  - split; [reflexivity|]. split; [|vm_compute; reflexivity].
    exists "TBA". split; reflexivity.
Defined.

(** ** The alternative schedule *)

Section AlternativeFacts.

Variable Score : Type.
Variable score_leb : Score -> Score -> bool.
Variable Random : Type.
Variable score_fn :
  SectionInfo -> TimeConstraints -> InstructorPreferences -> Random -> Score * Random.

Variable avoid_sections : list string.
Variable tc : TimeConstraints.
Variable ip : InstructorPreferences.

Lemma scored_sections_total (existing sections : list SectionInfo) :
  Forall plain sections ->
  forall g, exists scored g',
    scored_sections Score Random score_fn sections existing avoid_sections tc ip g
    = (Ok scored, g').
Proof.
  induction 1 as [|sec rest [[name Hn] [label Hl]] _ IH]; intros g;
    cbn [scored_sections]; cbn zeta; [eauto|].
  rewrite Hn, Hl. cbn [stripped].
  assert (exists avoided, label_avoided avoid_sections (JStr label) = Ok avoided) as [a ->]
      by (unfold label_avoided; destruct avoid_sections; eauto).
  match goal with |- context [if ?c then _ else _] => destruct c end; [apply IH|].
  destruct (score_fn sec tc ip g) as [score g1].
  destruct (IH g1) as (more & g2 & ->). eauto.
Qed.

Lemma select_types_total (course_code : string)
      (type_sections : list (string * list SectionInfo)) :
  (forall ty secs, In (ty, secs) type_sections -> Forall plain secs) ->
  forall chosen all_selected g, exists chosen' all_selected' g',
    select_types Score score_leb Random score_fn course_code type_sections
                 avoid_sections tc ip chosen all_selected g
    = (Ok (chosen', all_selected'), g').
Proof.
  induction type_sections as [|[ty secs] rest IH]; intros Hp chosen all_selected g;
    cbn [select_types]; [eauto|].
  unfold _find_best_section.
  destruct (scored_sections_total all_selected secs (Hp ty secs (or_introl eq_refl)) g)
    as (scored & g1 & ->).
  assert (forall t s, In (t, s) rest -> Forall plain s) as Hrest
      by (intros t s H; apply (Hp t s); now right).
  destruct (sorted_by _ scored) as [|[score best] more]; now apply IH.
Qed.

Lemma select_courses_total
      (courses : list (string * list (string * list SectionInfo))) :
  (forall c types ty secs, In (c, types) courses -> In (ty, secs) types ->
                           Forall plain secs) ->
  forall selected all_selected g, exists selected' all_selected' g',
    select_courses Score score_leb Random score_fn courses avoid_sections tc ip
                   selected all_selected g
    = (Ok (selected', all_selected'), g').
Proof.
  induction courses as [|[c types] rest IH]; intros Hp selected all_selected g;
    cbn [select_courses]; [eauto|].
  destruct (select_types_total c types) with (chosen := @nil (string * SectionInfo))
                                              (all_selected := all_selected) (g := g)
    as (chosen & all1 & g1 & ->).
  { intros ty secs H. apply (Hp c types ty secs); [now left | exact H]. }
  apply IH. intros c' types' ty secs H. apply (Hp c' types' ty secs). now right.
Qed.

Lemma select_courses_keys
      (courses : list (string * list (string * list SectionInfo))) :
  forall selected all_selected g selected' all_selected' g',
    select_courses Score score_leb Random score_fn courses avoid_sections tc ip
                   selected all_selected g
    = (Ok (selected', all_selected'), g') ->
    NoDup (Dict.keys selected) -> NoDup (Dict.keys selected').
Proof.
  induction courses as [|[c types] rest IH];
    intros selected all_selected g selected' all' g'; cbn [select_courses].
  - intros H. now injection H as <- _ _.
  - destruct (select_types _ _ _ _ _ _ _ _ _ _ _ _) as [[[chosen all1]|] g1];
      [|discriminate].
    intros H Hnd. apply (IH _ _ _ _ _ _ H). now apply dict_set_nodup.
Qed.

End AlternativeFacts.

Lemma count_selections_from (selected : list (string * Chosen)) :
  forall successful total,
    NoDup (Dict.keys selected) ->
    (forall k, In k (Dict.keys selected) -> ~ In k (Dict.keys successful)) ->
    let result :=
      fold_left
        (fun acc entry =>
           let '(successful_selections, total_sections) := acc in
           match snd entry with
           | Several (s :: more) =>
               (Dict.set (fst entry) (s :: more) successful_selections,
                total_sections + Z.of_nat (List.length (s :: more)))
           | Single s =>
               (Dict.set (fst entry) [s] successful_selections, total_sections + 1)
           | _ => acc
           end)
        selected (successful, total) in
    flat_map snd (fst result) = flat_map snd successful ++ booked selected
    /\ snd result = total + Z.of_nat (List.length (booked selected))
    /\ forall c l, In (c, l) (fst result) ->
                   In (c, l) successful
                   \/ (l <> []
                       /\ (In (c, Several l) selected
                           \/ exists s, l = [s] /\ In (c, Single s) selected)).
Proof.
  induction selected as [|[c ch] rest IH]; intros successful total Hnd Hfresh;
    cbn [fold_left].
  - cbn. rewrite app_nil_r, Z.add_0_r. auto.
  - cbn [Dict.keys map fst] in Hnd, Hfresh. apply NoDup_cons_iff in Hnd.
    destruct Hnd as [Hc Hnd].
    assert (~ In c (Dict.keys successful)) as Hk by (apply Hfresh; now left).
    assert (forall v k, In k (Dict.keys rest) ->
                        ~ In k (Dict.keys (Dict.set c v successful))) as Hfresh'.
    { intros v k Hin Hks. apply dict_keys_set in Hks. destruct Hks as [->|Hks];
        [contradiction|]. revert Hks. apply Hfresh. now right. }
    assert (forall l : list SectionInfo,
               flat_map snd (Dict.set c l successful) = flat_map snd successful ++ l) as Hset.
    { intros l. rewrite (dict_set_fresh _ _ _ Hk), flat_map_app. cbn.
      now rewrite app_nil_r. }
    cbn [fst snd]. destruct ch as [|s|[|s more]].
    + destruct (IH successful total Hnd) as (H1 & H2 & H3);
        [intros k Hin; apply Hfresh; now right|].
      split; [exact H1|]. split; [exact H2|].
      intros c' l Hin. destruct (H3 c' l Hin) as [?|(Hne & [?|(s & ? & ?)])]; auto.
      * right. split; [exact Hne|]. left. now right.
      * right. split; [exact Hne|]. right. exists s. split; [assumption | now right].
    + destruct (IH (Dict.set c [s] successful) (total + 1) Hnd (Hfresh' [s]))
        as (H1 & H2 & H3).
      split; [|split].
      * rewrite H1, Hset. unfold booked. cbn. now rewrite <- app_assoc.
      * rewrite H2. unfold booked. cbn [flat_map snd app List.length]. lia.
      * intros c' l Hin. destruct (H3 c' l Hin) as [Hold|(Hne & [?|(s' & ? & ?)])].
        -- apply dict_set_In in Hold. destruct Hold as [[-> ->]|Hold]; [|now left].
           right. split; [discriminate|]. right. exists s. split; [reflexivity | now left].
        -- right. split; [exact Hne|]. left. now right.
        -- right. split; [exact Hne|]. right. exists s'. split; [assumption | now right].
    + destruct (IH successful total Hnd) as (H1 & H2 & H3);
        [intros k Hin; apply Hfresh; now right|].
      split; [exact H1|]. split; [exact H2|].
      intros c' l Hin. destruct (H3 c' l Hin) as [?|(Hne & [?|(s & ? & ?)])]; auto.
      * right. split; [exact Hne|]. left. now right.
      * right. split; [exact Hne|]. right. exists s. split; [assumption | now right].
    + destruct (IH (Dict.set c (s :: more) successful)
                   (total + Z.of_nat (List.length (s :: more))) Hnd (Hfresh' (s :: more)))
        as (H1 & H2 & H3).
      split; [|split].
      * rewrite H1, Hset. unfold booked. cbn [flat_map snd]. now rewrite <- app_assoc.
      * rewrite H2. unfold booked. cbn [flat_map snd]. rewrite length_app. lia.
      * intros c' l Hin. destruct (H3 c' l Hin) as [Hold|(Hne & [?|(s' & ? & ?)])].
        -- apply dict_set_In in Hold. destruct Hold as [[-> ->]|Hold]; [|now left].
           right. split; [discriminate|]. left. now left.
        -- right. split; [exact Hne|]. left. now right.
        -- right. split; [exact Hne|]. right. exists s'. split; [assumption | now right].
Qed.

Section AlternativeResult.

Variable Score : Type.
Variable score_leb : Score -> Score -> bool.
Variable Random : Type.
Variable score_fn :
  SectionInfo -> TimeConstraints -> InstructorPreferences -> Random -> Score * Random.

Lemma with_preferences_result (available : list (string * list SectionInfo))
      (preferences : option Preferences) (avoid_sections : option (list string))
      (g : Random) :
  NoDup (Dict.keys available) ->
  let selected :=
    fst (auto_select_sections_with_preferences Score score_leb Random score_fn
           available preferences avoid_sections g) in
  let preferences := or_default preferences (mkPreferences None None) in
  let tc := or_default (time_constraints preferences)
                       (mkTimeConstraints None None None None) in
  let ip := or_default (instructor_preferences preferences)
                       (mkInstructorPreferences None) in
  NoDup (Dict.keys selected)
  /\ conflict_free (booked selected)
  /\ (forall c l,
        In (c, Several l) selected ->
        exists sections,
          In (c, sections) available
          /\ Forall (fun s => In s sections
                              /\ allowed (or_default avoid_sections []) tc ip s) l)
  /\ (forall c s,
        In (c, Single s) selected ->
        exists sections, In (c, sections) available /\ In s sections)
  /\ ((forall c sections, In (c, sections) available -> Forall plain sections) ->
      forall c s, ~ In (c, Single s) selected).
Proof.
  intros Hnd. cbn zeta. unfold auto_select_sections_with_preferences. cbn zeta.
  destruct (course_type_sections_facts available) as [Hk Hc].
  assert (forall c types, In (c, types) (course_type_sections_of available) ->
                          NoDup (Dict.keys types)) as Htypes.
  { intros c types Hin. destruct (Hc c types Hin) as (secs & _ & ->).
    apply sections_by_type_facts. }
  match goal with |- context [select_courses ?a ?b ?c ?d ?e ?f ?t ?i ?s ?l ?r] =>
    pose proof (select_courses_total a b c d f t i e) as Htotal;
    destruct (select_courses a b c d e f t i s l r) as [[[selected all]|] g'] eqn:E
  end; cbn [fst].
  - destruct (select_courses_invariant _ _ _ _ _ _ _ _ _ _ _ _ _ _ E Hk Htypes)
      as (H1 & H2 & H3); [intros k _ [] | constructor | reflexivity |].
    split; [|split; [|split; [|split]]].
    + unfold Dict.keys. rewrite map_map. cbn [fst].
      apply (select_courses_keys _ _ _ _ _ _ _ _ _ _ _ _ _ _ E). constructor.
    + rewrite booked_several. now rewrite <- H2.
    + intros c l Hin. apply in_map_iff in Hin. destruct Hin as ([c' picks] & Heq & Hin).
      cbn [fst snd] in Heq. destruct picks as [|p ps]; [discriminate|].
      injection Heq as -> <-.
      change (snd p :: Dict.values ps) with (Dict.values (p :: ps)).
      destruct (H3 _ _ Hin) as [[]|(types & Ht & _ & Hall)].
      destruct (Hc _ _ Ht) as (sections & Hs & ->).
      destruct (sections_by_type_facts sections) as [_ Hty].
      exists sections. split; [exact Hs|]. apply Forall_forall. intros s Hsin.
      unfold Dict.values in Hsin. apply in_map_iff in Hsin.
      destruct Hsin as ([ty s'] & Heq & Hts). cbn [snd] in Heq. subst s'.
      destruct (Hall ty s Hts) as (secs & Hsecs & Hsin & Hok).
      split; [|exact Hok].
      specialize (Hty _ _ Hsecs). rewrite Forall_forall in Hty. now apply Hty.
    + intros c s Hin. apply in_map_iff in Hin. destruct Hin as ([c' [|p ps]] & Heq & _);
        discriminate.
    + intros _ c s Hin. apply in_map_iff in Hin.
      destruct Hin as ([c' [|p ps]] & Heq & _); discriminate.
  - split; [|split; [|split; [|split]]].
    + unfold Dict.keys. rewrite map_map. cbn [fst]. now apply auto_select_nodup.
    + rewrite booked_single. now apply auto_select_keys.
    + intros c l Hin. apply in_map_iff in Hin. destruct Hin as ([c' [s|]] & Heq & _);
        discriminate.
    + intros c s Hin. apply in_map_iff in Hin. destruct Hin as ([c' [s'|]] & Heq & Hin);
        [|discriminate].
      cbn [fst snd] in Heq. injection Heq as -> ->.
      apply dict_In_get in Hin; [|now apply auto_select_nodup].
      destruct (auto_select_entry available c (Some s) Hnd Hin) as (sections & Hget & Hs).
      exists sections. split; [now apply dict_get_In | exact Hs].
    + intros Hplain. exfalso.
      assert (forall c types ty secs,
                 In (c, types) (course_type_sections_of available) ->
                 In (ty, secs) types -> Forall plain secs) as Hall.
      { intros c types ty secs Hin Hts.
        destruct (Hc c types Hin) as (sections & Hs & ->).
        destruct (sections_by_type_facts sections) as [_ Hty].
        specialize (Hty _ _ Hts). specialize (Hplain _ _ Hs).
        rewrite Forall_forall in *. intros s Hsin. apply Hplain. now apply Hty. }
      destruct (Htotal Hall [] [] g) as (sel & al & g1 & Hok). congruence.
Qed.

End AlternativeResult.

Section AlternativeAnswer.

Variable Score : Type.
Variable score_leb : Score -> Score -> bool.
Variable Random : Type.
Variable score_fn :
  SectionInfo -> TimeConstraints -> InstructorPreferences -> Random -> Score * Random.
Variables py_repr json_dumps : json -> string.
Variable fs : FileSystem.

Lemma alternative_answer (course_codes : list string) (term : string)
      (current_schedule : option (list CurrentSection))
      (preferences : option Preferences) (g : Random) :
  let found := find_sections_for_courses py_repr json_dumps fs course_codes term in
  let answer :=
    fst (generate_alternative_schedule Score score_leb Random score_fn
           py_repr json_dumps fs course_codes term current_schedule preferences g) in
  let selected :=
    fst (auto_select_sections_with_preferences Score score_leb Random score_fn
           found preferences (Some (codes_to_avoid (or_default current_schedule []))) g) in
  (alternative_success answer = false
   /\ alternative_sections answer = [] /\ total_sections answer = None)
  \/ (alternative_success answer = true
      /\ alternative_sections answer <> []
      /\ total_sections answer
         = Some (Z.of_nat (List.length (flat_map snd (alternative_sections answer))))
      /\ flat_map snd (alternative_sections answer) = booked selected
      /\ forall c l, In (c, l) (alternative_sections answer) ->
                     l <> []
                     /\ (In (c, Several l) selected
                         \/ exists s, l = [s] /\ In (c, Single s) selected)).
Proof.
  cbn zeta. unfold generate_alternative_schedule. cbn zeta.
  destruct (find_sections_for_courses py_repr json_dumps fs course_codes term)
    as [|e0 found] eqn:Ef; [left; auto|].
  pose proof (find_nodup py_repr json_dumps fs course_codes term) as Hnd.
  rewrite Ef in Hnd.
  destruct (with_preferences_result Score score_leb Random score_fn (e0 :: found)
              preferences (Some (codes_to_avoid (or_default current_schedule []))) g Hnd)
    as (Hkeys & _).
  destruct (auto_select_sections_with_preferences Score score_leb Random score_fn
              (e0 :: found) preferences
              (Some (codes_to_avoid (or_default current_schedule []))) g)
    as [selected g1].
  cbn [fst] in *.
  destruct (count_selections_from selected [] 0 Hkeys) as (H1 & H2 & H3);
    [intros k _ []|].
  unfold count_selections.
  destruct (fold_left _ selected ([], 0)) as [successful total].
  cbn [fst snd flat_map app] in H1, H2, H3.
  destruct (0 <? total) eqn:Et; cbn [fst]; [right | left; auto].
  cbn [alternative_success alternative_sections total_sections].
  apply Z.ltb_lt in Et.
  split; [reflexivity|]. split; [|split; [|split; [exact H1|]]].
  - intros ->. cbn in H1. rewrite <- H1 in H2. cbn in H2. lia.
  - rewrite H1, H2. reflexivity.
  - intros c l Hin. destruct (H3 c l Hin) as [[]|H]. exact H.
Qed.

End AlternativeAnswer.

(** X23. The answer of [generate_alternative_schedule] is a success
    exactly when it carries a section; its sections are free of conflict
    two by two, its count is their number, and each entry is a requested
    course with sections that were found for it, never an empty list. *)
Theorem alternative_schedule_shape
        (Score : Type) (score_leb : Score -> Score -> bool) (Random : Type)
        (score_fn : SectionInfo -> TimeConstraints -> InstructorPreferences ->
                    Random -> Score * Random)
        (py_repr json_dumps : json -> string) (fs : FileSystem)
        (course_codes : list string) (term : string)
        (current_schedule : option (list CurrentSection))
        (preferences : option Preferences) (g : Random) :
  let found := find_sections_for_courses py_repr json_dumps fs course_codes term in
  let answer :=
    fst (generate_alternative_schedule Score score_leb Random score_fn
           py_repr json_dumps fs course_codes term current_schedule preferences g) in
  conflict_free (flat_map snd (alternative_sections answer))
  /\ (alternative_success answer = true <-> alternative_sections answer <> [])
  /\ total_sections answer
     = (if alternative_success answer
        then Some (Z.of_nat (List.length (flat_map snd (alternative_sections answer))))
        else None)
  /\ forall c l,
       In (c, l) (alternative_sections answer) ->
       l <> [] /\ In c course_codes
       /\ exists sections, Dict.get c found = Some sections /\ incl l sections.
Proof.
  cbn zeta.
  pose proof (find_nodup py_repr json_dumps fs course_codes term) as Hnd.
  destruct (with_preferences_result Score score_leb Random score_fn _ preferences
              (Some (codes_to_avoid (or_default current_schedule []))) g Hnd)
    as (_ & Hfree & Hseveral & Hsingle & _).
  destruct (alternative_answer Score score_leb Random score_fn py_repr json_dumps fs
              course_codes term current_schedule preferences g)
    as [(-> & -> & ->)|(-> & Hne & -> & Hb & Hall)].
  - cbn. repeat split; try constructor; try discriminate; try contradiction.
  - split; [now rewrite Hb|]. split; [tauto|]. split; [reflexivity|].
    intros c l Hin. destruct (Hall c l Hin) as (Hl & Hsel). split; [exact Hl|].
    assert (exists sections,
               In (c, sections)
                  (find_sections_for_courses py_repr json_dumps fs course_codes term)
               /\ incl l sections) as (sections & Hs & Hincl).
    { destruct Hsel as [Hsev|(s & -> & Hsin)].
      - destruct (Hseveral c l Hsev) as (sections & Hs & Hf). exists sections.
        split; [exact Hs|]. rewrite Forall_forall in Hf. intros s Hsl. now apply Hf.
      - destruct (Hsingle c s Hsin) as (sections & Hs & Hin'). exists sections.
        split; [exact Hs|]. intros x [<-|[]]. exact Hin'. }
    apply dict_In_get in Hs; [|exact Hnd]. split; [|now exists sections].
    now destruct (find_entry_loaded py_repr json_dumps fs _ _ _ _ Hs) as (_ & H & _).
Qed.

(** X24. When the instructor and the label of every section found are
    strings, each section of an alternative schedule is allowed by the
    preferences, and its label holds none of the section codes of the
    current schedule. *)
Theorem alternative_avoids_current
        (Score : Type) (score_leb : Score -> Score -> bool) (Random : Type)
        (score_fn : SectionInfo -> TimeConstraints -> InstructorPreferences ->
                    Random -> Score * Random)
        (py_repr json_dumps : json -> string) (fs : FileSystem)
        (course_codes : list string) (term : string)
        (current_schedule : option (list CurrentSection))
        (preferences : option Preferences) (g : Random) :
  (forall c sections,
      In (c, sections) (find_sections_for_courses py_repr json_dumps fs course_codes term) ->
      Forall plain sections) ->
  let answer :=
    fst (generate_alternative_schedule Score score_leb Random score_fn
           py_repr json_dumps fs course_codes term current_schedule preferences g) in
  let preferences := or_default preferences (mkPreferences None None) in
  let time_constraints :=
    or_default (time_constraints preferences) (mkTimeConstraints None None None None) in
  let instructor_preferences :=
    or_default (instructor_preferences preferences) (mkInstructorPreferences None) in
  Forall (allowed (codes_to_avoid (or_default current_schedule []))
                  time_constraints instructor_preferences)
         (flat_map snd (alternative_sections answer)).
Proof.
  intros Hplain. cbn zeta.
  pose proof (find_nodup py_repr json_dumps fs course_codes term) as Hnd.
  destruct (with_preferences_result Score score_leb Random score_fn _ preferences
              (Some (codes_to_avoid (or_default current_schedule []))) g Hnd)
    as (_ & _ & Hseveral & _ & Hno).
  specialize (Hno Hplain).
  destruct (alternative_answer Score score_leb Random score_fn py_repr json_dumps fs
              course_codes term current_schedule preferences g)
    as [(_ & -> & _)|(_ & _ & _ & _ & Hall)]; [constructor|].
  apply Forall_forall. intros s Hs. apply in_flat_map in Hs.
  destruct Hs as ([c l] & Hin & Hsl). cbn [snd] in Hsl.
  destruct (Hall c l Hin) as (_ & [Hsev|(s' & _ & Hsin)]).
  - destruct (Hseveral c l Hsev) as (sections & _ & Hf).
    rewrite Forall_forall in Hf. now apply Hf.
  - now apply Hno in Hsin.
Qed.

Lemma alternative_avoids_current_witness :
  Forall (allowed (codes_to_avoid [mkCurrentSection (Some "B00") None])
                  (mkTimeConstraints None None None None)
                  (mkInstructorPreferences None))
         (flat_map snd
            (alternative_sections
               (fst (generate_alternative_schedule
                       Z Z.leb unit (fun _ _ _ g => (0, g)) no_repr no_repr fall_files
                       ["MAT1341"; "CSI2110"] "Fall"
                       (Some [mkCurrentSection (Some "B00") None]) None tt)))).
Proof.
  apply (alternative_avoids_current
           Z Z.leb unit (fun _ _ _ g => (0, g)) no_repr no_repr fall_files
           ["MAT1341"; "CSI2110"] "Fall"
           (Some [mkCurrentSection (Some "B00") None]) None tt).
  intros c sections Hin. vm_compute in Hin.
  destruct Hin as [H|[H|[]]]; injection H as <- <-;
    (constructor; [|constructor]); split; eexists; reflexivity.
Defined.

(** ** Writing the grouped selection *)

Lemma default_times_valid : valid_time (mkTime 9 0) /\ valid_time (mkTime 10 30).
Proof. unfold valid_time. cbn. lia. Qed.

Lemma parse_time_is_valid (time_str : string) : valid_time (Views.parse_time time_str).
Proof.
  unfold Views.parse_time. cbn zeta.
  match goal with |- valid_time (catch ?body _) => destruct body as [t|] eqn:E end;
    cbn [catch]; [|apply default_times_valid].
  repeat match type of E with
         | (if ?c then _ else _) = _ => destruct c
         | bind ?m _ = _ => destruct m; cbn [bind] in E; [|discriminate]
         end;
    try (injection E as <-; apply default_times_valid);
    eapply time_of_valid; exact E.
Qed.

Lemma event_times_valid (time_str : string) :
  valid_time (fst (Views.event_times time_str))
  /\ valid_time (snd (Views.event_times time_str)).
Proof.
  unfold Views.event_times. cbn zeta.
  destruct (negb (String.eqb time_str "") && PyStr.contains "-" time_str);
    [|apply default_times_valid].
  destruct (Views.two_parts "-" time_str) as [[a b]|]; cbn [bind catch fst snd];
    [|apply default_times_valid].
  split; apply parse_time_is_valid.
Qed.

Section InsertFacts.

Variable py_repr : json -> string.
Variable rejects : Store -> CalendarEvent -> bool.

Lemma insert_days_rows (event_on : string -> CalendarEvent) (section_code : json)
      (days : list string) :
  forall events_created db,
  exists added,
    Views.insert_days rejects event_on section_code days events_created db
    = (events_created + Z.of_nat (List.length added), db ++ added)
    /\ (List.length added <= List.length days)%nat
    /\ Forall (fun ev => exists day, In day weekdays /\ ev = event_on day) added.
Proof.
  induction days as [|day rest IH]; intros n db; cbn [Views.insert_days]; cbn zeta.
  - exists []. rewrite Z.add_0_r, app_nil_r. repeat split; [cbn; lia | constructor].
  - assert (exists added,
               Views.insert_days rejects event_on section_code rest n db
               = (n + Z.of_nat (List.length added), db ++ added)
               /\ (List.length added <= List.length (day :: rest))%nat
               /\ Forall (fun ev => exists day, In day weekdays /\ ev = event_on day) added)
      as Hskip.
    { destruct (IH n db) as (added & E & L & F). exists added.
      repeat split; [exact E | cbn; lia | exact F]. }
    destruct (PyStr.mem (PyStr.titled day) _) eqn:Em; cbn [negb]; [|exact Hskip].
    destruct (Views.has_group section_code); cbn [negb]; [|exact Hskip].
    unfold create. destruct (rejects db (event_on (PyStr.titled day))); [exact Hskip|].
    destruct (IH (n + 1) (db ++ [event_on (PyStr.titled day)])) as (added & E & L & F).
    exists (event_on (PyStr.titled day) :: added). rewrite E. split; [|split].
    + rewrite <- app_assoc. cbn [app List.length]. f_equal. lia.
    + cbn. lia.
    + constructor; [|exact F]. exists (PyStr.titled day). split; [|reflexivity].
      apply mem_In in Em. exact Em.
Qed.

Lemma insert_section_rows (user : User) (term : string) (term_dates : Date * Date)
      (sec : SectionInfo) :
  Views.get_term_dates term = Ok term_dates ->
  forall events_created db,
  exists added,
    Views.insert_section py_repr rejects user term term_dates (events_created, db) sec
    = (events_created + Z.of_nat (List.length added), db ++ added)
    /\ (List.length added <= List.length (Views.days_set (days sec)))%nat
    /\ Forall (inserted_row user term) added.
Proof.
  intros Hd n db. unfold Views.insert_section. cbn zeta.
  assert (exists added : Store,
             (n, db) = (n + Z.of_nat (List.length added), db ++ added)
             /\ (List.length added <= List.length (Views.days_set (days sec)))%nat
             /\ Forall (inserted_row user term) added) as Hnone.
  { exists []. rewrite Z.add_0_r, app_nil_r. repeat split; [cbn; lia | constructor]. }
  destruct (String.eqb (code sec) ""); [exact Hnone|].
  destruct (Views.days_set (days sec)) as [|d0 ds] eqn:Ed; [exact Hnone|].
  destruct (event_times_valid (time sec)) as [Hs He].
  destruct (Views.event_times (time sec)) as [start_time_obj end_time_obj].
  cbn [fst snd] in Hs, He.
  match goal with |- context [Views.insert_days _ ?f ?c ?l ?k ?d] =>
    destruct (insert_days_rows f c l k d) as (added & E & L & F)
  end.
  exists added. split; [exact E|]. split; [exact L|].
  eapply Forall_impl; [|exact F]. intros ev (day & Hday & ->).
  unfold inserted_row. cbn. destruct term_dates. auto 10.
Qed.

Lemma insert_fold_rows (user : User) (term : string) (term_dates : Date * Date)
      (sections : list SectionInfo) :
  Views.get_term_dates term = Ok term_dates ->
  forall events_created db,
  exists added,
    fold_left (Views.insert_section py_repr rejects user term term_dates) sections
              (events_created, db)
    = (events_created + Z.of_nat (List.length added), db ++ added)
    /\ (List.length added
        <= List.length (flat_map (fun sec => Views.days_set (days sec)) sections))%nat
    /\ Forall (inserted_row user term) added.
Proof.
  intros Hd. induction sections as [|sec rest IH]; intros n db; cbn [fold_left flat_map].
  - exists []. rewrite Z.add_0_r, app_nil_r. repeat split; [cbn; lia | constructor].
  - destruct (insert_section_rows user term term_dates sec Hd n db) as (a1 & E1 & L1 & F1).
    rewrite E1.
    destruct (IH (n + Z.of_nat (List.length a1)) (db ++ a1)) as (a2 & E2 & L2 & F2).
    exists (a1 ++ a2). split; [|split].
    + etransitivity; [exact E2|].
      rewrite <- app_assoc, length_app, Nat2Z.inj_add. f_equal. lia.
    + rewrite !length_app. lia.
    + apply Forall_app. now split.
Qed.

End InsertFacts.

Lemma term_dates_cases (term : string) (year : Z) (ts te : Date) :
  _get_term_dates term year = Ok (ts, te) ->
  (ts = mkDate year 9 3 /\ te = mkDate year 12 2)
  \/ (ts = mkDate (year + 1) 1 12 /\ te = mkDate (year + 1) 4 15)
  \/ (ts = mkDate (year + 1) 5 5 /\ te = mkDate (year + 1) 7 29).
Proof.
  unfold _get_term_dates, date_of.
  repeat match goal with
         | |- context [if ?c then _ else _] => destruct c; cbn [bind]
         end;
    intros H; try discriminate; injection H as <- <-; auto.
Qed.

Lemma inserted_row_kept (user who : User) (term term' : string) (year : Z)
      (ts te : Date) (ev : CalendarEvent) :
  year <> 2024 ->
  inserted_row user term ev ->
  _get_term_dates term' year = Ok (ts, te) ->
  in_term who ts te ev = false.
Proof.
  intros Hy (_ & _ & _ & _ & _ & Hd) Hc.
  unfold Views.get_term_dates in Hd.
  apply term_dates_cases in Hd. apply term_dates_cases in Hc.
  unfold in_term, Date_eqb.
  destruct Hd as [[-> _]|[[-> _]|[-> _]]], Hc as [[-> _]|[[-> _]|[-> _]]];
    cbn [year_of month_of day_of];
    repeat match goal with
           | |- context [?a =? ?b] =>
               let E := fresh in destruct (a =? b) eqn:E;
               [apply Z.eqb_eq in E | clear E]
           end;
    try lia; cbn; rewrite ?andb_false_r; reflexivity.
Qed.

(** X25. [insert_to_calendar] never raises and only appends: its count
    is the number of rows it adds, at most one for each day of each
    section; each row is a weekly row of the user on a day of the week,
    with times that [datetime.time] accepts and the dates of the term in
    2024. *)
Theorem insert_to_calendar_rows (py_repr : json -> string)
        (rejects : Store -> CalendarEvent -> bool) (user : User)
        (sections : list SectionInfo) (term : string) (db : Store) :
  exists added,
    Views.insert_to_calendar py_repr rejects user sections term db
    = Ok (Z.of_nat (List.length added), db ++ added)
    /\ (List.length added
        <= List.length (flat_map (fun sec => Views.days_set (days sec)) sections))%nat
    /\ Forall (inserted_row user term) added.
Proof.
  unfold Views.insert_to_calendar. cbn zeta.
  destruct (term_dates_ok term 2024) as (ts & te & Hd); [lia|].
  assert (Views.get_term_dates term = Ok (ts, te)) as Hd' by exact Hd.
  rewrite Hd'. cbn [bind].
  destruct (insert_fold_rows py_repr rejects user term (ts, te) sections Hd' 0 db)
    as (added & E & L & F).
  exists added. split; [|split; assumption]. f_equal. exact E.
Qed.

(** X26. The rows that [insert_to_calendar] writes carry the dates of
    2024, so [clear_user_schedule] for another year, 2025 by default,
    removes none of them, for whatever user and term it is called. *)
Theorem inserted_rows_outlive_clear (py_repr : json -> string)
        (rejects : Store -> CalendarEvent -> bool) (user who : User)
        (sections : list SectionInfo) (term term' : string) (year : Z) (db : Store) :
  year <> 2024 ->
  exists added,
    Views.insert_to_calendar py_repr rejects user sections term db
    = Ok (Z.of_nat (List.length added), db ++ added)
    /\ clear_user_schedule who term' year (db ++ added)
       = (fst (clear_user_schedule who term' year db),
          snd (clear_user_schedule who term' year db) ++ added).
Proof.
  intros Hy.
  destruct (term_dates_ok term 2024) as (ts & te & Hd); [lia|].
  assert (Views.get_term_dates term = Ok (ts, te)) as Hd' by exact Hd.
  destruct (insert_fold_rows py_repr rejects user term (ts, te) sections Hd' 0 db)
    as (added & E & _ & F).
  exists added. split.
  - unfold Views.insert_to_calendar. cbn zeta. rewrite Hd'. cbn [bind]. f_equal. exact E.
  - unfold clear_user_schedule.
    destruct (_get_term_dates term' year) as [[ts' te']|] eqn:Ec; cbn [bind catch fst snd];
      [|reflexivity].
    assert (Forall (fun ev => in_term who ts' te' ev = false) added) as Hkept.
    { eapply Forall_impl; [|exact F]. intros ev Hev.
      now apply (inserted_row_kept user who term term' year ts' te' ev). }
    rewrite !filter_app.
    assert (filter (in_term who ts' te') added = []) as ->.
    { clear -Hkept. induction Hkept as [|ev r Hev _ IH]; cbn; [reflexivity|].
      now rewrite Hev. }
    assert (filter (fun ev => negb (in_term who ts' te' ev)) added = added) as ->.
    { clear -Hkept. induction Hkept as [|ev r Hev _ IH]; cbn; [reflexivity|].
      rewrite Hev. cbn. now rewrite IH. }
    now rewrite app_nil_r.
Qed.

Lemma inserted_rows_outlive_clear_witness :
  exists added,
    Views.insert_to_calendar no_repr accepts_all "alice"
                             [csi2110_section; mat1341_section] "Fall" []
    = Ok (Z.of_nat (List.length added), [] ++ added)
    /\ clear_user_schedule "alice" "Fall" 2025 ([] ++ added)
       = (fst (clear_user_schedule "alice" "Fall" 2025 []),
          snd (clear_user_schedule "alice" "Fall" 2025 []) ++ added).
Proof.
  apply (inserted_rows_outlive_clear no_repr accepts_all "alice" "alice"
           [csi2110_section; mat1341_section] "Fall" "Fall" 2025 []).
  lia.
Defined.

(** ** No overlap in the calendar *)

Lemma rows_do_not_overlap (s1 s2 : SectionInfo) (b1 b2 : list CalendarEvent) :
  conflicts s1 s2 = false ->
  rows_of_section s1 b1 -> rows_of_section s2 b2 ->
  forall r1 r2, In r1 b1 -> In r2 b2 -> no_overlap r1 r2.
Proof.
  intros Hc H1 H2 r1 r2 Hr1 Hr2 Hday.
  destruct (H1 r1 Hr1) as [Ht1 Hd1]. destruct (H2 r2 Hr2) as [Ht2 Hd2].
  rewrite conflicts_eq_cases in Hc. unfold conflicts_cases in Hc.
  rewrite Ht1, Ht2 in Hc.
  destruct (_parse_days_string (days s1)) as [|x1 d1] eqn:E1; [destruct Hd1|].
  destruct (_parse_days_string (days s2)) as [|x2 d2] eqn:E2; [destruct Hd2|].
  destruct (common_days (x1 :: d1) (x2 :: d2)) as [|c0 cs] eqn:Ec; [|exact Hc].
  exfalso. rewrite common_days_nil in Ec.
  apply (Ec (day_of_week r1) Hd1). now rewrite Hday.
Qed.

Lemma blocks_pairwise {A B : Type} (P : A -> B -> Prop) (R : A -> A -> Prop)
      (Q : B -> B -> Prop) (l : list A) (bs : list B) :
  (forall a1 a2 b1 b2, R a1 a2 -> P a1 b1 -> P a2 b2 -> Q b1 b2) ->
  Forall2 P l bs -> ForallOrdPairs R l -> ForallOrdPairs Q bs.
Proof.
  intros H HF. induction HF as [|a b l bs Hab HF IH]; intros HR; [constructor|].
  inversion HR as [|a' l' Ha Hl]; subst. constructor; [|now apply IH].
  clear IH Hl HR. induction HF as [|a2 b2 l bs Hab2 HF IH]; [constructor|].
  apply Forall_inv in Ha as Ha2. apply Forall_inv_tail in Ha.
  constructor; [now apply (H a a2) | now apply IH].
Qed.

Section OverlapFacts.

Variable py_repr : json -> string.
Variable rejects : Store -> CalendarEvent -> bool.
Variable user : User.
Variables term_start term_end : Date.

Lemma create_days_block (event_on : string -> CalendarEvent) (days : list string) :
  forall events_added db,
  exists added,
    create_days rejects event_on days events_added db
    = (events_added + Z.of_nat (List.length added), db ++ added)
    /\ Forall (fun r => exists day, In day days /\ r = event_on day) added.
Proof.
  induction days as [|day rest IH]; intros n db; cbn [create_days].
  - exists []. rewrite Z.add_0_r, app_nil_r. split; [reflexivity | constructor].
  - unfold create. destruct (rejects db (event_on day)).
    + exists []. rewrite Z.add_0_r, app_nil_r. split; [reflexivity | constructor].
    + destruct (IH (n + 1) (db ++ [event_on day])) as (added & E & F).
      exists (event_on day :: added). rewrite E. split.
      * rewrite <- app_assoc. cbn [app List.length]. f_equal. lia.
      * constructor; [exists day; split; [now left | reflexivity]|].
        eapply Forall_impl; [|exact F]. intros r (d & Hd & ->). exists d.
        split; [now right | reflexivity].
Qed.

Lemma fold_events_blocks (selected : list (string * option SectionInfo)) :
  forall events_added db,
  exists blocks,
    fold_left (add_section_events py_repr rejects user term_start term_end)
              selected (events_added, db)
    = (events_added + Z.of_nat (List.length (List.concat blocks)), db ++ List.concat blocks)
    /\ Forall2 rows_of_section (committed selected) blocks.
Proof.
  induction selected as [|[course_code [sec|]] rest IH]; intros n db; cbn [fold_left].
  - exists []. cbn. rewrite Z.add_0_r, app_nil_r. split; [reflexivity | constructor].
  - assert (exists block,
               add_section_events py_repr rejects user term_start term_end (n, db)
                                  (course_code, Some sec)
               = (n + Z.of_nat (List.length block), db ++ block)
               /\ rows_of_section sec block) as (block & E & Hb).
    { assert (exists block : list CalendarEvent,
                 (n, db) = (n + Z.of_nat (List.length block), db ++ block)
                 /\ rows_of_section sec block) as Hnone.
      { exists []. rewrite Z.add_0_r, app_nil_r. split; [reflexivity | intros r []]. }
      cbn [add_section_events].
      destruct (_parse_time_string (time sec)) as [[st et]|] eqn:Et; [|exact Hnone].
      destruct (_parse_days_string (days sec)) as [|d0 ds] eqn:Ed; [exact Hnone|].
      match goal with |- context [create_days _ ?f ?l ?k ?d] =>
        destruct (create_days_block f l k d) as (added & E & F)
      end.
      exists added. split; [exact E|]. intros r Hr.
      rewrite Forall_forall in F. destruct (F r Hr) as (day & Hday & ->). cbn.
      split; [exact Et | rewrite Ed; exact Hday]. }
    rewrite E. destruct (IH (n + Z.of_nat (List.length block)) (db ++ block))
      as (blocks & E2 & F2).
    exists (block :: blocks). split.
    + etransitivity; [exact E2|]. cbn [List.concat].
      rewrite <- app_assoc, length_app, Nat2Z.inj_add. f_equal. lia.
    + unfold committed. cbn [flat_map snd app]. constructor; assumption.
  - cbn [add_section_events]. destruct (IH n db) as (blocks & E & F).
    exists blocks. split; [exact E | exact F].
Qed.

End OverlapFacts.

(** X27. The rows that [add_sections_to_calendar] writes for a selection
    free of conflict: those of one chosen section carry its parsed times
    and fall on its parsed days, and two rows of different chosen sections
    that fall on the same day do not overlap in time. *)
Theorem calendar_has_no_overlap (py_repr : json -> string)
        (rejects : Store -> CalendarEvent -> bool) (user : User)
        (selected : list (string * option SectionInfo)) (term : string) (year : Z)
        (db : Store) :
  conflict_free (committed selected) ->
  1 <= year <= 9998 ->
  exists blocks,
    add_sections_to_calendar py_repr rejects user selected term year db
    = Ok (Z.of_nat (List.length (List.concat blocks)), db ++ List.concat blocks)
    /\ Forall2 rows_of_section (committed selected) blocks
    /\ ForallOrdPairs (fun b1 b2 => forall r1 r2, In r1 b1 -> In r2 b2 -> no_overlap r1 r2)
                      blocks.
Proof.
  intros Hfree Hy. destruct (term_dates_ok term year Hy) as (ts & te & Hd).
  destruct (fold_events_blocks py_repr rejects user ts te selected 0 db) as (blocks & E & F).
  exists blocks. split; [|split; [exact F|]].
  - unfold add_sections_to_calendar. rewrite Hd. cbn [bind]. f_equal. exact E.
  - apply (blocks_pairwise rows_of_section
             (fun x y => conflicts x y = false /\ conflicts y x = false)
             _ (committed selected) blocks); [|exact F | exact Hfree].
    intros s1 s2 b1 b2 [Hc _] H1 H2. now apply (rows_do_not_overlap s1 s2).
Qed.

Lemma fall_selection_free : conflict_free (committed fall_selection).
Proof.
  unfold conflict_free. cbn [committed fall_selection flat_map snd app].
  constructor; [|constructor; [constructor | constructor]].
  constructor; [split; vm_compute; reflexivity | constructor].
Qed.

Lemma calendar_has_no_overlap_witness :
  exists blocks,
    add_sections_to_calendar no_repr accepts_all "alice" fall_selection "Fall" 2025 []
    = Ok (Z.of_nat (List.length (List.concat blocks)), [] ++ List.concat blocks)
    /\ Forall2 rows_of_section (committed fall_selection) blocks
    /\ ForallOrdPairs (fun b1 b2 => forall r1 r2, In r1 b1 -> In r2 b2 -> no_overlap r1 r2)
                      blocks.
Proof.
  apply (calendar_has_no_overlap no_repr accepts_all "alice" fall_selection
                                 "Fall" 2025 []).
  - exact fall_selection_free.
  - lia.
Defined.
